(** * motionalyx-pdf-service: the render server, embedded and verified

    The development follows the service's source, the Express server with
    the single-PDF route, the batch route, the reused browser and the
    graceful shutdown: the text helpers ([safeSlug], [formatDate],
    [renderTemplate]), the template map, the shared browser, the storage
    upload, the per-template pipeline [generateOnePdf], the two POST
    handlers and [shutdown].  (The repository also keeps an earlier server
    with the batch route only, which launches a browser per render; it is
    not the subject here.)

    Modelling conventions.
    - A JavaScript string is a sequence of UTF-16 code units.  Here a string
      is a Rocq [string], i.e. a sequence of code units below 256 (the
      Latin-1 range); on that range [toLowerCase] and the regular-expression
      classes below are exact.
    - A JSON number is modelled by an integer ([Z]); in the safe-integer range
      its decimal rendering is what [String(n)] yields.
    - A conversion to a string ([String(v)], a template literal, a property
      key, [new Date(v)]) throws a [TypeError] on an object that has a
      member [toString] of its own, and on an array that holds one.  The
      text helpers are functions that give the result where the conversion
      returns; [Js.throwsToString] and [renderTemplateThrows] tell where it
      throws, and [generateOnePdf] throws there, at the step where the code
      converts.
    - Everything the server obtains from outside (file system, browser,
      storage, clock, random source, the host's date parser and time zone) is
      a field of the record [Host]; theorems quantify over every host.
    - A handler is a function from the state of the process to its answer
      and the next state: one request is served from its first line to its
      answer.  The one place where the order of turns between requests
      matters, the shared browser, has an event-loop model of its own. *)

From Stdlib Require Import String Ascii List ZArith Lia Bool Arith.
Import ListNotations.
Local Open Scope string_scope.
Local Open Scope Z_scope.

(** ** Code units and character classes *)

Module Chars.

Definition code (c : ascii) : nat := nat_of_ascii c.

Definition between (lo hi : nat) (c : ascii) : bool :=
  (Nat.leb lo (code c) && Nat.leb (code c) hi)%bool.

Definition isUpper (c : ascii) : bool := between 65 90 c.
Definition isLower (c : ascii) : bool := between 97 122 c.
Definition isDigit (c : ascii) : bool := between 48 57 c.

(** [[a-z0-9]] *)
Definition isLowerAlnum (c : ascii) : bool := (isLower c || isDigit c)%bool.

(** [[a-zA-Z0-9_]] *)
Definition isIdent (c : ascii) : bool :=
  (isLower c || isUpper c || isDigit c || Nat.eqb (code c) 95)%bool.

(** [\s] restricted to code units below 256: TAB, LF, VT, FF, CR, SP, NBSP. *)
Definition isSpace (c : ascii) : bool :=
  (between 9 13 c || Nat.eqb (code c) 32 || Nat.eqb (code c) 160)%bool.

(** Any code unit but the double quote (code 34). *)
Definition notQuote (c : ascii) : bool := negb (Nat.eqb (code c) 34).

(** One code unit of [String.prototype.toLowerCase]: A-Z, and the Latin-1
    capitals U+00C0..U+00DE except the multiplication sign U+00D7. *)
Definition lowerChar (c : ascii) : ascii :=
  if (isUpper c || (between 192 222 c && negb (Nat.eqb (code c) 215)))%bool
  then ascii_of_nat (code c + 32)
  else c.

End Chars.

(** ** Strings *)

Module Str.

Fixpoint map (f : ascii -> ascii) (s : string) : string :=
  match s with
  | EmptyString => EmptyString
  | String c r => String (f c) (map f r)
  end.

(** The longest prefix whose characters satisfy [p], and what follows. *)
Fixpoint span (p : ascii -> bool) (s : string) : string * string :=
  match s with
  | EmptyString => (EmptyString, EmptyString)
  | String c r =>
      if p c then let '(a, b) := span p r in (String c a, b)
      else (EmptyString, s)
  end.

Fixpoint all (p : ascii -> bool) (s : string) : bool :=
  match s with
  | EmptyString => true
  | String c r => (p c && all p r)%bool
  end.

(** [s.slice(0, n)] for [n] not above 2^53. *)
Fixpoint take (n : nat) (s : string) : string :=
  match n, s with
  | O, _ => EmptyString
  | _, EmptyString => EmptyString
  | S k, String c r => String c (take k r)
  end.

Fixpoint drop (n : nat) (s : string) : string :=
  match n, s with
  | O, _ => s
  | _, EmptyString => EmptyString
  | S k, String _ r => drop k r
  end.

(** [parts.join(sep)] *)
Fixpoint join (sep : string) (parts : list string) : string :=
  match parts with
  | [] => EmptyString
  | [p] => p
  | p :: rest => p ++ sep ++ join sep rest
  end.

Definition len (s : string) : nat := String.length s.

(** [s.startsWith(p)], with the remainder. *)
Fixpoint stripPrefix (p s : string) : option string :=
  match p, s with
  | EmptyString, _ => Some s
  | String a p', String b s' =>
      if Ascii.eqb a b then stripPrefix p' s' else None
  | _, EmptyString => None
  end.

(** [s.includes(p)] *)
Fixpoint includes (p s : string) : bool :=
  match stripPrefix p s with
  | Some _ => true
  | None => match s with
            | EmptyString => false
            | String _ r => includes p r
            end
  end.

End Str.

(** ** Decimal rendering of integers *)

Module Dec.

Definition digit (n : Z) : ascii := ascii_of_nat (48 + Z.to_nat (n mod 10)).

(** Digits of a non-negative [n], most significant first, in front of [acc]. *)
Fixpoint digits (fuel : nat) (n : Z) (acc : string) : string :=
  match fuel with
  | O => acc
  | S f =>
      let acc' := String (digit n) acc in
      if n <? 10 then acc' else digits f (n / 10) acc'
  end.

Definition ofNonneg (n : Z) : string :=
  digits (S (Z.to_nat (Z.log2 n))) n EmptyString.

(** [String(n)] for an integer [n]. *)
Definition ofZ (n : Z) : string :=
  if n <? 0 then String "-" (ofNonneg (- n)) else ofNonneg n.

(** [String(n).padStart(2, "0")] *)
Definition pad2 (n : Z) : string :=
  let s := ofZ n in
  match s with
  | String _ EmptyString => String "0" s
  | EmptyString => "00"
  | _ => s
  end.

End Dec.

(** ** JavaScript values

    What a parsed JSON body, a parsed query string, or a property read can
    yield.  [VInherited name] is the built-in object found under [name] on
    [Object.prototype] (a function, or the prototype itself for [__proto__]):
    a property read on a plain object reaches it when the object has no own
    property of that name. *)

#[local] Set Warnings "-register-all".

Inductive value : Type :=
  | VUndefined
  | VNull
  | VBool (b : bool)
  | VNum (n : Z)
  | VStr (s : string)
  | VArr (items : list value)
  | VObj (props : list (string * value))
  | VInherited (name : string).

(** A plain object: its own properties, in property order. *)
Definition object : Type := list (string * value).

Module Js.

(** The names every plain object inherits from [Object.prototype]. *)
Definition protoNames : list string :=
  [ "constructor"; "__defineGetter__"; "__defineSetter__"; "hasOwnProperty";
    "__lookupGetter__"; "__lookupSetter__"; "isPrototypeOf";
    "propertyIsEnumerable"; "toString"; "valueOf"; "__proto__";
    "toLocaleString" ].

Definition inProto (k : string) : bool :=
  existsb (String.eqb k) protoNames.

Fixpoint ownProp (o : object) (k : string) : option value :=
  match o with
  | [] => None
  | (k', v) :: rest => if String.eqb k k' then Some v else ownProp rest k
  end.

(** [o[k]] (and [o?.[k]], [o.k]) for a plain object [o]. *)
Definition getProp (o : object) (k : string) : value :=
  match ownProp o k with
  | Some v => v
  | None => if inProto k then VInherited k else VUndefined
  end.

(** [o[k] = v]: an existing own property keeps its place, a new one goes
    last (the order of string keys that are not array indices). *)
Fixpoint setProp (o : object) (k : string) (v : value) : object :=
  match o with
  | [] => [(k, v)]
  | (k', v') :: rest =>
      if String.eqb k k' then (k', v) :: rest
      else (k', v') :: setProp rest k v
  end.

(** [Object.keys(o)] *)
Definition keys (o : object) : list string := List.map fst o.

(** [!!v] *)
Definition truthy (v : value) : bool :=
  match v with
  | VUndefined | VNull => false
  | VBool b => b
  | VNum n => negb (n =? 0)
  | VStr s => negb (String.eqb s EmptyString)
  | VArr _ | VObj _ | VInherited _ => true
  end.

(** [a || b] *)
Definition or (a b : value) : value := if truthy a then a else b.

(** [String(v)] of a built-in reached through the prototype. *)
Definition inheritedToString (name : string) : string :=
  if String.eqb name "__proto__" then "[object Object]"
  else "function "
       ++ (if String.eqb name "constructor" then "Object" else name)
       ++ "() { [native code] }".

(** [String(v)], also what a template literal and a property key make of
    [v], where the conversion returns; [throwsToString] below tells where it
    throws instead.  An array joins its items with a comma, null and
    undefined items giving nothing. *)
Fixpoint toString (v : value) : string :=
  match v with
  | VUndefined => "undefined"
  | VNull => "null"
  | VBool true => "true"
  | VBool false => "false"
  | VNum n => Dec.ofZ n
  | VStr s => s
  | VArr items =>
      Str.join ","
        (List.map (fun i => match i with
                            | VUndefined | VNull => EmptyString
                            | _ => toString i
                            end) items)
  | VObj _ => "[object Object]"
  | VInherited name => inheritedToString name
  end.

(** Whether the conversion of [v] to a string throws.  The conversion of an
    object calls its [toString]; an object parsed from JSON that has an own
    member of that name holds a value there, not a function, the inherited
    [valueOf] returns the object itself, and the conversion ends in
    [TypeError: Cannot convert object to primitive value].  An object
    without such a member reaches [Object.prototype.toString].  An array
    converts its items in turn, null and undefined apart.  The same holds of
    [new Date(v)], which converts an object or an array to a primitive
    through [valueOf] and then [toString]. *)
Fixpoint throwsToString (v : value) : bool :=
  match v with
  | VObj props =>
      match ownProp props "toString" with
      | Some _ => true
      | None => false
      end
  | VArr items => existsb throwsToString items
  | _ => false
  end.

End Js.

(** ** The name segment of a file name: [safeSlug] *)

(** [s.replace(/[^a-z0-9]+/g, "-")]: every maximal run of characters outside
    [a-z0-9] becomes one dash.  [inRun] tells that the previous character
    belonged to a run whose dash is already written. *)
Fixpoint collapseRuns (inRun : bool) (s : string) : string :=
  match s with
  | EmptyString => EmptyString
  | String c r =>
      if Chars.isLowerAlnum c then String c (collapseRuns false r)
      else if inRun then collapseRuns true r
      else String "-" (collapseRuns true r)
  end.

(** The [-$] alternative of [/^-|-$/g]: a dash that is the last character. *)
Fixpoint dropFinalDash (s : string) : string :=
  match s with
  | EmptyString => EmptyString
  | String c EmptyString =>
      if Ascii.eqb c "-" then EmptyString else s
  | String c r => String c (dropFinalDash r)
  end.

(** [s.replace(/^-|-$/g, "")]: at index 0 the [^-] alternative removes a
    dash; the scan then goes on behind it, where only [-$] can match. *)
Definition stripEdgeDashes (s : string) : string :=
  match s with
  | String c r => if Ascii.eqb c "-" then dropFinalDash r else dropFinalDash s
  | EmptyString => EmptyString
  end.

(** What [safeSlug(input)] returns; the call throws where [String(input)]
    does, that is where [Js.throwsToString input] holds. *)
Definition safeSlug (input : value) : string :=
  if negb (Js.truthy input) then "client"
  else
    Str.take 80
      (stripEdgeDashes
         (collapseRuns false
            (Str.map Chars.lowerChar (Js.toString input)))).

(** ** Dates

    A time value is a number of milliseconds since the epoch, as in
    ECMAScript.  The calendar is the proleptic Gregorian one; the fields of a
    day number are computed by the era / day-of-era decomposition. *)

Module Time.

Definition msPerDay : Z := 86400000.

(** [Day(t)] *)
Definition day (t : Z) : Z := t / msPerDay.

(** Year, month (1..12) and day of the month (1..31) of a day number. *)
Definition civil (z : Z) : Z * Z * Z :=
  let z' := z + 719468 in
  let era := z' / 146097 in
  let doe := z' mod 146097 in
  let yoe := (doe - doe / 1460 + doe / 36524 - doe / 146096) / 365 in
  let doy := doe - (365 * yoe + yoe / 4 - yoe / 100) in
  let mp := (5 * doy + 2) / 153 in
  let d := doy - (153 * mp + 2) / 5 + 1 in
  let m := if mp <? 10 then mp + 3 else mp - 9 in
  let y := yoe + era * 400 in
  ((if m <=? 2 then y + 1 else y), m, d).

(** The day number of a calendar date. *)
Definition daysFromCivil (y m d : Z) : Z :=
  let y' := if m <=? 2 then y - 1 else y in
  let era := y' / 400 in
  let yoe := y' - era * 400 in
  let mp := if m <=? 2 then m + 9 else m - 3 in
  let doy := (153 * mp + 2) / 5 + d - 1 in
  let doe := yoe * 365 + yoe / 4 - yoe / 100 + doy in
  era * 146097 + doe - 719468.

Definition yearFromTime (t : Z) : Z := fst (fst (civil (day t))).
(** [MonthFromTime]: 0 for January. *)
Definition monthFromTime (t : Z) : Z := snd (fst (civil (day t))) - 1.
Definition dateFromTime (t : Z) : Z := snd (civil (day t)).
Definition hourFromTime (t : Z) : Z := (t / 3600000) mod 24.
Definition minFromTime (t : Z) : Z := (t / 60000) mod 60.
Definition secFromTime (t : Z) : Z := (t / 1000) mod 60.

(** [TimeClip]: [None] stands for NaN, the time value of an invalid date. *)
Definition timeClip (t : Z) : option Z :=
  if Z.abs t <=? 8640000000000000 then Some t else None.

Definition isLeap (y : Z) : bool :=
  ((y mod 4 =? 0) && (negb (y mod 100 =? 0) || (y mod 400 =? 0)))%bool.

Definition daysInMonth (y m : Z) : Z :=
  if m =? 2 then (if isLeap y then 29 else 28)
  else if ((m =? 4) || (m =? 6) || (m =? 9) || (m =? 11))%bool then 30
  else 31.

Definition digitVal (c : ascii) : option Z :=
  if Chars.isDigit c then Some (Z.of_nat (Chars.code c) - 48) else None.

(** The value of a string of decimal digits, [None] if another character
    occurs. *)
Fixpoint digitsVal (acc : Z) (s : string) : option Z :=
  match s with
  | EmptyString => Some acc
  | String c r =>
      match digitVal c with
      | Some d => digitsVal (10 * acc + d) r
      | None => None
      end
  end.

(** The date-only form [YYYY-MM-DD] of the Date Time String Format, which
    every engine reads as midnight UTC of that calendar date. *)
Definition parseIsoDate (s : string) : option Z :=
  if negb (Nat.eqb (String.length s) 10) then None
  else
    match digitsVal 0 (Str.take 4 s),
          Str.stripPrefix "-" (Str.drop 4 s),
          digitsVal 0 (Str.take 2 (Str.drop 5 s)),
          Str.stripPrefix "-" (Str.drop 7 s),
          digitsVal 0 (Str.drop 8 s) with
    | Some y, Some _, Some m, Some _, Some d =>
        if ((1 <=? m) && (m <=? 12) && (1 <=? d) && (d <=? daysInMonth y m))%bool
        then Some (daysFromCivil y m d * msPerDay)
        else None
    | _, _, _, _, _ => None
    end.

Definition months : list string :=
  [ "January"; "February"; "March"; "April"; "May"; "June";
    "July"; "August"; "September"; "October"; "November"; "December" ].

End Time.

(** ** Errors

    What the server's code throws itself, what the language throws for it,
    and what an external call rejects with.  [ErrNotPrimitive] is the
    [TypeError] of a conversion to a string that finds no primitive.
    [ErrHost origin msg] is a rejection by the file system, the browser or
    the storage service; [msg] is the text the handlers surface for it
    ([err?.message || String(err)]). *)

Inductive origin : Type := FileSystem | Browser | Storage.

Inductive exn : Type :=
  | ErrUnknownTemplate (key : string) (allowed : list string)
  | ErrMissingBucket
  | ErrNotPrimitive
  | ErrHost (o : origin) (msg : string).

Definition result (A : Type) : Type := (exn + A)%type.

(** How an external promise settles: the rejection's message, or a value. *)
Definition settled (A : Type) : Type := (string + A)%type.

Definition fromHost {A : Type} (o : origin) (r : settled A) : result A :=
  match r with
  | inl msg => inl (ErrHost o msg)
  | inr a => inr a
  end.

(** The double quote, as a one-character string. *)
Definition dq : string := String "034"%char EmptyString.

(** [err?.message || String(err)] *)
Definition errorMessage (e : exn) : string :=
  match e with
  | ErrUnknownTemplate key allowed =>
      "Unknown template_key " ++ dq ++ key ++ dq ++ ". Allowed: "
      ++ Str.join ", " allowed
  | ErrMissingBucket => "Missing BUCKET_NAME env var"
  | ErrNotPrimitive => "Cannot convert object to primitive value"
  | ErrHost _ msg => msg
  end.

(** ** The host: configuration and external capabilities

    The environment variables the server reads at start, and what it calls
    outside itself.  A capability is taken as a function of its arguments,
    and the clock, the random source and the launches of how often they
    were used before. *)

Definition pdf : Type := string.

Record Host : Type := mkHost {
  (** [process.env.BUCKET_NAME || ""] *)
  BUCKET_NAME : string;
  (** [Number(process.env.PDF_URL_TTL_MINUTES || "10080")] *)
  PDF_URL_TTL_MINUTES : Z;
  (** [__dirname] *)
  dirname : string;
  (** [Date.parse] on a string that is not of the form [YYYY-MM-DD];
      [None] is NaN. *)
  hostDateParse : string -> option Z;
  (** The offset of local time from UTC, in milliseconds, at a time value. *)
  localTZA : Z -> Z;
  (** [fs.readFile(path, "utf8")] *)
  readFile : string -> settled string;
  (** The message of the TypeError [fs.readFile] rejects with when its path
      is no string; the argument is the rendering of what it was given. *)
  invalidPathMessage : string -> string;
  (** Whether the n-th [chromium.launch] resolves ([None]) or rejects. *)
  launch : nat -> option string;
  (** A fresh context and page, [setContent], [page.pdf], and the closing of
      both: the PDF of an HTML text, or the first rejection. *)
  printPdf : string -> settled pdf;
  (** [file.save(buffer, ...)] for an object name: [None] when it resolves. *)
  save : string -> pdf -> option string;
  (** [file.getSignedUrl({version, action, expires})] *)
  getSignedUrl : string -> Z -> settled string;
  (** The time value the n-th reading of the clock yields. *)
  clock : nat -> Z;
  (** The n-th [crypto.randomUUID()]. *)
  randomUUID : nat -> string
}.

(** [Date.parse(s)]: the date-only ISO form as the language defines it,
    any other text as the host's parser reads it. *)
Definition dateParse (h : Host) (s : string) : option Z :=
  match Time.parseIsoDate s with
  | Some t => Some t
  | None => hostDateParse h s
  end.

(** [new Date(v).getTime()], [None] for NaN: a string is parsed; an array,
    an object or a function is first turned into a string; anything else is
    turned into a number (null gives 0, true gives 1, undefined gives NaN)
    and clipped to the range of time values.  The construction throws where
    the conversion of an array or an object does ([Js.throwsToString]); the
    definition gives the time value where it returns. *)
Definition newDate (h : Host) (v : value) : option Z :=
  match v with
  | VUndefined => None
  | VNull => Some 0
  | VBool b => Some (if b then 1 else 0)
  | VNum n => Time.timeClip n
  | VStr s => dateParse h s
  | VArr _ | VObj _ | VInherited _ => dateParse h (Js.toString v)
  end.

(** The time value shifted to local time, on which [getDate], [getMonth]
    and [getFullYear] read their fields. *)
Definition localTime (h : Host) (t : Z) : Z := t + localTZA h t.

(** What [formatDate(input, fmt)] returns; the call throws where
    [new Date(input)] does, that is where [Js.throwsToString input] holds
    (such an input is an object or an array, and so is truthy). *)
Definition formatDate (h : Host) (input : value) (fmt : string) : string :=
  if negb (Js.truthy input) then EmptyString
  else
    match newDate h input with
    | None => Js.toString input
    | Some t =>
        let dt := localTime h t in
        let DD := Dec.pad2 (Time.dateFromTime dt) in
        let YYYY := Dec.ofZ (Time.yearFromTime dt) in
        let B := nth (Z.to_nat (Time.monthFromTime dt)) Time.months "undefined" in
        if String.eqb fmt "%B %d, %Y" then B ++ " " ++ DD ++ ", " ++ YYYY
        else
          let MM := Dec.pad2 (Time.monthFromTime dt + 1) in
          YYYY ++ "-" ++ MM ++ "-" ++ DD
    end.

(** ** Template rendering

    Both regular expressions of [renderTemplate] are deterministic: the
    classes that follow one another ([\s], [[a-zA-Z0-9_]], the quote, the
    format's characters, the braces) are disjoint, so the greedy match is the
    only match at a position and backtracking never finds another.  A matcher
    therefore reads the text once, taking the longest run of each class. *)

(** A match of a pattern at the head of a text: what the groups captured,
    and how many characters the whole match covers. *)
Record found (A : Type) : Type := mkFound { groups : A; width : nat }.
Arguments mkFound {A} _ _.
Arguments groups {A} _.
Arguments width {A} _.

(** [/{{\s*([a-zA-Z0-9_]+)\s*}}/] at the head of [s]. *)
Definition matchBare (s : string) : option (found string) :=
  match Str.stripPrefix "{{" s with
  | None => None
  | Some r0 =>
      let '(ws1, r1) := Str.span Chars.isSpace r0 in
      let '(key, r2) := Str.span Chars.isIdent r1 in
      if String.eqb key EmptyString then None
      else
        let '(ws2, r3) := Str.span Chars.isSpace r2 in
        match Str.stripPrefix "}}" r3 with
        | None => None
        | Some _ =>
            Some (mkFound key
                    (2 + Str.len ws1 + Str.len key + Str.len ws2 + 2)%nat)
        end
  end.

(** The date-filter pattern: the bare pattern's opening and key, then a
    vertical bar, the word date and a colon, a quoted non-empty format free
    of quotes, and the closing braces, with optional white space between
    them. *)
Definition matchDate (s : string) : option (found (string * string)) :=
  match Str.stripPrefix "{{" s with
  | None => None
  | Some r0 =>
      let '(ws1, r1) := Str.span Chars.isSpace r0 in
      let '(key, r2) := Str.span Chars.isIdent r1 in
      if String.eqb key EmptyString then None
      else
        let '(ws2, r3) := Str.span Chars.isSpace r2 in
        match Str.stripPrefix "|" r3 with
        | None => None
        | Some r4 =>
            let '(ws3, r5) := Str.span Chars.isSpace r4 in
            match Str.stripPrefix "date:" r5 with
            | None => None
            | Some r6 =>
                let '(ws4, r7) := Str.span Chars.isSpace r6 in
                match Str.stripPrefix dq r7 with
                | None => None
                | Some r8 =>
                    let '(fmt, r9) := Str.span Chars.notQuote r8 in
                    if String.eqb fmt EmptyString then None
                    else
                      match Str.stripPrefix dq r9 with
                      | None => None
                      | Some r10 =>
                          let '(ws5, r11) := Str.span Chars.isSpace r10 in
                          match Str.stripPrefix "}}" r11 with
                          | None => None
                          | Some _ =>
                              Some (mkFound (key, fmt)
                                      (2 + Str.len ws1 + Str.len key
                                       + Str.len ws2 + 1 + Str.len ws3 + 5
                                       + Str.len ws4 + 1 + Str.len fmt + 1
                                       + Str.len ws5 + 2)%nat)
                          end
                      end
                end
            end
        end
  end.

(** [s.replace(re, fn)] for a global pattern that matches no empty text: the
    scan tries the pattern at each index from the left; a match is replaced
    by what [fn] makes of its groups and the scan resumes behind it, so the
    replacement itself is never scanned.  [skip] counts the characters of the
    current match still to be passed over. *)
Fixpoint replaceAll {A : Type} (re : string -> option (found A))
    (fn : A -> string) (skip : nat) (s : string) : string :=
  match s with
  | EmptyString => EmptyString
  | String c r =>
      match skip with
      | S k => replaceAll re fn k r
      | O =>
          match re s with
          | Some m => fn (groups m) ++ replaceAll re fn (width m - 1) r
          | None => String c (replaceAll re fn 0 r)
          end
      end
  end.

(** The first pass of [renderTemplate]: the date filter. *)
Definition renderDates (h : Host) (html : string) (data : object) : string :=
  replaceAll matchDate
    (fun '(key, fmt) => formatDate h (Js.getProp data key) fmt) 0 html.

(** The replacement of the second pass. *)
Definition bareValue (data : object) (key : string) : string :=
  match Js.getProp data key with
  | VNull | VUndefined => EmptyString
  | v => Js.toString v
  end.

(** The second pass of [renderTemplate]: the standard placeholder. *)
Definition renderBare (html : string) (data : object) : string :=
  replaceAll matchBare (bareValue data) 0 html.

(** What [renderTemplate(html, data)] returns; [renderTemplateThrows]
    tells where a replacement throws instead. *)
Definition renderTemplate (h : Host) (html : string) (data : object) : string :=
  renderBare (renderDates h html data) data.

(** Whether [fn] throws at a match that the scan of [s.replace(re, fn)]
    reaches; [bad] tells of the groups of a match that [fn] throws on them.
    The scan is that of [replaceAll]. *)
Fixpoint throwsAt {A : Type} (re : string -> option (found A))
    (bad : A -> bool) (skip : nat) (s : string) : bool :=
  match s with
  | EmptyString => false
  | String c r =>
      match skip with
      | S k => throwsAt re bad k r
      | O =>
          match re s with
          | Some m => (bad (groups m) || throwsAt re bad (width m - 1) r)%bool
          | None => throwsAt re bad 0 r
          end
      end
  end.

(** The first pass throws where [formatDate] does, on the value of a
    filtered placeholder. *)
Definition renderDatesThrows (html : string) (data : object) : bool :=
  throwsAt matchDate
    (fun '(key, _) => Js.throwsToString (Js.getProp data key)) 0 html.

(** The second pass throws where [String(v)] does, on the value of a bare
    placeholder. *)
Definition renderBareThrows (html : string) (data : object) : bool :=
  throwsAt matchBare (fun key => Js.throwsToString (Js.getProp data key)) 0 html.

(** [renderTemplate(html, data)] throws in its first pass, or else in the
    second, which scans the output of the first. *)
Definition renderTemplateThrows (h : Host) (html : string) (data : object)
  : bool :=
  (renderDatesThrows html data
   || renderBareThrows (renderDates h html data) data)%bool.

(** ** The process state and the monad of asynchronous code

    [World] is what the process changes while it runs: the module variable
    [browserPromise], the launches made so far, the objects written to the
    bucket, and how often the clock and the random source were read.  An
    [async] function is a state transformer that returns a value or the
    exception it throws; [await] on a rejected promise throws. *)

Record World : Type := mkWorld {
  (** [browserPromise]: [None] is null, [Some n] the promise of launch [n]. *)
  browserPromise : option nat;
  launches : nat;
  (** The bucket's writes, oldest first: object name and content. *)
  bucket : list (string * pdf);
  clockReads : nat;
  uuidsDrawn : nat
}.

Definition initialWorld : World := mkWorld None 0 [] 0 0.

Definition M (A : Type) : Type := World -> result A * World.

Definition ret {A : Type} (a : A) : M A := fun w => (inr a, w).
Definition throw {A : Type} (e : exn) : M A := fun w => (inl e, w).
Definition bind {A B : Type} (m : M A) (f : A -> M B) : M B :=
  fun w =>
    match m w with
    | (inr a, w') => f a w'
    | (inl e, w') => (inl e, w')
    end.

(** The settled outcome of an external promise. *)
Definition settle {A : Type} (r : result A) : M A := fun w => (r, w).

Declare Scope async_scope.
Delimit Scope async_scope with async.
Notation "x <- m ;; k" := (bind m (fun x => k))
  (at level 61, m at next level, right associativity) : async_scope.
Notation "m ;;; k" := (bind m (fun _ => k))
  (at level 61, right associativity) : async_scope.
Local Open Scope async_scope.

(** [String(v)], the [${v}] of a template literal and the key of [o[v]], as
    a step of the code: the conversion returns the text or throws. *)
Definition stringOf (v : value) : M string :=
  if Js.throwsToString v then throw ErrNotPrimitive else ret (Js.toString v).

(** [new Date()] and [Date.now()] *)
Definition readClock (h : Host) : M Z :=
  fun w =>
    (inr (clock h (clockReads w)),
     mkWorld (browserPromise w) (launches w) (bucket w)
             (S (clockReads w)) (uuidsDrawn w)).

(** [crypto.randomUUID()] *)
Definition drawUUID (h : Host) : M string :=
  fun w =>
    (inr (randomUUID h (uuidsDrawn w)),
     mkWorld (browserPromise w) (launches w) (bucket w)
             (clockReads w) (S (uuidsDrawn w))).

(** The text [nowStamp] makes of the time value it read: the UTC fields. *)
Definition stamp (d : Z) : string :=
  Dec.ofZ (Time.yearFromTime d)
  ++ Dec.pad2 (Time.monthFromTime d + 1)
  ++ Dec.pad2 (Time.dateFromTime d)
  ++ "_"
  ++ Dec.pad2 (Time.hourFromTime d)
  ++ Dec.pad2 (Time.minFromTime d)
  ++ Dec.pad2 (Time.secFromTime d).

Definition nowStamp (h : Host) : M string :=
  d <- readClock h ;;
  ret (stamp d).

(** ** The shared browser *)

(** [getBrowser()]: the function has no [await], so the test of
    [browserPromise] and its assignment happen in one turn of the event
    loop.  The result is the promise, not yet awaited. *)
Definition getBrowser : World -> nat * World :=
  fun w =>
    match browserPromise w with
    | Some p => (p, w)
    | None =>
        (launches w,
         mkWorld (Some (launches w)) (S (launches w)) (bucket w)
                 (clockReads w) (uuidsDrawn w))
    end.

(** [await p] for the promise of launch [p]. *)
Definition awaitBrowser (h : Host) (p : nat) : M unit :=
  match launch h p with
  | None => ret tt
  | Some msg => throw (ErrHost Browser msg)
  end.

Definition htmlToPdfBuffer (h : Host) (html : string) : M pdf :=
  p <- (fun w => let '(p, w') := getBrowser w in (inr p, w')) ;;
  awaitBrowser h p ;;;
  settle (fromHost Browser (printPdf h html)).

(** ** Upload and signed URL *)

Definition putObject (name : string) (buffer : pdf) : M unit :=
  fun w =>
    (inr tt,
     mkWorld (browserPromise w) (launches w)
             (bucket w ++ [(name, buffer)])%list
             (clockReads w) (uuidsDrawn w)).

(** The result object of [uploadPdfAndSign]: [gcsPath] and [url]. *)
Definition uploadPdfAndSign (h : Host) (buffer : pdf) (objectName : string)
  : M object :=
  if String.eqb (BUCKET_NAME h) EmptyString then throw ErrMissingBucket
  else
    match save h objectName buffer with
    | Some msg => throw (ErrHost Storage msg)
    | None =>
        putObject objectName buffer ;;;
        let expiresMs := PDF_URL_TTL_MINUTES h * 60 * 1000 in
        now <- readClock h ;;
        signedUrl <- settle (fromHost Storage
                               (getSignedUrl h objectName (now + expiresMs))) ;;
        ret [ ("gcsPath",
               VStr ("gs://" ++ BUCKET_NAME h ++ "/" ++ objectName));
              ("url", VStr signedUrl) ]
    end.

(** ** The template map *)

Definition templateKeys : list string :=
  [ "meal_first"; "meal_weekly"; "workout_first"; "workout_weekly";
    "bundle_first"; "bundle_weekly" ].

(** [path.join(__dirname, "templates", name + ".html")] *)
Definition templatePath (h : Host) (name : string) : string :=
  dirname h ++ "/templates/" ++ name ++ ".html".

Definition TEMPLATE_FILES (h : Host) : object :=
  List.map (fun k => (k, VStr (templatePath h k))) templateKeys.

Definition resolveTemplateKey (reqBody reqQuery : object) : value :=
  Js.or (Js.getProp reqBody "template_key")
    (Js.or (Js.getProp reqQuery "template_key")
       (Js.or (Js.getProp reqQuery "template") (VStr EmptyString))).

(** ** One PDF *)

(** [fs.readFile(tplPath, "utf8")] for what the template map yields. *)
Definition readTemplate (h : Host) (tplPath : value) : M string :=
  match tplPath with
  | VStr path => settle (fromHost FileSystem (readFile h path))
  | _ =>
      throw (ErrHost FileSystem (invalidPathMessage h (Js.toString tplPath)))
  end.

(** The call [renderTemplate(htmlRaw, payload)]. *)
Definition callRenderTemplate (h : Host) (html : string) (data : object)
  : M string :=
  if renderTemplateThrows h html data then throw ErrNotPrimitive
  else ret (renderTemplate h html data).

(** The call [safeSlug(payload.client_name)]. *)
Definition callSafeSlug (input : value) : M string :=
  if Js.throwsToString input then throw ErrNotPrimitive
  else ret (safeSlug input).

(** The conversions happen where the code has them: of the template key
    when it is used as a property key, of the placeholders' values in
    [renderTemplate], of the job id in the template literals of the prefix
    and of the file name, of the client name in [safeSlug], and of the
    prefix in the template literal of the object name.  The key is converted
    once more in the file name, to the same text. *)
Definition generateOnePdf (h : Host) (templateKey : value) (payload : object)
  : M object :=
  keyText <- stringOf templateKey ;;
  let tplPath := Js.getProp (TEMPLATE_FILES h) keyText in
  if negb (Js.truthy tplPath) then
    let keys := Js.keys (TEMPLATE_FILES h) in
    throw (ErrUnknownTemplate keyText keys)
  else
    htmlRaw <- readTemplate h tplPath ;;
    html <- callRenderTemplate h htmlRaw payload ;;
    pdfBuffer <- htmlToPdfBuffer h html ;;
    jobId <- (if Js.truthy (Js.getProp payload "job_id")
              then ret (Js.getProp payload "job_id")
              else u <- drawUUID h ;; ret (VStr u)) ;;
    basePrefix <- (if Js.truthy (Js.getProp payload "prefix")
                   then ret (Js.getProp payload "prefix")
                   else stamp <- nowStamp h ;;
                        jobText <- stringOf jobId ;;
                        ret (VStr ("pdfs/" ++ stamp ++ "_" ++ jobText))) ;;
    safeName <- callSafeSlug (Js.getProp payload "client_name") ;;
    jobText <- stringOf jobId ;;
    let fileName := keyText ++ "_" ++ safeName ++ "_" ++ jobText ++ ".pdf" in
    prefixText <- stringOf basePrefix ;;
    let objectName := prefixText ++ "/" ++ fileName in
    uploaded <- uploadPdfAndSign h pdfBuffer objectName ;;
    ret ([ ("template_key", templateKey);
           ("job_id", jobId);
           ("bucket", VStr (BUCKET_NAME h));
           ("fileName", VStr fileName);
           ("objectName", VStr objectName) ] ++ uploaded)%list.

(** ** Routes *)

Record request : Type := mkRequest {
  (** [req.body || {}], the parsed JSON object. *)
  body : object;
  (** [req.query] *)
  query : object
}.

Record response : Type := mkResponse {
  status : Z;
  json : object
}.

Definition failure (code : Z) (msg : string) : response :=
  mkResponse code [ ("ok", VBool false); ("error", VStr msg) ].

(** [app.post("/pdf", ...)] *)
Definition postPdf (h : Host) (req : request) (w : World) : response * World :=
  let payload := body req in
  let templateKey := resolveTemplateKey payload (query req) in
  if negb (Js.truthy templateKey) then
    (failure 400
       ("Missing template_key. Allowed: "
        ++ Str.join ", " (Js.keys (TEMPLATE_FILES h))), w)
  else
    match generateOnePdf h templateKey payload w with
    | (inr file, w') =>
        (mkResponse 200 [ ("ok", VBool true); ("file", VObj file) ], w')
    | (inl err, w') => (failure 500 (errorMessage err), w')
    end.

(** The loop of the batch route: [results[key] = file] for each key in turn,
    left at the first exception.  Only keys of the template map get as far
    as the assignment, and none of them is an array index, so the members of
    [results] stand in the order of their first assignment. *)
Fixpoint generateAll (h : Host) (keysToGenerate : list value)
    (payload : object) (results : object) : M object :=
  match keysToGenerate with
  | [] => ret results
  | key :: rest =>
      file <- generateOnePdf h key payload ;;
      generateAll h rest payload
        (Js.setProp results (Js.toString key) (VObj file))
  end.

Definition keysToGenerate (h : Host) (payload : object) : list value :=
  match Js.getProp payload "template_keys" with
  | VArr (k :: ks) => k :: ks
  | _ => List.map VStr (Js.keys (TEMPLATE_FILES h))
  end.

(** [app.post("/pdfs", ...)] *)
Definition postPdfs (h : Host) (req : request) (w : World) : response * World :=
  let payload := body req in
  match generateAll h (keysToGenerate h payload) payload [] w with
  | (inr results, w') =>
      (mkResponse 200
         [ ("ok", VBool true);
           ("job_id", Js.or (Js.getProp payload "job_id") VNull);
           ("bucket", VStr (BUCKET_NAME h));
           ("files", VObj results) ], w')
  | (inl err, w') => (failure 500 (errorMessage err), w')
  end.

(** ** The event loop around the shared browser, and shutdown

    The server runs on one thread; code runs in turns, and a turn ends at an
    [await].  For the browser the turns that matter are: a request calling
    [getBrowser()]; a termination signal starting [shutdown()], which runs
    to [process.exit(0)] when no browser was asked for and otherwise stops at
    [await browserPromise]; a suspended [shutdown()] resuming once the launch
    has settled, where it calls [browser.close()] or, the launch having
    failed, leaves through [catch] and [finally]; and the end of a
    [browser.close()], after which [finally] exits. *)

Inductive turn : Type :=
  | CallGetBrowser
  | Signal
  | LaunchSettled
  | CloseSettled.

Record Process : Type := mkProcess {
  world : World;
  (** The promises returned to callers of [getBrowser], latest first. *)
  handedOut : list nat;
  (** Shutdowns suspended at [await browserPromise], with the promise. *)
  awaitingLaunch : list nat;
  (** Shutdowns suspended at [await browser.close()]. *)
  awaitingClose : nat;
  (** The browsers [close()] was called on, latest first. *)
  closed : list nat;
  exited : bool
}.

Definition boot : Process := mkProcess initialWorld [] [] 0 [] false.

Definition exit (s : Process) : Process :=
  mkProcess (world s) (handedOut s) (awaitingLaunch s) (awaitingClose s)
            (closed s) true.

(** [shutdown()] from the signal to its first [await]: with no browser
    asked for it falls through to [finally]; otherwise it waits for the
    cached promise. *)
Definition shutdown (s : Process) : Process :=
  match browserPromise (world s) with
  | None => exit s
  | Some p =>
      mkProcess (world s) (handedOut s) (p :: awaitingLaunch s)
                (awaitingClose s) (closed s) false
  end.

(** [shutdown()] resumed at [await browserPromise] for the promise [p]: a
    launched browser is closed, and the function waits for that; a failed
    launch throws into the empty [catch], and [finally] exits. *)
Definition shutdownResumed (h : Host) (p : nat) (s : Process) : Process :=
  match launch h p with
  | None =>
      mkProcess (world s) (handedOut s) (awaitingLaunch s)
                (S (awaitingClose s)) (p :: closed s) false
  | Some _ => exit s
  end.

Definition step (h : Host) (s : Process) (t : turn) : Process :=
  if exited s then s
  else
    match t with
    | CallGetBrowser =>
        let '(p, w') := getBrowser (world s) in
        mkProcess w' (p :: handedOut s) (awaitingLaunch s) (awaitingClose s)
                  (closed s) false
    | Signal => shutdown s
    | LaunchSettled =>
        match awaitingLaunch s with
        | [] => s
        | p :: rest =>
            shutdownResumed h p
              (mkProcess (world s) (handedOut s) rest (awaitingClose s)
                         (closed s) false)
        end
    | CloseSettled =>
        match awaitingClose s with
        | O => s
        | S n =>
            exit (mkProcess (world s) (handedOut s) (awaitingLaunch s) n
                            (closed s) false)
        end
    end.

Definition run (h : Host) (turns : list turn) : Process :=
  fold_left (step h) turns boot.

(** A request to one of the two POST routes, and the world after the
    server has answered it. *)
Inductive call : Type :=
  | Pdf (req : request)
  | Pdfs (req : request).

Definition serve (h : Host) (w : World) (c : call) : World :=
  match c with
  | Pdf req => snd (postPdf h req w)
  | Pdfs req => snd (postPdfs h req w)
  end.

(** ** A host to run examples on

    Local time is UTC; the host's date parser accepts nothing beyond the
    ISO date-only form; every template file holds one heading with the
    client's name; launches, rendering, upload and signing succeed. *)

Definition demoHost (bucketName : string) : Host :=
  mkHost bucketName 10080 "/app"
    (fun _ => None)
    (fun _ => 0)
    (fun path => inr ("<h1>{{client_name}}</h1>" ++ path))
    (fun shown => "The path argument must be of type string. Received " ++ shown)
    (fun _ => None)
    (fun html => inr ("%PDF " ++ html))
    (fun _ _ => None)
    (fun name _ => inr ("https://storage.example/" ++ name ++ "?sig"))
    (fun _ => 1709600523000)
    (fun n => "job-" ++ Dec.ofZ (Z.of_nat n)).

(** ** The specification's wording, for comparison with the code *)

Module Spec.

Definition startsWith (p : ascii -> bool) (s : string) : bool :=
  match s with
  | EmptyString => false
  | String c _ => p c
  end.

(** The maximal runs of characters of [a-z0-9] in a text, in order. *)
Fixpoint words (s : string) : list string :=
  match s with
  | EmptyString => []
  | String c r =>
      if Chars.isLowerAlnum c then
        if startsWith Chars.isLowerAlnum r then
          match words r with
          | w :: ws => String c w :: ws
          | [] => [String c EmptyString]
          end
        else String c EmptyString :: words r
      else words r
  end.

(** The sanitized client name in the specification's words: the name in
    lower case, each run of non-alphanumerics replaced by one dash, no dash
    left at either end; that is, its alphanumeric runs joined by dashes. *)
Definition sanitizedName (name : string) : string :=
  Str.join "-" (words (Str.map Chars.lowerChar name)).

(** A letter or a digit. *)
Definition isAlnum (c : ascii) : bool :=
  (Chars.isLower c || Chars.isUpper c || Chars.isDigit c)%bool.


(** A bare placeholder as written in a template: the key between double
    braces, with optional white space on both sides of it. *)
Record hole : Type := mkHole { ws1 : string; key : string; ws2 : string }.

Definition holeText (p : hole) : string :=
  "{{" ++ ws1 p ++ key p ++ ws2 p ++ "}}".

Definition wellFormedKey (k : string) : Prop :=
  k <> EmptyString /\ Str.all Chars.isIdent k = true.

Definition blank (s : string) : Prop := Str.all Chars.isSpace s = true.

Definition wellFormedHole (p : hole) : Prop :=
  blank (ws1 p) /\ wellFormedKey (key p) /\ blank (ws2 p).

(** A filtered placeholder as written in a template. *)
Record dateHole : Type := mkDateHole {
  dkey : string;
  dfmt : string;
  (** The white space before the key, before and after the bar, after the
      colon, and before the closing braces. *)
  gaps : string * string * string * string * string
}.

Definition dateHoleText (p : dateHole) : string :=
  let '(g1, g2, g3, g4, g5) := gaps p in
  "{{" ++ g1 ++ dkey p ++ g2 ++ "|" ++ g3 ++ "date:" ++ g4
  ++ dq ++ dfmt p ++ dq ++ g5 ++ "}}".

Definition wellFormedDateHole (p : dateHole) : Prop :=
  let '(g1, g2, g3, g4, g5) := gaps p in
  blank g1 /\ blank g2 /\ blank g3 /\ blank g4 /\ blank g5
  /\ wellFormedKey (dkey p)
  /\ dfmt p <> EmptyString /\ Str.all Chars.notQuote (dfmt p) = true.

(** Text in which no placeholder can start: it has no two opening braces in
    a row. *)
Definition plain (t : string) : Prop := Str.includes "{{" t = false.

(** A template: pieces of plain text, each followed by a placeholder, and a
    last piece of plain text. *)
Fixpoint templateText (pieces : list (string * hole)) (last : string) : string :=
  match pieces with
  | [] => last
  | (t, p) :: rest => t ++ holeText p ++ templateText rest last
  end.

(** The specification's second pass: each placeholder gives way to
    [String(payload[key])], or to nothing when that is null or undefined. *)
Definition stringified (data : object) (k : string) : string :=
  match Js.getProp data k with
  | VNull | VUndefined => EmptyString
  | v => Js.toString v
  end.

Fixpoint substituted (data : object) (pieces : list (string * hole))
    (last : string) : string :=
  match pieces with
  | [] => last
  | (t, p) :: rest => t ++ stringified data (key p) ++ substituted data rest last
  end.

(** Two decimal digits. *)
Definition twoDigits (n : Z) : string :=
  String (Dec.digit (n / 10)) (String (Dec.digit n) EmptyString).

(** The date filter as the specification words it: a value that is no date
    is left as it is; a date is rendered by the named pattern or else in the
    ISO form. *)
Definition dateFilter (h : Host) (v : value) (fmt : string) : string :=
  match newDate h v with
  | None => Js.toString v
  | Some t =>
      let '(y, m, d) := Time.civil (Time.day (localTime h t)) in
      if String.eqb fmt "%B %d, %Y"
      then nth (Z.to_nat (m - 1)) Time.months EmptyString ++ " "
           ++ twoDigits d ++ ", " ++ Dec.ofZ y
      else Dec.ofZ y ++ "-" ++ twoDigits m ++ "-" ++ twoDigits d
  end.

(** A test that holds of the [n] integers from [z] on. *)
Fixpoint forallFrom (n : nat) (z : Z) (f : Z -> bool) : bool :=
  match n with
  | O => true
  | S k => (f z && forallFrom k (z + 1) f)%bool
  end.

(** A test that holds of every integer from 0 up to, not including, [n]. *)
Definition forallBelow (n : Z) (f : Z -> bool) : bool :=
  forallFrom (Z.to_nat n) 0 f.

End Spec.

(** ** Vocabulary of the properties *)

(** What a step leaves untouched in the world. *)
Definition sameBrowser (w w' : World) : Prop :=
  browserPromise w' = browserPromise w /\ launches w' = launches w.

(** A payload all of whose members convert to a string: no object among
    them has an own member [toString], and no array holds such an object. *)
Definition convertible (payload : object) : Prop :=
  forall k, Js.throwsToString (Js.getProp payload k) = false.

(** No conversion of a render throws on the payload: none in
    [renderTemplate] on the template text [raw], and none of the job id, of
    the client name and of the prefix. *)
Definition converts (h : Host) (raw : string) (payload : object) : bool :=
  negb (renderTemplateThrows h raw payload
        || Js.throwsToString (Js.getProp payload "job_id")
        || Js.throwsToString (Js.getProp payload "client_name")
        || Js.throwsToString (Js.getProp payload "prefix")).

(** The job identifier of a render started in world [w]. *)
Definition jobIdIn (h : Host) (payload : object) (w : World) : value :=
  if Js.truthy (Js.getProp payload "job_id") then Js.getProp payload "job_id"
  else VStr (randomUUID h (uuidsDrawn w)).

(** The prefix of the object key of a render started in world [w]. *)
Definition prefixIn (h : Host) (payload : object) (w : World) : value :=
  if Js.truthy (Js.getProp payload "prefix") then Js.getProp payload "prefix"
  else VStr ("pdfs/" ++ stamp (clock h (clockReads w)) ++ "_"
             ++ Js.toString (jobIdIn h payload w)).

(** The file name of a render started in world [w]. *)
Definition fileNameIn (h : Host) (key : value) (payload : object) (w : World)
  : string :=
  Js.toString key ++ "_" ++ safeSlug (Js.getProp payload "client_name") ++ "_"
  ++ Js.toString (jobIdIn h payload w) ++ ".pdf".

(** The object key of a render started in world [w]. *)
Definition objectNameIn (h : Host) (key : value) (payload : object) (w : World)
  : string :=
  Js.toString (prefixIn h payload w) ++ "/" ++ fileNameIn h key payload w.

(** A client name of 85 characters. *)
Definition longName : string :=
  "International Association of Professional Nutrition and Strength Conditioning Coaches".

(** A payload with a value of every kind. *)
Definition mealPayload : object :=
  [ ("name", VStr "Ann"); ("kcal", VNum 2100);
    ("meals", VArr [VStr "oats"; VNull; VStr "rice"; VNum 3]);
    ("vegan", VBool false); ("extra", VObj [("note", VStr "x")]);
    ("plan", VNull) ].

(** The pieces of a template on that payload. *)
Definition mealPieces : list (string * Spec.hole) :=
  [ ("<p>", Spec.mkHole "" "name" "");
    (": ", Spec.mkHole "" "kcal" "");
    (" kcal, ", Spec.mkHole " " "meals" " ");
    (" (", Spec.mkHole "" "vegan" "");
    (") ", Spec.mkHole "" "extra" "");
    ("{ ", Spec.mkHole "" "plan" "") ].

(** The body of the specification's example request to [POST /pdf]. *)
Definition janeRequest : object :=
  [ ("template_key", VStr "meal_first"); ("client_name", VStr "Jane Doe") ].

(** [Object.keys(TEMPLATE_FILES).join(", ")] *)
Definition allowedKeys : string :=
  "meal_first, meal_weekly, workout_first, workout_weekly, bundle_first, bundle_weekly".

(** [Object.keys] after an assignment: a new key goes last. *)
Definition addKey (l : list string) (k : string) : list string :=
  if existsb (String.eqb k) l then l else (l ++ [k])%list.

(** The distinct elements of a list, each at its first occurrence. *)
Definition firstOccurrences (l : list string) : list string :=
  fold_left addKey l [].

(** The object written for a template key: its name ends a prefix with a
    slash, then the key and an underscore. *)
Definition writtenFor (key : string) (write : string * pdf) : Prop :=
  exists prefix rest, fst write = prefix ++ "/" ++ key ++ "_" ++ rest.

(** The member names of the object [generateOnePdf] returns. *)
Definition fileShape : list string :=
  [ "template_key"; "job_id"; "bucket"; "fileName"; "objectName"; "gcsPath";
    "url" ].

(** A file object as [generateOnePdf] returns it for the template [key]. *)
Definition isFileObject (key : string) (v : value) : Prop :=
  exists o, v = VObj o /\ Js.keys o = fileShape
            /\ Js.toString (Js.getProp o "template_key") = key.

(** A host without a bucket whose template files are not on disk. *)
Definition noTemplatesHost : Host :=
  mkHost EmptyString 10080 "/app"
    (fun _ => None) (fun _ => 0)
    (fun path => inl ("ENOENT: no such file or directory, open " ++ path))
    (fun shown => "The path argument must be of type string. Received " ++ shown)
    (fun _ => None)
    (fun html => inr ("%PDF " ++ html))
    (fun _ _ => None)
    (fun name _ => inr ("https://storage.example/" ++ name ++ "?sig"))
    (fun _ => 1709600523000)
    (fun n => "job-" ++ Dec.ofZ (Z.of_nat n)).

(** The specification's example request to [POST /pdfs], and one that
    names no template keys. *)
Definition twoKeysRequest : request :=
  mkRequest
    [ ("template_keys", VArr [VStr "meal_first"; VStr "workout_first"]);
      ("client_name", VStr "Jane Doe"); ("job_id", VStr "j1") ] [].

Definition allKeysRequest : request :=
  mkRequest [ ("client_name", VStr "Jane Doe"); ("job_id", VStr "j1") ] [].

(** Both patterns match only a text that opens with two braces followed by
    a character other than a brace. *)
Definition opensLikePlaceholder {A : Type} (re : string -> option (found A))
  : Prop :=
  forall s m, re s = Some m ->
    exists c r, s = String "{" (String "{" (String c r))
                /\ Ascii.eqb c "{" = false.

(** What may follow a piece of plain text: nothing, or a placeholder's two
    braces. *)
Definition boundary (rest : string) : Prop :=
  rest = EmptyString \/ Str.stripPrefix "{{" rest <> None.

(** A payload one of whose values is the text of a placeholder. *)
Definition nestedPayload : object :=
  [ ("d", VStr "{{name}}"); ("name", VStr "Ann") ].

(** The filtered placeholder of the key [d] with the format [%Y]. *)
Definition yearOfD : Spec.dateHole :=
  Spec.mkDateHole "d" "%Y"
    (EmptyString, " ", " ", " ", EmptyString).

(** Month and day of the month from the day of the era, as [Time.civil]
    computes them. *)
Definition monthDay (doe : Z) : Z * Z :=
  let yoe := (doe - doe / 1460 + doe / 36524 - doe / 146096) / 365 in
  let doy := doe - (365 * yoe + yoe / 4 - yoe / 100) in
  let mp := (5 * doy + 2) / 153 in
  (if mp <? 10 then mp + 3 else mp - 9, doy - (153 * mp + 2) / 5 + 1).

(** Either no browser was asked for and none was launched, or the promise
    of the one launch is cached. *)
Definition oneBrowser (w : World) : Prop :=
  (browserPromise w = None /\ launches w = 0%nat)
  \/ (browserPromise w = Some 0%nat /\ launches w = 1%nat).

(** An asynchronous computation that keeps [oneBrowser], whatever its
    outcome. *)
Definition preserves {A : Type} (m : M A) : Prop :=
  forall w, oneBrowser w -> oneBrowser (snd (m w)).

(** An asynchronous computation that only adds to the bucket, whatever its
    outcome. *)
Definition appends {A : Type} (m : M A) : Prop :=
  forall w, exists more, bucket (snd (m w)) = (bucket w ++ more)%list.

(** What holds of the process after any turns of the event loop. *)
Definition settledDown (h : Host) (s : Process) : Prop :=
  oneBrowser (world s)
  /\ Forall (eq 0%nat) (handedOut s)
  /\ Forall (eq 0%nat) (awaitingLaunch s)
  /\ Forall (eq 0%nat) (closed s)
  /\ (browserPromise (world s) = None ->
      handedOut s = [] /\ awaitingLaunch s = [] /\ awaitingClose s = 0%nat)
  /\ (awaitingClose s <> 0%nat -> closed s <> [] /\ launch h 0 = None)
  /\ (exited s = true -> browserPromise (world s) <> None ->
      launch h 0 = None -> In 0%nat (closed s)).

(** Splits an invariant into its parts and closes the immediate ones. *)
Ltac close_settled :=
  repeat match goal with
         | |- _ /\ _ => split
         | |- Forall _ (_ :: _) => constructor
         | |- Forall _ [] => constructor
         end;
  try assumption; try reflexivity;
  try (intros; discriminate); try (intros; contradiction).

(** ** The GET routes *)

(** [app.get("/", ...)] *)
Definition getRoot : response :=
  mkResponse 200 [ ("ok", VBool true); ("service", VStr "motionalyx-pdf") ].

(** [app.get("/health", ...)] *)
Definition getHealth : response :=
  mkResponse 200 [ ("ok", VBool true) ].

(** [app.get("/templates", ...)] *)
Definition getTemplates (h : Host) : response :=
  mkResponse 200
    [ ("ok", VBool true);
      ("template_keys", VArr (List.map VStr (Js.keys (TEMPLATE_FILES h)))) ].

(** ** Vocabulary of the further properties *)

(** A character a slug can hold: of [a-z0-9], or a dash. *)
Definition slugChar (c : ascii) : bool :=
  (Chars.isLowerAlnum c || Ascii.eqb c "-")%bool.

(** Every character is a slug character and no dash follows a dash;
    [afterDash] tells that a dash (or the start) precedes the text. *)
Fixpoint cleanFrom (afterDash : bool) (s : string) : bool :=
  match s with
  | EmptyString => true
  | String c r =>
      if Chars.isLowerAlnum c then cleanFrom false r
      else if Ascii.eqb c "-" then (negb afterDash && cleanFrom true r)%bool
      else false
  end.

(** [s.endsWith(c)] for a character [c]. *)
Fixpoint endsWith (c : ascii) (s : string) : bool :=
  match s with
  | EmptyString => false
  | String a EmptyString => Ascii.eqb a c
  | String _ r => endsWith c r
  end.

(** The characters of a text. *)
Fixpoint chars (s : string) : list ascii :=
  match s with
  | EmptyString => []
  | String c r => c :: chars r
  end.
(** A text without an opening brace. *)
Definition noBrace (s : string) : bool :=
  Str.all (fun c => negb (Ascii.eqb c "{")) s.
(** The world in which a render starts its upload, once the template was
    read and the PDF printed: the browser was asked for, a UUID was drawn
    unless the payload has a job id, and the clock was read for the stamp
    unless the payload has a prefix. *)
Definition beforeUpload (h : Host) (payload : object) (w : World) : World :=
  let wb := snd (getBrowser w) in
  let wj := if Js.truthy (Js.getProp payload "job_id") then wb
            else snd (drawUUID h wb) in
  if Js.truthy (Js.getProp payload "prefix") then wj
  else snd (readClock h wj).

(** The object [generateOnePdf] returns, given what the upload returned. *)
Definition fileObject (h : Host) (key : value) (payload : object) (w : World)
    (uploaded : object) : object :=
  ([ ("template_key", key);
     ("job_id", jobIdIn h payload w);
     ("bucket", VStr (BUCKET_NAME h));
     ("fileName", VStr (fileNameIn h key payload w));
     ("objectName", VStr (objectNameIn h key payload w)) ] ++ uploaded)%list.

(** The time value [Date.now()] yields in [uploadPdfAndSign] for a render
    started in world [w]. *)
Definition uploadTime (h : Host) (payload : object) (w : World) : Z :=
  clock h (clockReads (beforeUpload h payload w)).

(** The number of termination signals among the turns. *)
Definition signals (turns : list turn) : nat :=
  List.length (List.filter (fun t => match t with Signal => true | _ => false end)
                 turns).

(** The example request with a job id that does not convert: an object
    with a member [toString]. *)
Definition oddJobRequest : object :=
  [ ("template_key", VStr "meal_first"); ("client_name", VStr "Jane Doe");
    ("job_id", VObj [("toString", VNum 1)]) ].

(** A host whose storage stores every object and signs none. *)
Definition unsignedHost : Host :=
  mkHost "bkt" 10080 "/app"
    (fun _ => None) (fun _ => 0)
    (fun path => inr ("<h1>{{client_name}}</h1>" ++ path))
    (fun shown => "The path argument must be of type string. Received " ++ shown)
    (fun _ => None)
    (fun html => inr ("%PDF " ++ html))
    (fun _ _ => None)
    (fun _ _ => inl "SigningError: Permission iam.serviceAccounts.signBlob denied")
    (fun _ => 1709600523000)
    (fun n => "job-" ++ Dec.ofZ (Z.of_nat n)).

(** A host whose browser does not start. *)
Definition noBrowserHost : Host :=
  mkHost "bkt" 10080 "/app"
    (fun _ => None) (fun _ => 0)
    (fun path => inr ("<h1>{{client_name}}</h1>" ++ path))
    (fun shown => "The path argument must be of type string. Received " ++ shown)
    (fun _ => Some "browserType.launch: Failed to launch chromium")
    (fun html => inr ("%PDF " ++ html))
    (fun _ _ => None)
    (fun name _ => inr ("https://storage.example/" ++ name ++ "?sig"))
    (fun _ => 1709600523000)
    (fun n => "job-" ++ Dec.ofZ (Z.of_nat n)).

(** A host on which only the meal templates are on disk. *)
Definition mealsOnlyHost : Host :=
  mkHost "bkt" 10080 "/app"
    (fun _ => None) (fun _ => 0)
    (fun path =>
       if (String.eqb path "/app/templates/meal_first.html"
           || String.eqb path "/app/templates/meal_weekly.html")%bool
       then inr "<h1>{{client_name}}</h1>"
       else inl ("ENOENT: no such file or directory, open " ++ path))
    (fun shown => "The path argument must be of type string. Received " ++ shown)
    (fun _ => None)
    (fun html => inr ("%PDF " ++ html))
    (fun _ _ => None)
    (fun name _ => inr ("https://storage.example/" ++ name ++ "?sig"))
    (fun _ => 1709600523000)
    (fun n => "job-" ++ Dec.ofZ (Z.of_nat n)).

(** The process as long as no request has asked for the browser. *)
Definition idle (s : Process) : Prop :=
  browserPromise (world s) = None /\ launches (world s) = 0%nat
  /\ closed s = [] /\ awaitingLaunch s = [] /\ awaitingClose s = 0%nat.

(** Closes a goal with a hypothesis that equates a returned value with a
    thrown exception. *)
Ltac absurd_outcome H :=
  apply (f_equal fst) in H; cbn [fst] in H; discriminate H.

(** The date-only ISO text of a calendar date: the year in decimal, the
    month and the day in two digits. *)
Definition isoDate (y m d : Z) : string :=
  Dec.ofZ y ++ "-" ++ Spec.twoDigits m ++ "-" ++ Spec.twoDigits d.

(** Four decimal digits. *)
Definition fourDigits (y : Z) : string :=
  String (Dec.digit (y / 1000)) (String (Dec.digit (y / 100)) (Spec.twoDigits y)).

(** A date of the calendar. *)
Definition calendarDate (y m d : Z) : Prop :=
  1 <= m <= 12 /\ 1 <= d <= Time.daysInMonth y m.

(** The test that [Time.civil] undoes [Time.daysFromCivil] on the days of
    the month [m] of the year [y]. *)
Definition monthChecked (y m : Z) : bool :=
  Spec.forallFrom 31 1
    (fun d =>
       if d <=? Time.daysInMonth y m
       then let '(y', m', d') := Time.civil (Time.daysFromCivil y m d) in
            ((y' =? y) && (m' =? m) && (d' =? d))%bool
       else true).

(** A host five hours behind UTC. *)
Definition westernHost : Host :=
  mkHost "bkt" 10080 "/app"
    (fun _ => None) (fun _ => -18000000)
    (fun path => inr ("<h1>{{client_name}}</h1>" ++ path))
    (fun shown => "The path argument must be of type string. Received " ++ shown)
    (fun _ => None)
    (fun html => inr ("%PDF " ++ html))
    (fun _ _ => None)
    (fun name _ => inr ("https://storage.example/" ++ name ++ "?sig"))
    (fun _ => 1709600523000)
    (fun n => "job-" ++ Dec.ofZ (Z.of_nat n)).

(* ================================================================== *)
(** * Properties *)
(* ================================================================== *)

(** ** The model at work *)

Example safeSlug_jane : safeSlug (VStr "Jane Doe") = "jane-doe".
Proof. reflexivity. Qed.

Example safeSlug_punctuation :
  safeSlug (VStr "  Dr. Jane O'Neil-Doe (2nd) ") = "dr-jane-o-neil-doe-2nd".
Proof. reflexivity. Qed.

Example toString_array :
  Js.toString (VArr [VNum 1; VNull; VArr [VStr "a"; VBool true]]) = "1,,a,true".
Proof. reflexivity. Qed.

Example conversion_throws :
  Js.throwsToString (VObj [("toString", VNum 1)]) = true
  /\ Js.throwsToString (VArr [VStr "a"; VObj [("toString", VNull)]]) = true
  /\ Js.throwsToString (VObj [("valueOf", VNum 1)]) = false
  /\ Js.toString (VObj [("valueOf", VNum 1)]) = "[object Object]"
  /\ renderTemplateThrows (demoHost "bkt") "<h1>{{client_name}}</h1>"
       [("client_name", VObj [("toString", VNum 1)])] = true
  /\ renderTemplateThrows (demoHost "bkt") "<h1>{{client_name}}</h1>"
       [("plan", VObj [("toString", VNum 1)])] = false.
Proof. repeat split. Qed.

(** A request whose client name does not convert fails in [renderTemplate],
    before the browser is asked for; one whose job id does not convert
    fails behind the print, with the browser launched. *)
Example conversion_fails_request :
  postPdf (demoHost "bkt")
    (mkRequest [ ("template_key", VStr "meal_first");
                 ("client_name", VObj [("toString", VNum 1)]) ] [])
    initialWorld
  = (failure 500 "Cannot convert object to primitive value", initialWorld)
  /\ fst (postPdf (demoHost "bkt") (mkRequest oddJobRequest []) initialWorld)
     = failure 500 "Cannot convert object to primitive value"
  /\ launches (snd (postPdf (demoHost "bkt") (mkRequest oddJobRequest [])
                      initialWorld)) = 1%nat.
Proof. repeat split. Qed.

Example civil_epoch :
  Time.civil 0 = (1970, 1, 1) /\ Time.civil (-1) = (1969, 12, 31)
  /\ Time.civil (Time.daysFromCivil 2000 2 29) = (2000, 2, 29).
Proof. repeat split. Qed.

Example parseIsoDate_examples :
  Time.parseIsoDate "2024-03-05" = Some 1709596800000
  /\ Time.parseIsoDate "2024-02-30" = None
  /\ Time.parseIsoDate "5 March 2024" = None.
Proof. repeat split. Qed.

Example stamp_example : stamp 1709600523000 = "20240305_010203".
Proof. reflexivity. Qed.

Example render_both_forms :
  renderTemplate (demoHost "bkt")
    ("<p>{{ name }}, from {{start|date:" ++ dq ++ "%B %d, %Y" ++ dq
     ++ "}} ({{ start | date: " ++ dq ++ "iso" ++ dq ++ " }}), {{{kcal}}}</p>")
    [("name", VStr "Ann"); ("start", VStr "2024-03-05"); ("kcal", VNum 2100)]
  = "<p>Ann, from March 05, 2024 (2024-03-05), {2100}</p>".
Proof. reflexivity. Qed.

(** ** Strings *)

Lemma length_take (n : nat) (s : string) :
  (String.length (Str.take n s) <= n)%nat.
Proof.
  revert s; induction n as [|n IH]; intros [|c r]; simpl; try lia.
  specialize (IH r); lia.
Qed.

Lemma take_all (n : nat) (s : string) :
  (String.length s <= n)%nat -> Str.take n s = s.
Proof.
  revert s; induction n as [|n IH]; intros [|c r]; simpl; intros H;
    try reflexivity; try lia.
  rewrite IH by lia; reflexivity.
Qed.

Lemma append_nil_r (s : string) : s ++ EmptyString = s.
Proof. induction s as [|c r IH]; simpl; [|rewrite IH]; reflexivity. Qed.

Lemma append_assoc (a b c : string) : (a ++ b) ++ c = a ++ (b ++ c).
Proof. induction a as [|x a IH]; simpl; [|rewrite IH]; reflexivity. Qed.

Lemma length_append (a b : string) :
  String.length (a ++ b) = (String.length a + String.length b)%nat.
Proof. induction a as [|x a IH]; simpl; [|rewrite IH]; reflexivity. Qed.

(** ** [safeSlug] *)

Lemma lowerAlnum_not_dash (c : ascii) :
  Chars.isLowerAlnum c = true -> Ascii.eqb c "-" = false.
Proof.
  destruct (Ascii.eqb_spec c "-") as [->|]; [|reflexivity].
  vm_compute; discriminate.
Qed.

Lemma dropFinalDash_cons (c : ascii) (s : string) :
  Ascii.eqb c "-" = false ->
  dropFinalDash (String c s) = String c (dropFinalDash s).
Proof.
  intros H; destruct s as [|d r]; simpl; [rewrite H|]; reflexivity.
Qed.

Lemma collapseRuns_good (b : bool) (c : ascii) (r : string) :
  Chars.isLowerAlnum c = true ->
  collapseRuns b (String c r) = String c (collapseRuns false r).
Proof. intros H; simpl; rewrite H; reflexivity. Qed.

Lemma collapseRuns_bad_inRun (c : ascii) (r : string) :
  Chars.isLowerAlnum c = false ->
  collapseRuns true (String c r) = collapseRuns true r.
Proof. intros H; simpl; rewrite H; reflexivity. Qed.

Lemma collapseRuns_bad_fresh (c : ascii) (r : string) :
  Chars.isLowerAlnum c = false ->
  collapseRuns false (String c r) = String "-" (collapseRuns true r).
Proof. intros H; simpl; rewrite H; reflexivity. Qed.

Lemma words_startsWith (s : string) :
  Spec.startsWith Chars.isLowerAlnum s = true -> Spec.words s <> [].
Proof.
  destruct s as [|c r]; simpl; [discriminate|].
  intros ->.
  destruct (Spec.startsWith Chars.isLowerAlnum r);
    [destruct (Spec.words r)|]; discriminate.
Qed.

(** Inside a run, the collapsed text without a final dash is the text's
    alphanumeric runs joined by dashes; it is empty exactly when there is no
    such run. *)
Lemma collapse_inRun_words (s : string) :
  dropFinalDash (collapseRuns true s) = Str.join "-" (Spec.words s)
  /\ (collapseRuns true s = EmptyString <-> Spec.words s = []).
Proof.
  induction s as [|c r [IH1 IH2]].
  - simpl; split; [reflexivity | split; reflexivity].
  - destruct (Chars.isLowerAlnum c) eqn:Hc.
    + rewrite collapseRuns_good by assumption.
      rewrite dropFinalDash_cons by (apply lowerAlnum_not_dash; assumption).
      simpl Spec.words; rewrite Hc.
      split.
      2:{ split; [discriminate|].
          destruct (Spec.startsWith Chars.isLowerAlnum r);
            [destruct (Spec.words r)|]; discriminate. }
      destruct r as [|d r'].
      * reflexivity.
      * destruct (Chars.isLowerAlnum d) eqn:Hd.
        -- assert (Hs : Spec.startsWith Chars.isLowerAlnum (String d r') = true)
             by exact Hd.
           rewrite Hs.
           rewrite (collapseRuns_good false) by assumption.
           rewrite (collapseRuns_good true) in IH1 by assumption.
           rewrite IH1.
           pose proof (words_startsWith _ Hs) as Hne.
           destruct (Spec.words (String d r')) as [|w ws]; [contradiction|].
           destruct ws; reflexivity.
        -- assert (Hs : Spec.startsWith Chars.isLowerAlnum (String d r') = false)
             by exact Hd.
           rewrite Hs.
           rewrite collapseRuns_bad_fresh by assumption.
           rewrite collapseRuns_bad_inRun in IH1, IH2 by assumption.
           destruct (collapseRuns true r') as [|e y] eqn:Hy.
           ++ destruct IH2 as [IH2 _]. rewrite (IH2 eq_refl). reflexivity.
           ++ destruct (Spec.words (String d r')) as [|w ws] eqn:Hw.
              ** destruct IH2 as [_ IH2]. discriminate (IH2 eq_refl).
              ** change (Str.join "-" (String c EmptyString :: w :: ws))
                   with (String c (String "-" (Str.join "-" (w :: ws)))).
                 rewrite <- IH1. reflexivity.
    + rewrite collapseRuns_bad_inRun by assumption.
      simpl Spec.words; rewrite Hc.
      split; assumption.
Qed.

(** The two replacements of [safeSlug] compute the specification's
    sanitized name of a lower-case text. *)
Lemma strip_collapse_words (s : string) :
  stripEdgeDashes (collapseRuns false s) = Str.join "-" (Spec.words s).
Proof.
  destruct s as [|c r]; [reflexivity|].
  destruct (Chars.isLowerAlnum c) eqn:Hc.
  - pose proof (proj1 (collapse_inRun_words (String c r))) as H.
    rewrite collapseRuns_good in H by assumption.
    rewrite collapseRuns_good by assumption.
    unfold stripEdgeDashes.
    rewrite (lowerAlnum_not_dash c Hc). exact H.
  - pose proof (proj1 (collapse_inRun_words (String c r))) as H.
    rewrite collapseRuns_bad_inRun in H by assumption.
    rewrite collapseRuns_bad_fresh by assumption.
    simpl stripEdgeDashes. exact H.
Qed.

Lemma safeSlug_truthy (v : value) :
  Js.truthy v = true ->
  safeSlug v = Str.take 80 (Spec.sanitizedName (Js.toString v)).
Proof.
  intros H; unfold safeSlug, Spec.sanitizedName.
  rewrite H; cbn [negb]; cbv iota.
  rewrite strip_collapse_words; reflexivity.
Qed.

Lemma safeSlug_falsy (v : value) :
  Js.truthy v = false -> safeSlug v = "client".
Proof. intros H; unfold safeSlug; rewrite H; reflexivity. Qed.

(** ** The pipeline of one PDF *)

Lemma bind_inr {A B : Type} (m : M A) (f : A -> M B) (w w' : World) (b : B) :
  bind m f w = (inr b, w') ->
  exists a w1, m w = (inr a, w1) /\ f a w1 = (inr b, w').
Proof.
  unfold bind; destruct (m w) as [[e|a] w1]; intros H; [discriminate|].
  exists a, w1; split; [reflexivity | exact H].
Qed.

Lemma bind_inl {A B : Type} (m : M A) (f : A -> M B) (w w1 : World) (e : exn) :
  m w = (inl e, w1) -> bind m f w = (inl e, w1).
Proof. unfold bind; intros ->; reflexivity. Qed.

Lemma bind_step {A B : Type} (m : M A) (f : A -> M B) (w w1 : World) (a : A) :
  m w = (inr a, w1) -> bind m f w = f a w1.
Proof. unfold bind; intros ->; reflexivity. Qed.

Lemma readTemplate_ok (h : Host) (v : value) (w w1 : World) (raw : string) :
  readTemplate h v w = (inr raw, w1) ->
  exists path, v = VStr path /\ readFile h path = inr raw /\ w1 = w.
Proof.
  destruct v; simpl; try discriminate.
  unfold settle; intros H. exists s.
  destruct (readFile h s) as [msg|txt]; simpl in H; [discriminate|].
  injection H as -> ->. repeat split.
Qed.

Lemma htmlToPdfBuffer_ok (h : Host) (html : string) (w w1 : World) (buf : pdf) :
  htmlToPdfBuffer h html w = (inr buf, w1) ->
  printPdf h html = inr buf
  /\ w1 = snd (getBrowser w)
  /\ launch h (fst (getBrowser w)) = None.
Proof.
  unfold htmlToPdfBuffer, bind, awaitBrowser, settle.
  destruct (getBrowser w) as [p wb]; simpl.
  destruct (launch h p) as [msg|]; simpl; [discriminate|].
  destruct (printPdf h html) as [msg|b]; simpl; [discriminate|].
  intros H; injection H as -> ->. repeat split.
Qed.

Lemma getBrowser_frame (w : World) :
  bucket (snd (getBrowser w)) = bucket w
  /\ clockReads (snd (getBrowser w)) = clockReads w
  /\ uuidsDrawn (snd (getBrowser w)) = uuidsDrawn w.
Proof.
  unfold getBrowser; destruct (browserPromise w); simpl; repeat split.
Qed.

Lemma uploadPdfAndSign_ok (h : Host) (buf : pdf) (name : string)
    (w w1 : World) (up : object) :
  uploadPdfAndSign h buf name w = (inr up, w1) ->
  BUCKET_NAME h <> EmptyString
  /\ exists url,
       up = [ ("gcsPath", VStr ("gs://" ++ BUCKET_NAME h ++ "/" ++ name));
              ("url", VStr url) ]
       /\ bucket w1 = (bucket w ++ [(name, buf)])%list
       /\ sameBrowser w w1
       /\ uuidsDrawn w1 = uuidsDrawn w.
Proof.
  unfold uploadPdfAndSign.
  destruct (String.eqb_spec (BUCKET_NAME h) EmptyString) as [E|NE];
    [discriminate|].
  destruct (save h name buf) as [msg|]; [discriminate|].
  unfold bind, putObject, readClock, settle, ret; simpl.
  destruct (getSignedUrl h name _) as [msg|url]; simpl; [discriminate|].
  intros H; injection H as <- <-.
  split; [assumption|]. exists url. simpl. repeat split.
Qed.

(** ** The template map *)

(** A name that is no key of the template map and no inherited name reads
    as undefined. *)
Lemma TEMPLATE_FILES_unknown (h : Host) (k : string) :
  existsb (String.eqb k) templateKeys = false ->
  Js.inProto k = false ->
  Js.getProp (TEMPLATE_FILES h) k = VUndefined.
Proof.
  intros Hk Hp. unfold Js.getProp.
  simpl in Hk.
  repeat (apply orb_false_elim in Hk as [? Hk]).
  unfold TEMPLATE_FILES; simpl.
  repeat match goal with H : String.eqb k _ = false |- _ => rewrite H; clear H end.
  rewrite Hp. reflexivity.
Qed.

(** A key of the template map reads as the path of its file. *)
Lemma TEMPLATE_FILES_known (h : Host) (k : string) :
  In k templateKeys ->
  Js.getProp (TEMPLATE_FILES h) k = VStr (templatePath h k).
Proof.
  intros Hk. simpl in Hk.
  repeat (destruct Hk as [<-|Hk]; [reflexivity|]). contradiction.
Qed.

(** A name inherited from [Object.prototype] that is no key of the template
    map reads as the built-in object. *)
Lemma TEMPLATE_FILES_inherited (h : Host) (k : string) :
  Js.inProto k = true ->
  Js.getProp (TEMPLATE_FILES h) k = VInherited k.
Proof.
  intros Hp. unfold Js.getProp.
  assert (Hown : Js.ownProp (TEMPLATE_FILES h) k = None).
  { unfold Js.inProto in Hp. simpl in Hp.
    repeat (apply orb_prop in Hp as [Hp|Hp];
            [apply String.eqb_eq in Hp; subst k; reflexivity|]).
    discriminate Hp. }
  rewrite Hown, Hp. reflexivity.
Qed.

(** Only a key of the template map reads as a string. *)
Lemma TEMPLATE_FILES_path (h : Host) (k path : string) :
  Js.getProp (TEMPLATE_FILES h) k = VStr path -> In k templateKeys.
Proof.
  unfold Js.getProp, TEMPLATE_FILES; simpl.
  repeat match goal with
         | |- context [String.eqb k ?x] =>
             destruct (String.eqb_spec k x) as [->|_]; [intros _; simpl; tauto|]
         end.
  destruct (Js.inProto k); discriminate.
Qed.

Lemma htmlToPdfBuffer_run (h : Host) (html : string) (w : World) (buf : pdf) :
  launch h (fst (getBrowser w)) = None ->
  printPdf h html = inr buf ->
  htmlToPdfBuffer h html w = (inr buf, snd (getBrowser w)).
Proof.
  intros Hl Hp. unfold htmlToPdfBuffer, bind, awaitBrowser, settle.
  destruct (getBrowser w) as [p wb]; simpl in *.
  rewrite Hl; simpl. rewrite Hp; reflexivity.
Qed.

(** ** One render, step by step *)

Lemma bind_inl_inv {A B : Type} (m : M A) (f : A -> M B) (w w' : World)
    (e : exn) :
  bind m f w = (inl e, w') ->
  m w = (inl e, w')
  \/ exists a w1, m w = (inr a, w1) /\ f a w1 = (inl e, w').
Proof.
  unfold bind. destruct (m w) as [[e0|a] w1]; intros H.
  - left. injection H as <- <-. reflexivity.
  - right; exists a, w1; split; [reflexivity | exact H].
Qed.

Lemma stringOf_ok (v : value) (w w1 : World) (t : string) :
  stringOf v w = (inr t, w1) ->
  Js.throwsToString v = false /\ t = Js.toString v /\ w1 = w.
Proof.
  unfold stringOf. destruct (Js.throwsToString v); intros H.
  - unfold throw in H. absurd_outcome H.
  - unfold ret in H. injection H as <- <-. repeat split.
Qed.

Lemma stringOf_run (v : value) (w : World) :
  Js.throwsToString v = false -> stringOf v w = (inr (Js.toString v), w).
Proof. unfold stringOf. intros ->. reflexivity. Qed.

Lemma stringOf_throws (v : value) (w : World) :
  Js.throwsToString v = true -> stringOf v w = (inl ErrNotPrimitive, w).
Proof. unfold stringOf. intros ->. reflexivity. Qed.

Lemma callRenderTemplate_ok (h : Host) (raw : string) (data : object)
    (w w1 : World) (html : string) :
  callRenderTemplate h raw data w = (inr html, w1) ->
  renderTemplateThrows h raw data = false
  /\ html = renderTemplate h raw data /\ w1 = w.
Proof.
  unfold callRenderTemplate. destruct (renderTemplateThrows h raw data);
    intros H.
  - unfold throw in H. absurd_outcome H.
  - unfold ret in H. injection H as <- <-. repeat split.
Qed.

Lemma callSafeSlug_ok (v : value) (w w1 : World) (t : string) :
  callSafeSlug v w = (inr t, w1) ->
  Js.throwsToString v = false /\ t = safeSlug v /\ w1 = w.
Proof.
  unfold callSafeSlug. destruct (Js.throwsToString v); intros H.
  - unfold throw in H. absurd_outcome H.
  - unfold ret in H. injection H as <- <-. repeat split.
Qed.

(** What throws in a conversion is an object or an array, and so truthy. *)
Lemma throwsToString_truthy (v : value) :
  Js.throwsToString v = true -> Js.truthy v = true.
Proof. destruct v; cbn; intros H; try discriminate H; reflexivity. Qed.

Lemma falsy_converts (v : value) :
  Js.truthy v = false -> Js.throwsToString v = false.
Proof.
  intros Hf. destruct (Js.throwsToString v) eqn:E; [|reflexivity].
  rewrite (throwsToString_truthy v E) in Hf. discriminate Hf.
Qed.

Lemma converts_true (h : Host) (raw : string) (payload : object) :
  converts h raw payload = true
  <-> renderTemplateThrows h raw payload = false
      /\ Js.throwsToString (Js.getProp payload "job_id") = false
      /\ Js.throwsToString (Js.getProp payload "client_name") = false
      /\ Js.throwsToString (Js.getProp payload "prefix") = false.
Proof.
  unfold converts.
  destruct (renderTemplateThrows h raw payload),
    (Js.throwsToString (Js.getProp payload "job_id")),
    (Js.throwsToString (Js.getProp payload "client_name")),
    (Js.throwsToString (Js.getProp payload "prefix")); cbn;
    intuition discriminate.
Qed.

Lemma beforeUpload_frame (h : Host) (payload : object) (w : World) :
  bucket (beforeUpload h payload w) = bucket w
  /\ browserPromise (beforeUpload h payload w)
     = browserPromise (snd (getBrowser w))
  /\ launches (beforeUpload h payload w) = launches (snd (getBrowser w)).
Proof.
  unfold beforeUpload. destruct (getBrowser_frame w) as (Hb & _ & _).
  destruct (Js.truthy (Js.getProp payload "job_id"));
    destruct (Js.truthy (Js.getProp payload "prefix")); cbn; auto.
Qed.

(** A render whose key and payload convert, whose template is read, whose
    browser is up and whose PDF is printed comes down to its upload. *)
Lemma generateOnePdf_forward (h : Host) (key : value) (payload : object)
    (w : World) (path raw : string) (buf : pdf) :
  Js.throwsToString key = false ->
  Js.getProp (TEMPLATE_FILES h) (Js.toString key) = VStr path ->
  readFile h path = inr raw ->
  converts h raw payload = true ->
  launch h (fst (getBrowser w)) = None ->
  printPdf h (renderTemplate h raw payload) = inr buf ->
  generateOnePdf h key payload w
  = bind (uploadPdfAndSign h buf (objectNameIn h key payload w))
      (fun uploaded => ret (fileObject h key payload w uploaded))
      (beforeUpload h payload w).
Proof.
  intros Hkey Hpath Hread Hconv Hlaunch Hprint.
  apply converts_true in Hconv as (Hrt & Hjt & Hct & Hpt).
  unfold generateOnePdf.
  rewrite (bind_step _ _ w w _ (stringOf_run key w Hkey)).
  cbv beta zeta. rewrite Hpath.
  assert (Ht : Js.truthy (VStr path) = true).
  { apply TEMPLATE_FILES_path in Hpath as Hin.
    rewrite (TEMPLATE_FILES_known h _ Hin) in Hpath.
    injection Hpath as <-. unfold templatePath.
    destruct (dirname h); reflexivity. }
  rewrite Ht; cbn [negb]; cbv iota.
  rewrite (bind_step _ _ w w raw)
    by (unfold readTemplate, settle; rewrite Hread; reflexivity).
  rewrite (bind_step _ _ w w (renderTemplate h raw payload))
    by (unfold callRenderTemplate; rewrite Hrt; reflexivity).
  rewrite (bind_step _ _ w (snd (getBrowser w)) buf)
    by (apply htmlToPdfBuffer_run; assumption).
  destruct (getBrowser_frame w) as (Hb & Hc & Hu).
  unfold beforeUpload, fileObject, objectNameIn, fileNameIn, prefixIn, jobIdIn.
  cbv zeta. unfold callSafeSlug, stringOf. rewrite Hct.
  destruct (Js.truthy (Js.getProp payload "job_id")) eqn:Hj;
    destruct (Js.truthy (Js.getProp payload "prefix")) eqn:Hp;
    unfold bind at 1, ret at 1, drawUUID, nowStamp, readClock, bind, ret;
    cbn [fst snd uuidsDrawn clockReads Js.throwsToString];
    rewrite ?Hjt, ?Hpt; cbn [Js.toString]; rewrite ?Hu, ?Hc; reflexivity.
Qed.

(** What a successful render passed through. *)
Lemma generateOnePdf_inv (h : Host) (key : value) (payload : object)
    (w w' : World) (file : object) :
  generateOnePdf h key payload w = (inr file, w') ->
  exists raw buf,
    Js.throwsToString key = false
    /\ In (Js.toString key) templateKeys
    /\ readFile h (templatePath h (Js.toString key)) = inr raw
    /\ converts h raw payload = true
    /\ launch h (fst (getBrowser w)) = None
    /\ printPdf h (renderTemplate h raw payload) = inr buf.
Proof.
  intros H. unfold generateOnePdf in H.
  apply bind_inr in H as (keyText & w0 & Hkey & H).
  apply stringOf_ok in Hkey as (Hkt & -> & ->).
  cbv beta zeta in H.
  destruct (Js.truthy (Js.getProp (TEMPLATE_FILES h) (Js.toString key))) eqn:Ht;
    cbn [negb] in H; cbv iota in H; [|unfold throw in H; absurd_outcome H].
  apply bind_inr in H as (raw & w1 & Hread & H).
  apply readTemplate_ok in Hread as (path & Hpath & Hfile & ->).
  apply bind_inr in H as (html & w1 & Hrender & H).
  apply callRenderTemplate_ok in Hrender as (Hrt & -> & ->).
  apply bind_inr in H as (buf & w2 & Hpdf & H).
  apply htmlToPdfBuffer_ok in Hpdf as (Hprint & -> & Hlaunch).
  apply bind_inr in H as (jobId & w3 & Hjob & H).
  apply bind_inr in H as (prefix & w4 & Hpre & H).
  apply bind_inr in H as (safeName & w5 & Hslug & H).
  apply callSafeSlug_ok in Hslug as (Hct & _ & _).
  apply bind_inr in H as (jobText & w6 & Hjob2 & H).
  apply stringOf_ok in Hjob2 as (Hjt & _ & _).
  apply bind_inr in H as (prefixText & w7 & Hpre2 & _).
  apply stringOf_ok in Hpre2 as (Hpt & _ & _).
  assert (Hjt' : Js.throwsToString (Js.getProp payload "job_id") = false).
  { destruct (Js.truthy (Js.getProp payload "job_id")) eqn:Hj.
    - unfold ret in Hjob. injection Hjob as <- _. exact Hjt.
    - apply falsy_converts; exact Hj. }
  assert (Hpt' : Js.throwsToString (Js.getProp payload "prefix") = false).
  { destruct (Js.truthy (Js.getProp payload "prefix")) eqn:Hp.
    - unfold ret in Hpre. injection Hpre as <- _. exact Hpt.
    - apply falsy_converts; exact Hp. }
  pose proof (TEMPLATE_FILES_path h _ _ Hpath) as Hin.
  rewrite (TEMPLATE_FILES_known h _ Hin) in Hpath. injection Hpath as <-.
  exists raw, buf. split; [exact Hkt|]. split; [exact Hin|].
  split; [exact Hfile|].
  split; [apply converts_true; repeat split; assumption|].
  split; [exact Hlaunch | exact Hprint].
Qed.

Lemma generateOnePdf_stages (h : Host) (key : value) (payload : object)
    (w w' : World) (file : object) :
  generateOnePdf h key payload w = (inr file, w') ->
  exists raw buf,
    In (Js.toString key) templateKeys
    /\ readFile h (templatePath h (Js.toString key)) = inr raw
    /\ launch h (fst (getBrowser w)) = None
    /\ printPdf h (renderTemplate h raw payload) = inr buf
    /\ generateOnePdf h key payload w
       = bind (uploadPdfAndSign h buf (objectNameIn h key payload w))
           (fun uploaded => ret (fileObject h key payload w uploaded))
           (beforeUpload h payload w).
Proof.
  intros H.
  destruct (generateOnePdf_inv h key payload w w' file H)
    as (raw & buf & Hkt & Hin & Hfile & Hconv & Hlaunch & Hprint).
  exists raw, buf. split; [exact Hin|]. split; [exact Hfile|].
  split; [exact Hlaunch|]. split; [exact Hprint|].
  exact (generateOnePdf_forward h key payload w _ raw buf Hkt
           (TEMPLATE_FILES_known h _ Hin) Hfile Hconv Hlaunch Hprint).
Qed.

(** Everything a successful [generateOnePdf] did and returned. *)
Lemma generateOnePdf_ok (h : Host) (key : value) (payload : object)
    (w w' : World) (file : object) :
  generateOnePdf h key payload w = (inr file, w') ->
  exists path raw buf url,
    Js.getProp (TEMPLATE_FILES h) (Js.toString key) = VStr path
    /\ readFile h path = inr raw
    /\ printPdf h (renderTemplate h raw payload) = inr buf
    /\ BUCKET_NAME h <> EmptyString
    /\ file =
         [ ("template_key", key);
           ("job_id", jobIdIn h payload w);
           ("bucket", VStr (BUCKET_NAME h));
           ("fileName", VStr (fileNameIn h key payload w));
           ("objectName", VStr (objectNameIn h key payload w));
           ("gcsPath",
            VStr ("gs://" ++ BUCKET_NAME h ++ "/" ++ objectNameIn h key payload w));
           ("url", VStr url) ]
    /\ bucket w' = (bucket w ++ [(objectNameIn h key payload w, buf)])%list.
Proof.
  intros H. pose proof H as H0.
  apply generateOnePdf_stages in H0
    as (raw & buf & Hin & Hfile & _ & Hprint & Hfwd).
  rewrite Hfwd in H. apply bind_inr in H as (up & w1 & Hup & Hret).
  unfold ret in Hret. injection Hret as <- <-.
  apply uploadPdfAndSign_ok in Hup as (Hbucket & url & -> & Hb & _ & _).
  exists (templatePath h (Js.toString key)), raw, buf, url.
  split; [exact (TEMPLATE_FILES_known h _ Hin)|].
  split; [exact Hfile|]. split; [exact Hprint|]. split; [exact Hbucket|].
  split; [reflexivity|].
  rewrite Hb, (proj1 (beforeUpload_frame h payload w)). reflexivity.
Qed.

(** ** C10: the name segment of the file name *)

Lemma lowerChar_alnum (c : ascii) :
  Chars.isLowerAlnum (Chars.lowerChar c) = Spec.isAlnum c.
Proof.
  destruct c as [[] [] [] [] [] [] [] []]; vm_compute; reflexivity.
Qed.

Lemma words_no_alnum (s : string) :
  Str.all (fun c => negb (Spec.isAlnum c)) s = true ->
  Spec.words (Str.map Chars.lowerChar s) = [].
Proof.
  induction s as [|c r IH]; simpl; [reflexivity|].
  intros H; apply andb_prop in H as [Hc Hr].
  rewrite lowerChar_alnum.
  destruct (Spec.isAlnum c); [discriminate|].
  apply IH; assumption.
Qed.

(** C10, as amended.  The name segment has at most 80 characters; an absent
    or empty [client_name] (any falsy value) gives the segment [client]; a
    non-empty name made of non-alphanumerics only gives the empty segment,
    not [client]. *)
Theorem safeSlug_segment (v : value) :
  (String.length (safeSlug v) <= 80)%nat
  /\ (Js.truthy v = false -> safeSlug v = "client")
  /\ (forall s : string,
        v = VStr s -> s <> EmptyString ->
        Str.all (fun c => negb (Spec.isAlnum c)) s = true ->
        safeSlug v = EmptyString).
Proof.
  split; [|split].
  - unfold safeSlug; destruct (Js.truthy v); cbn [negb]; cbv iota.
    + apply length_take.
    + simpl; lia.
  - apply safeSlug_falsy.
  - intros s -> Hne Hall.
    rewrite safeSlug_truthy.
    + unfold Spec.sanitizedName; simpl Js.toString.
      rewrite words_no_alnum by assumption. reflexivity.
    + simpl. destruct s; [contradiction|reflexivity].
Qed.

(** The three cases on concrete names. *)
Lemma safeSlug_segment_witness :
  (String.length (safeSlug (VStr "###")) <= 80)%nat
  /\ safeSlug VUndefined = "client"
  /\ safeSlug (VStr EmptyString) = "client"
  /\ safeSlug (VStr "###") = EmptyString.
Proof.
  split; [exact (proj1 (safeSlug_segment (VStr "###")))|].
  split; [exact (proj1 (proj2 (safeSlug_segment VUndefined)) eq_refl)|].
  split; [exact (proj1 (proj2 (safeSlug_segment (VStr EmptyString))) eq_refl)|].
  refine (proj2 (proj2 (safeSlug_segment (VStr "###"))) "###" eq_refl _ eq_refl).
  discriminate.
Defined.

(** C10 as stated fails: the name [!!!] consists of non-alphanumerics only,
    and its segment is empty, so the file name has two underscores in a row. *)
Lemma safeSlug_symbols_counterexample :
  Str.all (fun c => negb (Spec.isAlnum c)) "!!!" = true
  /\ safeSlug (VStr "!!!") <> "client"
  /\ fileNameIn (demoHost "bkt") (VStr "meal_first")
       [("client_name", VStr "!!!"); ("job_id", VStr "j1")] initialWorld
     = "meal_first__j1.pdf".
Proof. split; [reflexivity|]. split; [discriminate|reflexivity]. Qed.

(** ** C7: the object key *)

(** C7, as amended.  A successful render writes one object, under the key
    [<prefix>/<templateKey>_<name>_<jobId>.pdf]: the job identifier is the
    caller's [job_id] or a fresh UUID; the prefix is the caller's [prefix] or
    [pdfs/<UTC stamp>_<jobId>]; the name segment is [client] for an absent or
    empty [client_name], and otherwise the first 80 characters of the
    specification's sanitized name (lower case, runs of non-alphanumerics
    turned into one dash, no dash at either end before the cut), which is
    the whole sanitized name when that has at most 80 characters. *)
Theorem object_key_layout (h : Host) (key : value) (payload : object)
    (w w' : World) (file : object) :
  generateOnePdf h key payload w = (inr file, w') ->
  let name := Js.getProp payload "client_name" in
  let jobId :=
    if Js.truthy (Js.getProp payload "job_id") then Js.getProp payload "job_id"
    else VStr (randomUUID h (uuidsDrawn w)) in
  let prefix :=
    if Js.truthy (Js.getProp payload "prefix")
    then Js.toString (Js.getProp payload "prefix")
    else "pdfs/" ++ stamp (clock h (clockReads w)) ++ "_" ++ Js.toString jobId in
  let segment :=
    if Js.truthy name then Str.take 80 (Spec.sanitizedName (Js.toString name))
    else "client" in
  let fileName :=
    Js.toString key ++ "_" ++ segment ++ "_" ++ Js.toString jobId ++ ".pdf" in
  let objectName := prefix ++ "/" ++ fileName in
  Js.getProp file "fileName" = VStr fileName
  /\ Js.getProp file "objectName" = VStr objectName
  /\ (exists buf, bucket w' = (bucket w ++ [(objectName, buf)])%list)
  /\ (Js.truthy name = true ->
      (String.length (Spec.sanitizedName (Js.toString name)) <= 80)%nat ->
      segment = Spec.sanitizedName (Js.toString name)).
Proof.
  intros H name jobId prefix segment fileName objectName.
  apply generateOnePdf_ok in H
    as (path & raw & buf & url & _ & _ & _ & _ & -> & Hb).
  assert (Hseg : safeSlug name = segment).
  { unfold segment. destruct (Js.truthy name) eqn:Ht.
    - apply safeSlug_truthy; assumption.
    - apply safeSlug_falsy; assumption. }
  assert (Hfile : fileNameIn h key payload w = fileName).
  { unfold fileNameIn, fileName. fold name. rewrite Hseg. reflexivity. }
  assert (Hobj : objectNameIn h key payload w = objectName).
  { unfold objectNameIn, objectName. rewrite Hfile. f_equal.
    unfold prefixIn, prefix, jobIdIn, jobId.
    destruct (Js.truthy (Js.getProp payload "prefix")); reflexivity. }
  rewrite Hfile, Hobj in *.
  split; [reflexivity|]. split; [reflexivity|].
  split; [exists buf; exact Hb|].
  intros Ht Hlen. unfold segment. rewrite Ht. apply take_all; exact Hlen.
Qed.

(** The specification's example: Jane Doe's meal plan on the demo host. *)
Lemma object_key_layout_witness :
  exists file w',
    generateOnePdf (demoHost "bkt") (VStr "meal_first") janeRequest initialWorld
    = (inr file, w')
    /\ Js.getProp file "fileName" = VStr "meal_first_jane-doe_job-0.pdf"
    /\ Js.getProp file "objectName"
       = VStr "pdfs/20240305_010203_job-0/meal_first_jane-doe_job-0.pdf"
    /\ (exists buf,
          bucket w'
          = [("pdfs/20240305_010203_job-0/meal_first_jane-doe_job-0.pdf", buf)])
    /\ Str.take 80 (Spec.sanitizedName "Jane Doe") = Spec.sanitizedName "Jane Doe".
Proof.
  destruct (generateOnePdf (demoHost "bkt") (VStr "meal_first") janeRequest
              initialWorld) as [[e|file] w'] eqn:E; [vm_compute in E; discriminate|].
  exists file, w'. split; [reflexivity|].
  destruct (object_key_layout (demoHost "bkt") (VStr "meal_first") janeRequest
              initialWorld w' file E) as (Hf & Ho & Hb & Hs).
  split; [exact Hf|]. split; [exact Ho|]. split; [exact Hb|].
  apply Hs; [reflexivity | vm_compute; lia].
Defined.

(** C7 as stated fails: for a client name whose sanitized form is longer
    than 80 characters the file name holds only its first 80 characters. *)
Lemma object_key_long_name_counterexample :
  exists file w',
    generateOnePdf (demoHost "bkt") (VStr "meal_first")
      [("client_name", VStr longName); ("job_id", VStr "j1")] initialWorld
    = (inr file, w')
    /\ Js.getProp file "fileName"
       <> VStr ("meal_first_" ++ Spec.sanitizedName longName ++ "_j1.pdf").
Proof.
  eexists; eexists; split; [vm_compute; reflexivity|].
  vm_compute; discriminate.
Qed.

(** ** C1: the template key of [POST /pdf] *)

Example template_map_keys (h : Host) :
  Js.keys (TEMPLATE_FILES h) = templateKeys
  /\ Str.join ", " (Js.keys (TEMPLATE_FILES h)) = allowedKeys.
Proof. split; reflexivity. Qed.

(** C1, as amended.  [POST /pdf] answers 400 exactly when no template key
    is given (none of [body.template_key], [query.template_key] and
    [query.template] is truthy), with a message that lists the allowed keys.
    A key that is given but is not one of the six known keys is answered
    with 500, like every other failure behind the check: with a message
    that names the key and lists the allowed keys, when the key converts to
    a string that no object inherits as a property name; with the message
    of the failed file read, when the key names a property every object
    inherits; and with the message of the [TypeError], when the key cannot
    be converted to a string (an object with an own member [toString], or
    an array that holds one). *)
Theorem postPdf_template_key (h : Host) (req : request) (w : World) :
  let key := resolveTemplateKey (body req) (query req) in
  (Js.truthy key = false ->
     postPdf h req w
     = (failure 400 ("Missing template_key. Allowed: " ++ allowedKeys), w))
  /\ (Js.truthy key = true ->
      ~ In (Js.toString key) templateKeys ->
      status (fst (postPdf h req w)) = 500)
  /\ (Js.truthy key = true ->
      Js.throwsToString key = false ->
      existsb (String.eqb (Js.toString key)) templateKeys = false ->
      Js.inProto (Js.toString key) = false ->
      postPdf h req w
      = (failure 500
           ("Unknown template_key " ++ dq ++ Js.toString key ++ dq
            ++ ". Allowed: " ++ allowedKeys), w))
  /\ (Js.truthy key = true ->
      Js.throwsToString key = false ->
      Js.inProto (Js.toString key) = true ->
      postPdf h req w
      = (failure 500
           (invalidPathMessage h (Js.inheritedToString (Js.toString key))), w))
  /\ (Js.throwsToString key = true ->
      postPdf h req w
      = (failure 500 "Cannot convert object to primitive value", w))
  /\ (status (fst (postPdf h req w)) = 400 <-> Js.truthy key = false)
  /\ (status (fst (postPdf h req w)) = 200
      \/ status (fst (postPdf h req w)) = 400
      \/ status (fst (postPdf h req w)) = 500).
Proof.
  intros key. unfold postPdf. fold key.
  destruct (Js.truthy key) eqn:Ht; cbn [negb]; cbv iota.
  - split; [discriminate|]. split; [|split; [|split; [|split]]].
    + intros _ Hnot.
      destruct (generateOnePdf h key (body req) w) as [[e|file] w'] eqn:G;
        [reflexivity|].
      apply generateOnePdf_stages in G as (_ & _ & Hin & _). contradiction.
    + intros _ Hc Hk Hp. unfold generateOnePdf.
      rewrite (bind_step _ _ _ _ _ (stringOf_run key w Hc)). cbv beta zeta.
      rewrite (TEMPLATE_FILES_unknown h _ Hk Hp). reflexivity.
    + intros _ Hc Hp. unfold generateOnePdf.
      rewrite (bind_step _ _ _ _ _ (stringOf_run key w Hc)). cbv beta zeta.
      rewrite (TEMPLATE_FILES_inherited h _ Hp). reflexivity.
    + intros Hc. unfold generateOnePdf.
      rewrite (bind_inl _ _ _ _ _ (stringOf_throws key w Hc)). reflexivity.
    + destruct (generateOnePdf h key (body req) w) as [[e|file] w'];
        simpl; split; try (split; intros; discriminate); tauto.
  - split; [reflexivity|]. split; [discriminate|]. split; [discriminate|].
    split; [discriminate|].
    split; [intros Hc; rewrite (throwsToString_truthy key Hc) in Ht;
            discriminate Ht|].
    simpl. split; [tauto|]. tauto.
Qed.

(** A request without a key, one with an unknown key in the query, and one
    whose key is an object with a member [toString]. *)
Lemma postPdf_template_key_witness :
  postPdf (demoHost "bkt") (mkRequest [("client_name", VStr "Jane Doe")] []) initialWorld
  = (failure 400 ("Missing template_key. Allowed: " ++ allowedKeys), initialWorld)
  /\ postPdf (demoHost "bkt")
       (mkRequest [("client_name", VStr "Jane Doe")] [("template", VStr "invoice")])
       initialWorld
     = (failure 500
          ("Unknown template_key " ++ dq ++ "invoice" ++ dq ++ ". Allowed: "
           ++ allowedKeys), initialWorld)
  /\ postPdf (demoHost "bkt")
       (mkRequest [("template_key", VObj [("toString", VNum 1)])] [])
       initialWorld
     = (failure 500 "Cannot convert object to primitive value", initialWorld).
Proof.
  split; [|split].
  - exact (proj1 (postPdf_template_key (demoHost "bkt")
                    (mkRequest [("client_name", VStr "Jane Doe")] [])
                    initialWorld) eq_refl).
  - exact (proj1 (proj2 (proj2 (postPdf_template_key (demoHost "bkt")
                    (mkRequest [("client_name", VStr "Jane Doe")]
                               [("template", VStr "invoice")])
                    initialWorld))) eq_refl eq_refl eq_refl eq_refl).
  - exact (proj1 (proj2 (proj2 (proj2 (proj2 (postPdf_template_key
                    (demoHost "bkt")
                    (mkRequest [("template_key", VObj [("toString", VNum 1)])]
                               [])
                    initialWorld))))) eq_refl).
Defined.

(** C1 as stated fails: a request whose template key is not one of the six
    known keys is answered with 500, not 400. *)
Lemma postPdf_unknown_key_counterexample :
  existsb (String.eqb "invoice") templateKeys = false
  /\ status (fst (postPdf (demoHost "bkt")
                    (mkRequest [("template_key", VStr "invoice")] [])
                    initialWorld)) = 500.
Proof. split; reflexivity. Qed.

(** ** C8: no bucket configured *)

Lemma uploadPdfAndSign_no_bucket (h : Host) (buf : pdf) (name : string)
    (w : World) :
  BUCKET_NAME h = EmptyString ->
  uploadPdfAndSign h buf name w = (inl ErrMissingBucket, w).
Proof. intros E; unfold uploadPdfAndSign; rewrite E; reflexivity. Qed.

(** The upload throws nothing but a storage rejection once a bucket is
    configured. *)
Lemma uploadPdfAndSign_bucket (h : Host) (buf : pdf) (name : string)
    (w w1 : World) (e : exn) :
  BUCKET_NAME h <> EmptyString ->
  uploadPdfAndSign h buf name w = (inl e, w1) ->
  exists msg, e = ErrHost Storage msg.
Proof.
  intros NE; unfold uploadPdfAndSign.
  destruct (String.eqb_spec (BUCKET_NAME h) EmptyString) as [E|_];
    [contradiction|].
  destruct (save h name buf) as [msg|].
  - unfold throw; intros H; injection H as <- _. exists msg; reflexivity.
  - unfold bind, putObject, readClock, settle, ret; simpl.
    destruct (getSignedUrl h name _) as [msg|url]; simpl; [|discriminate].
    intros H; injection H as <- _. exists msg; reflexivity.
Qed.

Lemma generateOnePdf_no_bucket (h : Host) (key : value) (payload : object)
    (w w' : World) (file : object) :
  BUCKET_NAME h = EmptyString ->
  generateOnePdf h key payload w <> (inr file, w').
Proof.
  intros E H. apply generateOnePdf_ok in H
    as (path & raw & buf & url & _ & _ & _ & NE & _).
  contradiction.
Qed.

(** With no bucket, a render that gets as far as the upload stops there. *)
Lemma generateOnePdf_reaches_upload (h : Host) (key : value) (payload : object)
    (w : World) (raw : string) (buf : pdf) :
  BUCKET_NAME h = EmptyString ->
  Js.throwsToString key = false ->
  In (Js.toString key) templateKeys ->
  readFile h (templatePath h (Js.toString key)) = inr raw ->
  converts h raw payload = true ->
  launch h (fst (getBrowser w)) = None ->
  printPdf h (renderTemplate h raw payload) = inr buf ->
  generateOnePdf h key payload w
  = (inl ErrMissingBucket, beforeUpload h payload w).
Proof.
  intros E Hkey Hin Hread Hconv Hlaunch Hprint.
  rewrite (generateOnePdf_forward h key payload w _ raw buf Hkey
             (TEMPLATE_FILES_known h _ Hin) Hread Hconv Hlaunch Hprint).
  apply bind_inl. apply uploadPdfAndSign_no_bucket; assumption.
Qed.

(** Every key the batch route works on: there is at least one. *)
Lemma keysToGenerate_nonempty (h : Host) (payload : object) :
  keysToGenerate h payload <> [].
Proof.
  unfold keysToGenerate.
  destruct (Js.getProp payload "template_keys") as [| | | | |[|k ks]| |];
    discriminate.
Qed.

(** C8.  The upload throws its configuration error exactly when the bucket
    name is empty.  In that case no request to either route is answered
    with 200 or with a file object: the answer is ok:false.  A render
    request, that is a request for a known template whose render goes
    through (the key and the payload convert, the template file is read,
    the browser is up and the PDF is printed), is answered with 500 and the
    message naming the missing bucket variable, on [POST /pdf] and, for the
    first key of the batch, on [POST /pdfs]. *)
Theorem missing_bucket (h : Host) :
  (forall buf name w,
      (exists w1, uploadPdfAndSign h buf name w = (inl ErrMissingBucket, w1))
      <-> BUCKET_NAME h = EmptyString)
  /\ (BUCKET_NAME h = EmptyString ->
      (forall req w,
          exists code msg,
            fst (postPdf h req w) = failure code msg
            /\ (code = 400 \/ code = 500))
      /\ (forall req w,
            exists msg, fst (postPdfs h req w) = failure 500 msg)
      /\ (forall req w raw buf,
            let key := resolveTemplateKey (body req) (query req) in
            Js.truthy key = true ->
            Js.throwsToString key = false ->
            In (Js.toString key) templateKeys ->
            readFile h (templatePath h (Js.toString key)) = inr raw ->
            converts h raw (body req) = true ->
            launch h (fst (getBrowser w)) = None ->
            printPdf h (renderTemplate h raw (body req)) = inr buf ->
            fst (postPdf h req w)
            = failure 500 "Missing BUCKET_NAME env var")
      /\ (forall req w key rest raw buf,
            keysToGenerate h (body req) = key :: rest ->
            Js.throwsToString key = false ->
            In (Js.toString key) templateKeys ->
            readFile h (templatePath h (Js.toString key)) = inr raw ->
            converts h raw (body req) = true ->
            launch h (fst (getBrowser w)) = None ->
            printPdf h (renderTemplate h raw (body req)) = inr buf ->
            fst (postPdfs h req w)
            = failure 500 "Missing BUCKET_NAME env var")).
Proof.
  split.
  - intros buf name w; split.
    + intros [w1 H].
      destruct (String.eqb_spec (BUCKET_NAME h) EmptyString) as [E|NE];
        [assumption|].
      destruct (uploadPdfAndSign_bucket h buf name w w1 _ NE H) as [msg Hm].
      discriminate.
    + intros E; exists w; apply uploadPdfAndSign_no_bucket; assumption.
  - intros E. split; [|split; [|split]].
    + intros req w. unfold postPdf.
      destruct (Js.truthy (resolveTemplateKey (body req) (query req)));
        cbn [negb]; cbv iota.
      * destruct (generateOnePdf h _ (body req) w) as [[e|file] w'] eqn:G.
        -- eexists; eexists; split; [reflexivity|]; right; reflexivity.
        -- exfalso; exact (generateOnePdf_no_bucket h _ _ _ _ _ E G).
      * eexists; eexists; split; [reflexivity|]; left; reflexivity.
    + intros req w. unfold postPdfs.
      pose proof (keysToGenerate_nonempty h (body req)) as Hne.
      destruct (keysToGenerate h (body req)) as [|k ks]; [contradiction|].
      simpl generateAll. unfold bind.
      destruct (generateOnePdf h k (body req) w) as [[e|file] w'] eqn:G.
      * eexists; reflexivity.
      * exfalso; exact (generateOnePdf_no_bucket h _ _ _ _ _ E G).
    + intros req w raw buf key Ht Hkey Hin Hread Hconv Hlaunch Hprint.
      unfold postPdf. fold key. rewrite Ht; cbn [negb]; cbv iota.
      rewrite (generateOnePdf_reaches_upload h key (body req) w raw buf
                 E Hkey Hin Hread Hconv Hlaunch Hprint).
      reflexivity.
    + intros req w key rest raw buf Hkeys Hkey Hin Hread Hconv Hlaunch Hprint.
      unfold postPdfs. cbv zeta. rewrite Hkeys. cbn [generateAll].
      rewrite (bind_inl _ _ _ _ _
                 (generateOnePdf_reaches_upload h key (body req) w raw buf
                    E Hkey Hin Hread Hconv Hlaunch Hprint)).
      reflexivity.
Qed.

(** The demo host without a bucket, on the specification's example request
    and on a batch for two templates. *)
Lemma missing_bucket_witness :
  (exists w1,
      uploadPdfAndSign (demoHost EmptyString) "%PDF" "pdfs/a.pdf" initialWorld
      = (inl ErrMissingBucket, w1))
  /\ fst (postPdf (demoHost EmptyString) (mkRequest janeRequest []) initialWorld)
     = failure 500 "Missing BUCKET_NAME env var"
  /\ fst (postPdfs (demoHost EmptyString) twoKeysRequest initialWorld)
     = failure 500 "Missing BUCKET_NAME env var".
Proof.
  split; [|split].
  - exact (proj2 (proj1 (missing_bucket (demoHost EmptyString))
                    "%PDF" "pdfs/a.pdf" initialWorld) eq_refl).
  - exact (proj1 (proj2 (proj2 (proj2 (missing_bucket (demoHost EmptyString))
                                  eq_refl)))
             (mkRequest janeRequest []) initialWorld
             "<h1>{{client_name}}</h1>/app/templates/meal_first.html"
             "%PDF <h1>Jane Doe</h1>/app/templates/meal_first.html"
             eq_refl eq_refl (or_introl eq_refl) eq_refl eq_refl eq_refl
             eq_refl).
  - exact (proj2 (proj2 (proj2 (proj2 (missing_bucket (demoHost EmptyString))
                                  eq_refl)))
             twoKeysRequest initialWorld
             (VStr "meal_first") [VStr "workout_first"]
             "<h1>{{client_name}}</h1>/app/templates/meal_first.html"
             "%PDF <h1>Jane Doe</h1>/app/templates/meal_first.html"
             eq_refl eq_refl (or_introl eq_refl) eq_refl eq_refl eq_refl
             eq_refl).
Defined.

(** A request with a fault of its own does not get as far as the upload: it
    fails at that fault, with that fault's message, whether or not a bucket
    is configured.  Here the template file is not on disk, or the key is
    unknown. *)
Example fault_before_upload :
  BUCKET_NAME noTemplatesHost = EmptyString
  /\ fst (postPdf noTemplatesHost (mkRequest janeRequest []) initialWorld)
     = failure 500
         "ENOENT: no such file or directory, open /app/templates/meal_first.html"
  /\ fst (postPdf noTemplatesHost
            (mkRequest [("template_key", VStr "invoice")] []) initialWorld)
     = failure 500
         ("Unknown template_key " ++ dq ++ "invoice" ++ dq ++ ". Allowed: "
          ++ allowedKeys).
Proof. repeat split. Qed.

(** ** The batch loop *)

Lemma keys_setProp (o : object) (k : string) (v : value) :
  Js.keys (Js.setProp o k v) = addKey (Js.keys o) k.
Proof.
  unfold addKey, Js.keys.
  induction o as [|[k' v'] o IH]; simpl; [reflexivity|].
  destruct (String.eqb k k') eqn:E; simpl; [reflexivity|].
  rewrite IH. destruct (existsb (String.eqb k) (List.map fst o)); reflexivity.
Qed.

Lemma In_setProp (o : object) (k : string) (v : value) (k' : string) (v' : value) :
  In (k', v') (Js.setProp o k v) -> (k' = k /\ v' = v) \/ In (k', v') o.
Proof.
  induction o as [|[k0 v0] o IH]; simpl.
  - intros [H|[]]. injection H as <- <-. left; split; reflexivity.
  - destruct (String.eqb_spec k k0) as [->|NE].
    + simpl. intros [H|H].
      * injection H as <- <-. left; split; reflexivity.
      * right; right; assumption.
    + simpl. intros [H|H]; [right; left; assumption|].
      destruct (IH H); [left | right; right]; assumption.
Qed.

Lemma existsb_eqb_In (k : string) (l : list string) :
  existsb (String.eqb k) l = true <-> In k l.
Proof.
  rewrite existsb_exists. split.
  - intros (x & Hx & E). apply String.eqb_eq in E. subst; assumption.
  - intros H. exists k. split; [assumption | apply String.eqb_refl].
Qed.

Lemma In_addKey (l : list string) (k x : string) :
  In x (addKey l k) <-> In x l \/ x = k.
Proof.
  unfold addKey. destruct (existsb (String.eqb k) l) eqn:E.
  - apply existsb_eqb_In in E. split; [tauto|]. intros [H| ->]; assumption.
  - rewrite in_app_iff. simpl. split.
    + intros [H|[<-|[]]]; [left; assumption | right; reflexivity].
    + intros [H| ->]; [left; assumption | right; left; reflexivity].
Qed.

Lemma In_fold_addKey (l acc : list string) (x : string) :
  In x (fold_left addKey l acc) <-> In x acc \/ In x l.
Proof.
  revert acc; induction l as [|k l IH]; intros acc; simpl; [tauto|].
  rewrite IH, In_addKey. split; intros H; intuition auto.
Qed.

Lemma fold_addKey_NoDup (l acc : list string) :
  NoDup (acc ++ l) -> fold_left addKey l acc = (acc ++ l)%list.
Proof.
  revert acc; induction l as [|k l IH]; intros acc H; simpl.
  - rewrite app_nil_r; reflexivity.
  - assert (Hk : existsb (String.eqb k) acc = false).
    { destruct (existsb (String.eqb k) acc) eqn:E; [|reflexivity].
      apply existsb_eqb_In in E. apply NoDup_remove_2 in H.
      exfalso; apply H. apply in_or_app; left; assumption. }
    unfold addKey at 2. rewrite Hk.
    rewrite IH; rewrite <- app_assoc; simpl; [reflexivity | assumption].
Qed.

Lemma generateOnePdf_shape (h : Host) (key : value) (payload : object)
    (w w' : World) (file : object) :
  generateOnePdf h key payload w = (inr file, w') ->
  Js.keys file = fileShape
  /\ Js.getProp file "template_key" = key
  /\ In (Js.toString key) templateKeys
  /\ exists write, bucket w' = (bucket w ++ [write])%list
                   /\ writtenFor (Js.toString key) write.
Proof.
  intros H. apply generateOnePdf_ok in H
    as (path & raw & buf & url & Hpath & _ & _ & _ & -> & Hb).
  split; [reflexivity|]. split; [reflexivity|].
  split; [exact (TEMPLATE_FILES_path h _ _ Hpath)|].
  eexists; split; [exact Hb|].
  unfold writtenFor, objectNameIn, fileNameIn; simpl fst.
  eexists; eexists; reflexivity.
Qed.

(** What a completed loop has done: the keys of the result are those it
    started with, then the keys worked on, each where it first occurs; one
    object was written per key, in the order of the keys; every new member
    is the file object of its key, and its key is a known template. *)
Lemma generateAll_ok (h : Host) (payload : object) (ks : list value) :
  forall (acc : object) (w w' : World) (results : object),
    generateAll h ks payload acc w = (inr results, w') ->
    Js.keys results = fold_left addKey (List.map Js.toString ks) (Js.keys acc)
    /\ (exists writes,
          bucket w' = (bucket w ++ writes)%list
          /\ Forall2 writtenFor (List.map Js.toString ks) writes)
    /\ (forall k v, In (k, v) results ->
          In (k, v) acc \/ (isFileObject k v /\ In k templateKeys))
    /\ Forall (fun k => In (Js.toString k) templateKeys) ks.
Proof.
  induction ks as [|k ks IH]; intros acc w w' results H.
  - simpl in H. unfold ret in H. injection H as <- <-.
    split; [reflexivity|]. split; [|split].
    + exists []. rewrite app_nil_r. split; [reflexivity | constructor].
    + intros; left; assumption.
    + constructor.
  - simpl in H. apply bind_inr in H as (file & w1 & Hone & H).
    apply IH in H as (Hkeys & (writes & Hb & Hw) & Hmem & Hall).
    apply generateOnePdf_shape in Hone as (Hshape & Htk & Hin & write & Hb1 & Hw1).
    split; [|split; [|split]].
    + rewrite Hkeys, keys_setProp. reflexivity.
    + exists (write :: writes). split.
      * rewrite Hb, Hb1, <- app_assoc. reflexivity.
      * constructor; assumption.
    + intros k' v' Hin'. destruct (Hmem k' v' Hin') as [Hacc|Hnew].
      * destruct (In_setProp _ _ _ _ _ Hacc) as [[-> ->]|Hold];
          [|left; assumption].
        right. split; [|assumption].
        exists file. repeat split; try assumption.
        rewrite Htk; reflexivity.
      * right; assumption.
    + constructor; assumption.
Qed.

(** ** C5: which files a batch yields, and in which order *)

(** C5.  In a 200 answer of [POST /pdfs] to a non-empty [template_keys]
    array, the keys of [files] are the requested keys (as property names),
    each where it first occurs, so for a request without repetition they are
    the requested list itself; nothing else is a key of [files]; every
    entry is the file object made for its key; and one object was written
    per requested key, one after the other in the requested order.  When [template_keys] is no non-empty array, in
    particular when it is omitted, the same holds of the six keys of the
    template map in its enumeration order. *)
Theorem postPdfs_files (h : Host) (req : request) (w w' : World)
    (resp : response) :
  postPdfs h req w = (resp, w') ->
  status resp = 200 ->
  exists files writes,
    Js.getProp (json resp) "files" = VObj files
    /\ bucket w' = (bucket w ++ writes)%list
    /\ (forall k v, In (k, v) files -> isFileObject k v)
    /\ (forall k ks,
          Js.getProp (body req) "template_keys" = VArr (k :: ks) ->
          let requested := List.map Js.toString (k :: ks) in
          Js.keys files = firstOccurrences requested
          /\ (NoDup requested -> Js.keys files = requested)
          /\ (forall x, In x (Js.keys files) <-> In x requested)
          /\ Forall2 writtenFor requested writes)
    /\ ((forall k ks,
           Js.getProp (body req) "template_keys" <> VArr (k :: ks)) ->
        Js.keys files = templateKeys
        /\ Forall2 writtenFor templateKeys writes).
Proof.
  unfold postPdfs. intros H Hs.
  destruct (generateAll h (keysToGenerate h (body req)) (body req) [] w)
    as [[e|results] w1] eqn:G; injection H as <- <-; [discriminate|].
  apply generateAll_ok in G as (Hkeys & (writes & Hb & Hw) & Hmem & _).
  exists results, writes. split; [reflexivity|]. split; [assumption|].
  split.
  { intros k v Hin. destruct (Hmem k v Hin) as [[]|[Hf _]]. exact Hf. }
  simpl Js.keys in Hkeys. split.
  - intros k ks Hreq.
    unfold keysToGenerate in Hkeys, Hw. rewrite Hreq in Hkeys, Hw.
    split; [exact Hkeys|]. split; [|split; [|exact Hw]].
    + intros Hnd. rewrite Hkeys. apply (fold_addKey_NoDup _ []).
      exact Hnd.
    + intros x. rewrite Hkeys. unfold firstOccurrences.
      rewrite In_fold_addKey. simpl. tauto.
  - intros Hno.
    assert (Hall : keysToGenerate h (body req)
                   = List.map VStr (Js.keys (TEMPLATE_FILES h))).
    { unfold keysToGenerate.
      destruct (Js.getProp (body req) "template_keys")
        as [| | | | |[|k ks]| |]; try reflexivity.
      exfalso; exact (Hno k ks eq_refl). }
    rewrite Hall in Hkeys, Hw. split; [exact Hkeys | exact Hw].
Qed.

(** The specification's two examples: two requested keys, and none. *)
Lemma postPdfs_files_witness :
  (exists files writes,
      Js.getProp (json (fst (postPdfs (demoHost "bkt") twoKeysRequest initialWorld)))
        "files" = VObj files
      /\ Js.keys files = ["meal_first"; "workout_first"]
      /\ Forall2 writtenFor ["meal_first"; "workout_first"] writes)
  /\ (exists files,
        Js.getProp (json (fst (postPdfs (demoHost "bkt") allKeysRequest initialWorld)))
          "files" = VObj files
        /\ Js.keys files = templateKeys).
Proof.
  split.
  - destruct (postPdfs (demoHost "bkt") twoKeysRequest initialWorld)
      as [resp w'] eqn:E.
    assert (Hs : status resp = 200)
      by (vm_compute in E; injection E as <- _; reflexivity).
    destruct (postPdfs_files (demoHost "bkt") twoKeysRequest initialWorld w'
                resp E Hs) as (files & writes & Hf & _ & _ & Hreq & _).
    destruct (Hreq (VStr "meal_first") [VStr "workout_first"] eq_refl)
      as (_ & Hnd & _ & Hw).
    exists files, writes. split; [exact Hf|]. split; [|exact Hw].
    apply Hnd. repeat constructor; simpl; intuition discriminate.
  - destruct (postPdfs (demoHost "bkt") allKeysRequest initialWorld)
      as [resp w'] eqn:E.
    assert (Hs : status resp = 200)
      by (vm_compute in E; injection E as <- _; reflexivity).
    destruct (postPdfs_files (demoHost "bkt") allKeysRequest initialWorld w'
                resp E Hs) as (files & writes & Hf & _ & _ & _ & Hall).
    exists files. split; [exact Hf|].
    apply Hall. intros k ks; discriminate.
Defined.

(** A key requested twice is rendered and written twice and listed once,
    where it first occurs. *)
Example batch_with_repetition :
  exists files w',
    postPdfs (demoHost "bkt")
      (mkRequest
         [ ("template_keys",
            VArr [VStr "meal_first"; VStr "workout_first"; VStr "meal_first"]);
           ("job_id", VNum 7) ] []) initialWorld
    = (mkResponse 200
         [ ("ok", VBool true); ("job_id", VNum 7); ("bucket", VStr "bkt");
           ("files", VObj files) ], w')
    /\ Js.keys files = ["meal_first"; "workout_first"]
    /\ List.map fst (bucket w')
       = [ "pdfs/20240305_010203_7/meal_first_client_7.pdf";
           "pdfs/20240305_010203_7/workout_first_client_7.pdf";
           "pdfs/20240305_010203_7/meal_first_client_7.pdf" ].
Proof. eexists; eexists. split; [vm_compute; reflexivity|]. split; reflexivity. Qed.

(** ** C6: the shape of the batch answer *)

(** C6, as amended.  A 200 answer of [POST /pdfs] has the members [ok]
    (true), [job_id] (the caller's, or null), [bucket] and [files], and
    every entry of [files] has the shape of the single-PDF file object in
    full, [template_key], [job_id] and [bucket] included. *)
Theorem batch_response_shape (h : Host) (req : request) (w w' : World)
    (resp : response) :
  (postPdf h req w = (resp, w') -> status resp = 200 ->
   exists file,
     json resp = [ ("ok", VBool true); ("file", VObj file) ]
     /\ Js.keys file = fileShape)
  /\ (postPdfs h req w = (resp, w') -> status resp = 200 ->
      exists files,
        json resp
        = [ ("ok", VBool true);
            ("job_id", Js.or (Js.getProp (body req) "job_id") VNull);
            ("bucket", VStr (BUCKET_NAME h));
            ("files", VObj files) ]
        /\ forall k v, In (k, v) files ->
             exists entry, v = VObj entry /\ Js.keys entry = fileShape).
Proof.
  split.
  - unfold postPdf. intros H Hs.
    destruct (Js.truthy (resolveTemplateKey (body req) (query req)));
      cbn [negb] in H; cbv iota in H.
    + destruct (generateOnePdf h _ (body req) w) as [[e|file] w1] eqn:G;
        injection H as <- <-; [discriminate|].
      exists file. split; [reflexivity|].
      exact (proj1 (generateOnePdf_shape _ _ _ _ _ _ G)).
    + injection H as <- <-. discriminate.
  - unfold postPdfs. intros H Hs.
    destruct (generateAll h (keysToGenerate h (body req)) (body req) [] w)
      as [[e|results] w1] eqn:G; injection H as <- <-; [discriminate|].
    exists results. split; [reflexivity|].
    apply generateAll_ok in G as (_ & _ & Hmem & _).
    intros k v Hin. destruct (Hmem k v Hin) as [[]|[(o & -> & Hk & _) _]].
    exists o. split; [reflexivity | assumption].
Qed.

(** The answer to the two-key request on the demo host. *)
Lemma batch_response_shape_witness :
  exists files,
    json (fst (postPdfs (demoHost "bkt") twoKeysRequest initialWorld))
    = [ ("ok", VBool true); ("job_id", VStr "j1"); ("bucket", VStr "bkt");
        ("files", VObj files) ]
    /\ forall k v, In (k, v) files ->
         exists entry, v = VObj entry /\ Js.keys entry = fileShape.
Proof.
  destruct (postPdfs (demoHost "bkt") twoKeysRequest initialWorld)
    as [resp w'] eqn:E.
  assert (Hs : status resp = 200)
    by (vm_compute in E; injection E as <- _; reflexivity).
  exact (proj2 (batch_response_shape (demoHost "bkt") twoKeysRequest
                  initialWorld w' resp) E Hs).
Defined.

(** C6 as stated fails: the entry of [files] for a requested key has the
    members [template_key], [job_id] and [bucket] as well. *)
Lemma batch_entry_counterexample :
  exists files entry,
    Js.getProp (json (fst (postPdfs (demoHost "bkt") twoKeysRequest initialWorld)))
      "files" = VObj files
    /\ Js.getProp files "meal_first" = VObj entry
    /\ Js.keys entry
       = [ "template_key"; "job_id"; "bucket"; "fileName"; "objectName";
           "gcsPath"; "url" ]
    /\ Js.keys entry <> [ "fileName"; "objectName"; "gcsPath"; "url" ].
Proof.
  eexists; eexists. split; [vm_compute; reflexivity|].
  split; [vm_compute; reflexivity|].
  split; [reflexivity | discriminate].
Qed.

(** ** Scanning a template *)

#[local] Arguments Ascii.eqb : simpl never.

Lemma includes_cons (p : string) (c : ascii) (t : string) :
  Str.includes p (String c t)
  = match Str.stripPrefix p (String c t) with
    | Some _ => true
    | None => Str.includes p t
    end.
Proof. reflexivity. Qed.

Lemma stripPrefix_app (p r : string) : Str.stripPrefix p (p ++ r) = Some r.
Proof.
  induction p as [|c p IH]; simpl; [reflexivity|].
  rewrite Ascii.eqb_refl. exact IH.
Qed.

Lemma span_app (p : ascii -> bool) (a b : string) :
  Str.all p a = true -> Spec.startsWith p b = false ->
  Str.span p (a ++ b) = (a, b).
Proof.
  intros Ha Hb. induction a as [|c a IH]; simpl in *.
  - destruct b as [|d b]; simpl in *; [reflexivity|]. rewrite Hb; reflexivity.
  - apply andb_prop in Ha as [Hc Ha]. rewrite Hc, (IH Ha). reflexivity.
Qed.

Lemma replaceAll_skip {A : Type} (re : string -> option (found A))
    (fn : A -> string) (a b : string) :
  replaceAll re fn (String.length a) (a ++ b) = replaceAll re fn 0 b.
Proof. induction a as [|c a IH]; simpl; [destruct b|]; auto. Qed.

(** A match at the head of the text is replaced, and the scan goes on
    behind it. *)
Lemma replaceAll_match {A : Type} (re : string -> option (found A))
    (fn : A -> string) (m rest : string) (g : A) :
  m <> EmptyString ->
  re (m ++ rest) = Some (mkFound g (String.length m)) ->
  replaceAll re fn 0 (m ++ rest) = fn g ++ replaceAll re fn 0 rest.
Proof.
  intros Hm Hre. destruct m as [|c m]; [contradiction|].
  simpl append in *. simpl replaceAll. rewrite Hre.
  simpl. rewrite Nat.sub_0_r, replaceAll_skip. reflexivity.
Qed.

Lemma opens_after_braces (r0 : string) :
  (exists c r, r0 = String c r /\ Ascii.eqb c "{" = false)
  \/ snd (Str.span Chars.isIdent (snd (Str.span Chars.isSpace r0))) = r0
     /\ fst (Str.span Chars.isIdent (snd (Str.span Chars.isSpace r0)))
        = EmptyString.
Proof.
  destruct r0 as [|c r]; [right; split; reflexivity|].
  destruct (Ascii.eqb_spec c "{") as [->|NE].
  - right; split; reflexivity.
  - left; exists c, r; split; [reflexivity|].
    apply Ascii.eqb_neq; assumption.
Qed.

Lemma stripPrefix_braces (s r0 : string) :
  Str.stripPrefix "{{" s = Some r0 -> s = String "{" (String "{" r0).
Proof.
  destruct s as [|a [|b s]]; cbn [Str.stripPrefix]; intros H;
    try discriminate H.
  - destruct (Ascii.eqb "{" a); discriminate H.
  - destruct (Ascii.eqb_spec "{" a) as [<-|]; [|discriminate H].
    destruct (Ascii.eqb_spec "{" b) as [<-|]; [|discriminate H].
    injection H as <-; reflexivity.
Qed.

Lemma matchBare_opens : opensLikePlaceholder matchBare.
Proof.
  intros s m. unfold matchBare.
  destruct (Str.stripPrefix "{{" s) as [r0|] eqn:E; [|intros; discriminate].
  apply stripPrefix_braces in E as ->.
  destruct (opens_after_braces r0) as [(c & r & -> & Hc)|[_ Hk]].
  - intros _. exists c, r; split; [reflexivity | assumption].
  - destruct (Str.span Chars.isSpace r0) as [w1 r1]; simpl in Hk.
    destruct (Str.span Chars.isIdent r1) as [k r2]; simpl in Hk.
    subst k. cbn [String.eqb]. intros; discriminate.
Qed.

Lemma matchDate_opens : opensLikePlaceholder matchDate.
Proof.
  intros s m. unfold matchDate.
  destruct (Str.stripPrefix "{{" s) as [r0|] eqn:E; [|intros; discriminate].
  apply stripPrefix_braces in E as ->.
  destruct (opens_after_braces r0) as [(c & r & -> & Hc)|[_ Hk]].
  - intros _. exists c, r; split; [reflexivity | assumption].
  - destruct (Str.span Chars.isSpace r0) as [w1 r1]; simpl in Hk.
    destruct (Str.span Chars.isIdent r1) as [k r2]; simpl in Hk.
    subst k. cbn [String.eqb]. intros; discriminate.
Qed.

Lemma plain_tail (c : ascii) (t : string) :
  Spec.plain (String c t) -> Spec.plain t.
Proof.
  unfold Spec.plain. rewrite includes_cons.
  destruct (Str.stripPrefix "{{" (String c t)); [intros; discriminate|].
  trivial.
Qed.

(** Plain text passes through a scan unchanged. *)
Lemma replaceAll_plain {A : Type} (re : string -> option (found A))
    (fn : A -> string) (t rest : string) :
  opensLikePlaceholder re ->
  Spec.plain t -> boundary rest ->
  replaceAll re fn 0 (t ++ rest) = t ++ replaceAll re fn 0 rest.
Proof.
  intros Hre Ht Hrest. induction t as [|c t IH]; [reflexivity|].
  simpl append. simpl replaceAll.
  destruct (re (String c (t ++ rest))) as [m|] eqn:E.
  - exfalso. apply Hre in E as (c2 & r & Hs & Hc2).
    injection Hs as -> Hs.
    destruct t as [|d t].
    + simpl in Hs. destruct Hrest as [->|Hr]; [discriminate|].
      subst rest. simpl in Hr.
      destruct (Ascii.eqb_spec "{" c2) as [<-|NE]; [discriminate|].
      apply Hr; reflexivity.
    + simpl in Hs. injection Hs as -> _.
      unfold Spec.plain in Ht. simpl in Ht. discriminate.
  - rewrite (IH (plain_tail _ _ Ht)). reflexivity.
Qed.

Lemma ident_not_space (c : ascii) :
  Chars.isIdent c = true -> Chars.isSpace c = false.
Proof.
  destruct c as [[] [] [] [] [] [] [] []]; vm_compute; intros H;
    first [reflexivity | discriminate H].
Qed.

Lemma key_starts (k rest : string) :
  Spec.wellFormedKey k ->
  Spec.startsWith Chars.isSpace (k ++ rest) = false.
Proof.
  intros [Hne Hall]. destruct k as [|c k]; [contradiction|].
  simpl in *. apply andb_prop in Hall as [Hc _].
  apply ident_not_space; assumption.
Qed.

(** After a blank: white space ends before a character that is none. *)
Lemma span_blank (g rest : string) :
  Spec.blank g -> Spec.startsWith Chars.isSpace rest = false ->
  Str.span Chars.isSpace (g ++ rest) = (g, rest).
Proof. intros; apply span_app; assumption. Qed.

Lemma stripPrefix_open (r : string) :
  Str.stripPrefix "{{" (String "{" (String "{" r)) = Some r.
Proof. reflexivity. Qed.

Lemma stripPrefix_close (r : string) :
  Str.stripPrefix "}}" (String "}" (String "}" r)) = Some r.
Proof. reflexivity. Qed.

Lemma blank_then_ident (g rest : string) :
  Spec.blank g ->
  Spec.startsWith Chars.isIdent rest = false ->
  Spec.startsWith Chars.isIdent (g ++ rest) = false.
Proof.
  intros Hg Hr. destruct g as [|c g]; [exact Hr|].
  simpl. unfold Spec.blank in Hg. simpl in Hg.
  apply andb_prop in Hg as [Hc _].
  destruct (Chars.isIdent c) eqn:Hi; [|reflexivity].
  apply ident_not_space in Hi. congruence.
Qed.

Lemma matchBare_hole (p : Spec.hole) (rest : string) :
  Spec.wellFormedHole p ->
  matchBare (Spec.holeText p ++ rest)
  = Some (mkFound (Spec.key p) (String.length (Spec.holeText p))).
Proof.
  destruct p as [g1 k g2]. intros (H1 & Hk & H2).
  cbn [Spec.ws1 Spec.key Spec.ws2] in *.
  unfold Spec.holeText, matchBare. cbn [Spec.ws1 Spec.key Spec.ws2].
  change (("{{" ++ g1 ++ k ++ g2 ++ "}}") ++ rest)
    with (String "{" (String "{" ((g1 ++ k ++ g2 ++ "}}") ++ rest))).
  rewrite stripPrefix_open, !append_assoc.
  rewrite (span_blank g1 _ H1 (key_starts k _ Hk)).
  rewrite (span_app Chars.isIdent k _ (proj2 Hk)
             (blank_then_ident g2 ("}}" ++ rest) H2 eq_refl)).
  destruct (String.eqb_spec k EmptyString) as [->|_];
    [exfalso; exact (proj1 Hk eq_refl)|].
  rewrite (span_blank g2 ("}}" ++ rest) H2 eq_refl).
  change ("}}" ++ rest) with (String "}" (String "}" rest)).
  rewrite stripPrefix_close.
  unfold Str.len. change (String.length ("{{" ++ g1 ++ k ++ g2 ++ "}}"))
    with (S (S (String.length (g1 ++ k ++ g2 ++ "}}")))).
  repeat rewrite length_append. cbn [String.length].
  do 2 f_equal. lia.
Qed.

Lemma matchDate_hole (p : Spec.dateHole) (rest : string) :
  Spec.wellFormedDateHole p ->
  matchDate (Spec.dateHoleText p ++ rest)
  = Some (mkFound (Spec.dkey p, Spec.dfmt p)
            (String.length (Spec.dateHoleText p))).
Proof.
  destruct p as [k fmt [[[[g1 g2] g3] g4] g5]].
  unfold Spec.wellFormedDateHole, Spec.dateHoleText.
  cbn [Spec.gaps Spec.dkey Spec.dfmt].
  intros (H1 & H2 & H3 & H4 & H5 & Hk & Hne & Hq).
  unfold matchDate.
  rewrite !append_assoc.
  rewrite stripPrefix_app.
  rewrite (span_blank g1 _ H1 (key_starts k _ Hk)).
  rewrite (span_app Chars.isIdent k _ (proj2 Hk)
             (blank_then_ident g2 ("|" ++ _) H2 eq_refl)).
  destruct (String.eqb_spec k EmptyString) as [->|_];
    [exfalso; exact (proj1 Hk eq_refl)|].
  rewrite (span_blank g2 ("|" ++ _) H2 eq_refl).
  rewrite stripPrefix_app.
  rewrite (span_blank g3 ("date:" ++ _) H3 eq_refl).
  rewrite stripPrefix_app.
  rewrite (span_blank g4 (dq ++ _) H4 eq_refl).
  rewrite stripPrefix_app.
  rewrite (span_app Chars.notQuote fmt (dq ++ _) Hq eq_refl).
  destruct (String.eqb_spec fmt EmptyString) as [->|_];
    [exfalso; exact (Hne eq_refl)|].
  rewrite stripPrefix_app.
  rewrite (span_blank g5 ("}}" ++ rest) H5 eq_refl).
  rewrite stripPrefix_app.
  unfold Str.len. repeat rewrite length_append. cbn [String.length dq].
  do 2 f_equal. lia.
Qed.

(** ** C2: the second pass *)

Lemma holeText_nonempty (p : Spec.hole) : Spec.holeText p <> EmptyString.
Proof. unfold Spec.holeText; discriminate. Qed.

(** The scan of a piece of plain text followed by a placeholder. *)
Lemma renderBare_piece (data : object) (t : string) (p : Spec.hole)
    (rest : string) :
  Spec.plain t -> Spec.wellFormedHole p ->
  renderBare (t ++ Spec.holeText p ++ rest) data
  = t ++ bareValue data (Spec.key p) ++ renderBare rest data.
Proof.
  intros Ht Hp. unfold renderBare.
  rewrite (replaceAll_plain matchBare _ t _ matchBare_opens Ht).
  - rewrite (replaceAll_match matchBare _ (Spec.holeText p) rest (Spec.key p)
               (holeText_nonempty p) (matchBare_hole p rest Hp)).
    reflexivity.
  - right. unfold Spec.holeText.
    rewrite !append_assoc, stripPrefix_app. discriminate.
Qed.

Lemma renderBare_plain (data : object) (t : string) :
  Spec.plain t -> renderBare t data = t.
Proof.
  intros Ht. unfold renderBare.
  rewrite <- (append_nil_r t) at 1.
  rewrite (replaceAll_plain matchBare _ t EmptyString matchBare_opens Ht).
  - simpl. apply append_nil_r.
  - left; reflexivity.
Qed.

Lemma replaceAll_drop {A : Type} (re : string -> option (found A))
    (fn : A -> string) (s : string) :
  forall k, replaceAll re fn k s = replaceAll re fn 0 (Str.drop k s).
Proof.
  induction s as [|c r IH]; intros [|k]; try reflexivity.
  cbn [replaceAll Str.drop]. apply IH.
Qed.

Lemma matchBare_width (s : string) (m : found string) :
  matchBare s = Some m -> exists n, width m = S n.
Proof.
  unfold matchBare.
  destruct (Str.stripPrefix "{{" s) as [r0|]; [|intros; discriminate].
  destruct (Str.span Chars.isSpace r0) as [g1 r1].
  destruct (Str.span Chars.isIdent r1) as [k r2].
  destruct (String.eqb k EmptyString); [intros; discriminate|].
  destruct (Str.span Chars.isSpace r2) as [g2 r3].
  destruct (Str.stripPrefix "}}" r3); [|intros; discriminate].
  intros H; injection H as <-. cbn [width]. eexists; reflexivity.
Qed.

(** The scan of the second pass, position by position. *)
Lemma renderBare_scan (data : object) (s : string) :
  renderBare s data
  = match s with
    | EmptyString => EmptyString
    | String c r =>
        match matchBare s with
        | Some m =>
            Spec.stringified data (groups m)
            ++ renderBare (Str.drop (width m) s) data
        | None => String c (renderBare r data)
        end
    end.
Proof.
  destruct s as [|c r]; [reflexivity|].
  unfold renderBare. cbn [replaceAll].
  destruct (matchBare (String c r)) as [m|] eqn:E; [|reflexivity].
  destruct (matchBare_width _ _ E) as [n Hn]. rewrite Hn.
  cbn [Str.drop]. rewrite Nat.sub_succ, Nat.sub_0_r.
  rewrite replaceAll_drop. reflexivity.
Qed.

(** *** Where the scan throws *)

Lemma throwsAt_skip {A : Type} (re : string -> option (found A))
    (bad : A -> bool) (a b : string) :
  throwsAt re bad (String.length a) (a ++ b) = throwsAt re bad 0 b.
Proof. induction a as [|c a IH]; simpl; [destruct b|]; auto. Qed.

Lemma throwsAt_match {A : Type} (re : string -> option (found A))
    (bad : A -> bool) (m rest : string) (g : A) :
  m <> EmptyString ->
  re (m ++ rest) = Some (mkFound g (String.length m)) ->
  throwsAt re bad 0 (m ++ rest) = (bad g || throwsAt re bad 0 rest)%bool.
Proof.
  intros Hm Hre. destruct m as [|c m]; [contradiction|].
  simpl append in *. simpl throwsAt. rewrite Hre.
  simpl. rewrite Nat.sub_0_r, throwsAt_skip. reflexivity.
Qed.

Lemma throwsAt_plain {A : Type} (re : string -> option (found A))
    (bad : A -> bool) (t rest : string) :
  opensLikePlaceholder re ->
  Spec.plain t -> boundary rest ->
  throwsAt re bad 0 (t ++ rest) = throwsAt re bad 0 rest.
Proof.
  intros Hre Ht Hrest. induction t as [|c t IH]; [reflexivity|].
  simpl append. simpl throwsAt.
  destruct (re (String c (t ++ rest))) as [m|] eqn:E.
  - exfalso. apply Hre in E as (c2 & r & Hs & Hc2).
    injection Hs as -> Hs.
    destruct t as [|d t].
    + simpl in Hs. destruct Hrest as [->|Hr]; [discriminate|].
      subst rest. simpl in Hr.
      destruct (Ascii.eqb_spec "{" c2) as [<-|NE]; [discriminate|].
      apply Hr; reflexivity.
    + simpl in Hs. injection Hs as -> _.
      unfold Spec.plain in Ht. simpl in Ht. discriminate.
  - exact (IH (plain_tail _ _ Ht)).
Qed.

(** A scan whose replacement never throws does not throw. *)
Lemma throwsAt_never {A : Type} (re : string -> option (found A))
    (bad : A -> bool) (s : string) :
  (forall g, bad g = false) -> forall k, throwsAt re bad k s = false.
Proof.
  intros Hbad. induction s as [|c r IH]; intros k; [reflexivity|].
  cbn [throwsAt]. destruct k as [|k]; [|apply IH].
  destruct (re (String c r)) as [m|]; [|apply IH].
  rewrite Hbad, IH. reflexivity.
Qed.

Lemma renderBareThrows_piece (data : object) (t : string) (p : Spec.hole)
    (rest : string) :
  Spec.plain t -> Spec.wellFormedHole p ->
  renderBareThrows (t ++ Spec.holeText p ++ rest) data
  = (Js.throwsToString (Js.getProp data (Spec.key p))
     || renderBareThrows rest data)%bool.
Proof.
  intros Ht Hp. unfold renderBareThrows.
  rewrite (throwsAt_plain matchBare _ t _ matchBare_opens Ht).
  - exact (throwsAt_match matchBare _ (Spec.holeText p) rest (Spec.key p)
             (holeText_nonempty p) (matchBare_hole p rest Hp)).
  - right. unfold Spec.holeText.
    rewrite !append_assoc, stripPrefix_app. discriminate.
Qed.

Lemma convertible_renders (h : Host) (data : object) (s : string) :
  convertible data -> renderTemplateThrows h s data = false.
Proof.
  intros Hc. unfold renderTemplateThrows, renderDatesThrows, renderBareThrows.
  rewrite !throwsAt_never; [reflexivity | exact Hc | intros [k f]; apply Hc].
Qed.

(** *** The decimal text of a number *)

Lemma digitVal_digit (n : Z) :
  0 <= n -> Time.digitVal (Dec.digit n) = Some (n mod 10).
Proof.
  intros Hn. pose proof (Z.mod_pos_bound n 10 ltac:(lia)) as Hd.
  unfold Dec.digit.
  assert (Hc : n mod 10 = 0 \/ n mod 10 = 1 \/ n mod 10 = 2 \/ n mod 10 = 3
               \/ n mod 10 = 4 \/ n mod 10 = 5 \/ n mod 10 = 6
               \/ n mod 10 = 7 \/ n mod 10 = 8 \/ n mod 10 = 9) by lia.
  repeat (destruct Hc as [->|Hc]; [reflexivity|]).
  rewrite Hc. reflexivity.
Qed.

(** Read back as a number, the digits written for [n] give [n]. *)
Lemma digitsVal_digits (fuel : nat) :
  forall (n : Z) (acc : string),
    0 <= n < 2 ^ Z.of_nat fuel ->
    exists p, forall a,
      Time.digitsVal a (Dec.digits fuel n acc) = Time.digitsVal (a * p + n) acc.
Proof.
  induction fuel as [|f IH]; intros n acc Hn.
  - exists 1. intros a. cbn [Dec.digits].
    replace (a * 1 + n) with a by (cbn in Hn; lia). reflexivity.
  - cbn [Dec.digits]. cbv zeta.
    destruct (Z.ltb_spec n 10) as [Hlt|Hge].
    + exists 10. intros a. cbn [Time.digitsVal].
      rewrite digitVal_digit by lia.
      rewrite Z.mod_small by lia.
      replace (10 * a + n) with (a * 10 + n) by lia. reflexivity.
    + assert (Hn' : 0 <= n / 10 < 2 ^ Z.of_nat f).
      { rewrite Nat2Z.inj_succ, Z.pow_succ_r in Hn by lia.
        split; [apply Z.div_pos; lia|].
        apply Z.div_lt_upper_bound; lia. }
      destruct (IH (n / 10) (String (Dec.digit n) acc) Hn') as (p & Hp).
      exists (10 * p). intros a. rewrite Hp. cbn [Time.digitsVal].
      rewrite digitVal_digit by lia.
      replace (10 * (a * p + n / 10) + n mod 10) with (a * (10 * p) + n)
        by (pose proof (Z.div_mod n 10 ltac:(lia)); lia).
      reflexivity.
Qed.

Lemma digitsVal_ofZ (n : Z) :
  0 <= n -> Time.digitsVal 0 (Dec.ofZ n) = Some n.
Proof.
  intros Hn. unfold Dec.ofZ.
  destruct (Z.ltb_spec n 0) as [|_]; [lia|].
  unfold Dec.ofNonneg.
  assert (Hb : 0 <= n < 2 ^ Z.of_nat (S (Z.to_nat (Z.log2 n)))).
  { split; [exact Hn|].
    rewrite Nat2Z.inj_succ, Z2Nat.id by apply Z.log2_nonneg.
    destruct (Z.eq_dec n 0) as [->|NZ]; [reflexivity|].
    apply Z.log2_spec. lia. }
  destruct (digitsVal_digits _ n EmptyString Hb) as (p & Hp).
  rewrite Hp. reflexivity.
Qed.

(** C2, as amended.  For every template and payload the second pass goes
    through the text from left to right: where a bare placeholder stands
    (two opening braces, a key of letters, digits and underscores with
    optional white space around it, two closing braces) it writes
    [String(payload[key])], or nothing when [payload[key]] is null or
    undefined, and goes on behind the placeholder; any other character it
    copies.  So a template made of plain text and placeholders is rendered
    with every placeholder replaced and the text between them unchanged.
    [String] gives a string as it is, a boolean as [true] or [false], an
    integer of the safe range in decimal, an array as its items joined by
    commas, and an object as [[object Object]].  A field that the payload
    does not have gives nothing, unless its name is one that every object
    inherits, such as [constructor] or [toString]: then the text of the
    built-in is written.  A value that does not convert, an object with a
    member [toString] of its own or an array that holds one, makes the pass
    throw, and the render of the request with it; a payload without such a
    value is rendered without a throw. *)
Theorem renderBare_substitutes (data : object) :
  (forall s : string,
      renderBare s data
      = match s with
        | EmptyString => EmptyString
        | String c r =>
            match matchBare s with
            | Some m =>
                Spec.stringified data (groups m)
                ++ renderBare (Str.drop (width m) s) data
            | None => String c (renderBare r data)
            end
        end)
  /\ (forall (p : Spec.hole) (rest : string),
        Spec.wellFormedHole p ->
        matchBare (Spec.holeText p ++ rest)
        = Some (mkFound (Spec.key p) (String.length (Spec.holeText p))))
  /\ (forall (pieces : list (string * Spec.hole)) (last : string),
        Forall (fun tp => Spec.plain (fst tp) /\ Spec.wellFormedHole (snd tp))
          pieces ->
        Spec.plain last ->
        renderBare (Spec.templateText pieces last) data
        = Spec.substituted data pieces last)
  /\ (forall k : string,
        (Js.getProp data k = VNull \/ Js.getProp data k = VUndefined ->
         Spec.stringified data k = EmptyString)
        /\ (forall s, Js.getProp data k = VStr s -> Spec.stringified data k = s)
        /\ (forall b, Js.getProp data k = VBool b ->
            Spec.stringified data k = if b then "true" else "false")
        /\ (forall n, Js.getProp data k = VNum n ->
            (0 <= n <= 9007199254740991 ->
             Time.digitsVal 0 (Spec.stringified data k) = Some n)
            /\ (-9007199254740991 <= n < 0 ->
                Spec.stringified data k = String "-" (Dec.ofZ (- n))))
        /\ (forall items, Js.getProp data k = VArr items ->
            Js.throwsToString (VArr items) = false ->
            Spec.stringified data k
            = Str.join ","
                (List.map (fun i => match i with
                                    | VUndefined | VNull => EmptyString
                                    | _ => Js.toString i
                                    end) items))
        /\ (forall o, Js.getProp data k = VObj o ->
            Js.ownProp o "toString" = None ->
            Spec.stringified data k = "[object Object]"))
  /\ (forall k : string,
        Js.ownProp data k = None ->
        (Js.inProto k = false -> Spec.stringified data k = EmptyString)
        /\ (Js.inProto k = true ->
            Spec.stringified data k = Js.inheritedToString k
            /\ Spec.stringified data k <> EmptyString))
  /\ (forall (t : string) (p : Spec.hole) (rest : string),
        Spec.plain t -> Spec.wellFormedHole p ->
        renderBareThrows (t ++ Spec.holeText p ++ rest) data
        = (Js.throwsToString (Js.getProp data (Spec.key p))
           || renderBareThrows rest data)%bool)
  /\ (convertible data -> forall s, renderBareThrows s data = false)
  /\ (forall (h : Host) (key : value) (raw : string) (w : World),
        Js.throwsToString key = false ->
        In (Js.toString key) templateKeys ->
        readFile h (templatePath h (Js.toString key)) = inr raw ->
        renderBareThrows (renderDates h raw data) data = true ->
        generateOnePdf h key data w = (inl ErrNotPrimitive, w)).
Proof.
  split; [exact (renderBare_scan data)|].
  split; [exact matchBare_hole|].
  split.
  { intros pieces last Hall Hlast.
    induction Hall as [|[t p] pieces [Ht Hp] _ IH].
    - simpl. apply renderBare_plain; assumption.
    - cbn [Spec.templateText Spec.substituted fst snd] in *.
      rewrite renderBare_piece by assumption.
      rewrite IH. reflexivity. }
  split.
  { intros k. unfold Spec.stringified.
    split; [intros [-> | ->]; reflexivity|].
    split; [intros s0 ->; reflexivity|].
    split; [intros b ->; destruct b; reflexivity|].
    split.
    { intros n ->. cbn [Js.toString]. split.
      - intros Hn. apply digitsVal_ofZ. lia.
      - intros Hn. unfold Dec.ofZ.
        destruct (Z.ltb_spec n 0) as [_|]; [|lia].
        destruct (Z.ltb_spec (- n) 0) as [|_]; [lia|]. reflexivity. }
    split; [intros items -> _; reflexivity|].
    intros o -> _. reflexivity. }
  split.
  { intros k Hown. unfold Spec.stringified, Js.getProp. rewrite Hown.
    split; intros Hp; rewrite Hp; [reflexivity|].
    split; [reflexivity|].
    cbn [Js.toString]. unfold Js.inheritedToString.
    destruct (String.eqb k "__proto__"); discriminate. }
  split; [exact (renderBareThrows_piece data)|].
  split.
  { intros Hc s0. unfold renderBareThrows. apply throwsAt_never. exact Hc. }
  intros h key raw w Hkey Hin Hread Hthrows.
  unfold generateOnePdf.
  rewrite (bind_step _ _ _ _ _ (stringOf_run key w Hkey)). cbv beta zeta.
  rewrite (TEMPLATE_FILES_known h _ Hin).
  assert (Htp : Js.truthy (VStr (templatePath h (Js.toString key))) = true).
  { unfold templatePath. destruct (dirname h); reflexivity. }
  rewrite Htp. cbn [negb]; cbv iota.
  rewrite (bind_step _ _ w w raw)
    by (unfold readTemplate, settle; rewrite Hread; reflexivity).
  apply bind_inl. unfold callRenderTemplate, renderTemplateThrows.
  rewrite Hthrows, orb_true_r. reflexivity.
Qed.

(** A template whose values are a string, a number, a boolean, an array, an
    object and null; and a render whose client name does not convert. *)
Lemma renderBare_substitutes_witness :
  renderBare
    "<p>{{name}}: {{kcal}} kcal, {{ meals }} ({{vegan}}) {{extra}}{ {{plan}} }</p>"
    mealPayload
  = "<p>Ann: 2100 kcal, oats,,rice,3 (false) [object Object]{  }</p>"
  /\ generateOnePdf (demoHost "bkt") (VStr "meal_first")
       [("client_name", VObj [("toString", VNum 1)])] initialWorld
     = (inl ErrNotPrimitive, initialWorld).
Proof.
  split.
  - refine (proj1 (proj2 (proj2 (renderBare_substitutes mealPayload)))
              mealPieces " }</p>" _ _).
    + repeat constructor; simpl; discriminate.
    + reflexivity.
  - exact (proj2 (proj2 (proj2 (proj2 (proj2 (proj2 (proj2
             (renderBare_substitutes
                [("client_name", VObj [("toString", VNum 1)])])))))))
             (demoHost "bkt") (VStr "meal_first")
             "<h1>{{client_name}}</h1>/app/templates/meal_first.html"
             initialWorld eq_refl (or_introl eq_refl) eq_refl eq_refl).
Defined.

(** C2 as stated fails: the payload has no field [constructor], yet the
    placeholder of that name is not replaced by the empty string but by the
    text of the function every object inherits under that name. *)
Lemma renderBare_absent_counterexample :
  Js.ownProp [("name", VStr "Ann")] "constructor" = None
  /\ renderBare "{{constructor}}" [("name", VStr "Ann")]
     = "function Object() { [native code] }"
  /\ renderBare "{{constructor}}" [("name", VStr "Ann")] <> EmptyString.
Proof. repeat split. discriminate. Qed.

(** The specification's example for C2: [{{name}}] with the name Ann, and
    with the name absent, through both passes. *)
Example render_name (h : Host) :
  renderTemplate h "{{name}}" [("name", VStr "Ann")] = "Ann"
  /\ renderTemplate h "{{name}}" [] = EmptyString.
Proof. split; reflexivity. Qed.

(** ** C4: what a pass scans *)

Lemma dateHoleText_nonempty (p : Spec.dateHole) :
  Spec.dateHoleText p <> EmptyString.
Proof.
  destruct p as [k fmt [[[[g1 g2] g3] g4] g5]].
  unfold Spec.dateHoleText; cbn [Spec.gaps]. discriminate.
Qed.

Lemma dateHoleText_boundary (p : Spec.dateHole) (rest : string) :
  boundary (Spec.dateHoleText p ++ rest).
Proof.
  right. destruct p as [k fmt [[[[g1 g2] g3] g4] g5]].
  unfold Spec.dateHoleText; cbn [Spec.gaps].
  rewrite !append_assoc, stripPrefix_app. discriminate.
Qed.

(** The first pass on a piece of plain text followed by a filtered
    placeholder. *)
Lemma renderDates_piece (h : Host) (data : object) (t : string)
    (p : Spec.dateHole) (rest : string) :
  Spec.plain t -> Spec.wellFormedDateHole p ->
  renderDates h (t ++ Spec.dateHoleText p ++ rest) data
  = t ++ formatDate h (Js.getProp data (Spec.dkey p)) (Spec.dfmt p)
      ++ renderDates h rest data.
Proof.
  intros Ht Hp. unfold renderDates.
  rewrite (replaceAll_plain matchDate _ t _ matchDate_opens Ht
             (dateHoleText_boundary p rest)).
  rewrite (replaceAll_match matchDate _ (Spec.dateHoleText p) rest
             (Spec.dkey p, Spec.dfmt p)
             (dateHoleText_nonempty p) (matchDate_hole p rest Hp)).
  reflexivity.
Qed.

(** C4, as amended.  Each pass is one scan from left to right: the text a
    pass puts in place of a placeholder is copied to its output and that
    pass resumes behind the placeholder, whatever the inserted text looks
    like.  The second pass, however, scans the whole output of the first,
    the text the date filter inserted included. *)
Theorem substitution_passes (h : Host) (data : object) (t rest : string)
    (p : Spec.hole) (d : Spec.dateHole) :
  Spec.plain t -> Spec.wellFormedHole p -> Spec.wellFormedDateHole d ->
  renderBare (t ++ Spec.holeText p ++ rest) data
  = t ++ Spec.stringified data (Spec.key p) ++ renderBare rest data
  /\ renderDates h (t ++ Spec.dateHoleText d ++ rest) data
     = t ++ formatDate h (Js.getProp data (Spec.dkey d)) (Spec.dfmt d)
         ++ renderDates h rest data
  /\ renderTemplate h (t ++ Spec.dateHoleText d ++ rest) data
     = renderBare
         (t ++ formatDate h (Js.getProp data (Spec.dkey d)) (Spec.dfmt d)
            ++ renderDates h rest data) data.
Proof.
  intros Ht Hp Hd. split; [|split].
  - apply renderBare_piece; assumption.
  - apply renderDates_piece; assumption.
  - unfold renderTemplate. rewrite renderDates_piece by assumption.
    reflexivity.
Qed.

(** A value that is itself the text of a placeholder, under both passes. *)
Lemma substitution_passes_witness :
  renderBare "Dear {{d}}!" nestedPayload = "Dear {{name}}!"
  /\ renderDates (demoHost "bkt") ("Dear " ++ Spec.dateHoleText yearOfD ++ "!")
       nestedPayload
     = "Dear {{name}}!"
  /\ renderTemplate (demoHost "bkt")
       ("Dear " ++ Spec.dateHoleText yearOfD ++ "!") nestedPayload
     = renderBare "Dear {{name}}!" nestedPayload.
Proof.
  refine (substitution_passes (demoHost "bkt") nestedPayload "Dear " "!"
            (Spec.mkHole EmptyString "d" EmptyString) yearOfD _ _ _).
  - reflexivity.
  - repeat split; discriminate.
  - repeat split; discriminate.
Defined.

(** C4 as stated fails: the date filter leaves the unparseable value of [d],
    the text of a placeholder, in the output of the first pass, and the
    second pass substitutes it. *)
Lemma rescanned_counterexample :
  formatDate (demoHost "bkt") (Js.getProp nestedPayload "d") "%Y" = "{{name}}"
  /\ renderTemplate (demoHost "bkt") (Spec.dateHoleText yearOfD) nestedPayload
     = "Ann"
  /\ renderTemplate (demoHost "bkt") (Spec.dateHoleText yearOfD) nestedPayload
     <> "{{name}}".
Proof. split; [reflexivity|]. split; [reflexivity | discriminate]. Qed.

(** ** C3: the date filter *)

Lemma forallFrom_spec (n : nat) (f : Z -> bool) :
  forall z, Spec.forallFrom n z f = true ->
  forall x, z <= x < z + Z.of_nat n -> f x = true.
Proof.
  induction n as [|n IH]; cbn [Spec.forallFrom]; intros z H x Hx; [lia|].
  apply andb_prop in H as [Hz Hrest].
  destruct (Z.eq_dec x z) as [->|NE]; [assumption|].
  apply (IH (z + 1)); [assumption | lia].
Qed.

Lemma forallBelow_spec (n : Z) (f : Z -> bool) :
  Spec.forallBelow n f = true ->
  forall z, 0 <= z < n -> f z = true.
Proof.
  unfold Spec.forallBelow. intros H z Hz.
  apply (forallFrom_spec _ _ 0 H). lia.
Qed.

Lemma civil_monthDay (z : Z) :
  snd (fst (Time.civil z)) = fst (monthDay ((z + 719468) mod 146097))
  /\ snd (Time.civil z) = snd (monthDay ((z + 719468) mod 146097)).
Proof. split; reflexivity. Qed.

Lemma monthDay_range_checked :
  Spec.forallBelow 146097
    (fun doe => let '(m, d) := monthDay doe in
                ((1 <=? m) && (m <=? 12) && (1 <=? d) && (d <=? 31))%bool)
  = true.
Proof. vm_compute; reflexivity. Qed.

(** Every day number has a month from 1 to 12 and a day from 1 to 31. *)
Lemma civil_range (z : Z) :
  1 <= snd (fst (Time.civil z)) <= 12 /\ 1 <= snd (Time.civil z) <= 31.
Proof.
  destruct (civil_monthDay z) as [-> ->].
  pose proof (forallBelow_spec _ _ monthDay_range_checked
                ((z + 719468) mod 146097)) as H.
  assert (Hr : 0 <= (z + 719468) mod 146097 < 146097)
    by (apply Z.mod_pos_bound; reflexivity).
  specialize (H Hr). cbv beta in H.
  destruct (monthDay ((z + 719468) mod 146097)) as [m d].
  simpl fst; simpl snd.
  apply andb_prop in H as [H Hd2]. apply andb_prop in H as [H Hd1].
  apply andb_prop in H as [Hm1 Hm2].
  apply Z.leb_le in Hm1, Hm2, Hd1, Hd2. lia.
Qed.

Lemma pad2_checked :
  Spec.forallBelow 100
    (fun n => String.eqb (Dec.pad2 n) (Spec.twoDigits n)) = true.
Proof. vm_compute; reflexivity. Qed.

Lemma pad2_twoDigits (n : Z) :
  0 <= n < 100 -> Dec.pad2 n = Spec.twoDigits n.
Proof.
  intros H. apply String.eqb_eq.
  exact (forallBelow_spec _ _ pad2_checked n H).
Qed.

Lemma year_checked :
  Spec.forallBelow 10000
    (fun y => if y <? 1000 then true
              else Nat.eqb (String.length (Dec.ofZ y)) 4) = true.
Proof. vm_compute; reflexivity. Qed.

Lemma year_four_digits (y : Z) :
  1000 <= y <= 9999 -> String.length (Dec.ofZ y) = 4%nat.
Proof.
  intros H.
  pose proof (forallBelow_spec _ _ year_checked y) as Hc.
  cbv beta in Hc. destruct (Z.ltb_spec y 1000) as [|_]; [lia|].
  apply Nat.eqb_eq. apply Hc. lia.
Qed.

Lemma month_name (m : Z) :
  1 <= m <= 12 ->
  exists name,
    nth_error Time.months (Z.to_nat (m - 1)) = Some name
    /\ nth (Z.to_nat (m - 1)) Time.months "undefined" = name
    /\ nth (Z.to_nat (m - 1)) Time.months EmptyString = name.
Proof.
  intros H.
  assert (Hm : m = 1 \/ m = 2 \/ m = 3 \/ m = 4 \/ m = 5 \/ m = 6 \/ m = 7
               \/ m = 8 \/ m = 9 \/ m = 10 \/ m = 11 \/ m = 12) by lia.
  repeat (destruct Hm as [->|Hm]; [eexists; repeat split; reflexivity|]).
  subst; eexists; repeat split; reflexivity.
Qed.

(** On a truthy value the code's filter is the specification's. *)
Lemma formatDate_truthy (h : Host) (v : value) (fmt : string) :
  Js.truthy v = true -> formatDate h v fmt = Spec.dateFilter h v fmt.
Proof.
  intros Ht. unfold formatDate, Spec.dateFilter. rewrite Ht.
  cbn [negb]; cbv iota.
  destruct (newDate h v) as [t|]; [|reflexivity].
  unfold Time.dateFromTime, Time.monthFromTime, Time.yearFromTime.
  pose proof (civil_range (Time.day (localTime h t))) as [Hm Hd].
  destruct (Time.civil (Time.day (localTime h t))) as [[y m] d].
  cbn [fst snd] in *. cbv zeta.
  rewrite (pad2_twoDigits d) by lia.
  replace (m - 1 + 1) with m by lia.
  rewrite (pad2_twoDigits m) by lia.
  destruct (month_name m Hm) as (name & _ & -> & ->).
  reflexivity.
Qed.

Lemma day_of_local (t off : Z) (n : Z) :
  t = n * Time.msPerDay -> 0 <= off < Time.msPerDay ->
  Time.day (t + off) = n.
Proof.
  intros -> Hoff. unfold Time.day.
  rewrite Z.add_comm, Z.div_add by (unfold Time.msPerDay; lia).
  rewrite Z.div_small by assumption. reflexivity.
Qed.

(** C3, as amended.  The first pass puts in place of every filtered
    placeholder what [formatDate] makes of the payload value and the format.
    A falsy value (absent, null, the empty string, 0, false) gives the empty
    text, whether or not it could be read as a date.
    A truthy value is coerced to a date: one that is no date is substituted
    as it is; a date is rendered on the host's local calendar, by the
    pattern [%B %d, %Y] as month name, two-digit day and the year in
    decimal (four digits from the year 1000 to the year 9999), and by any
    other pattern as year, two-digit month and two-digit day joined by
    dashes.  The value [2024-03-05] gives [March 05, 2024] on a host whose
    local time is UTC or ahead of it. *)
Theorem formatDate_spec (h : Host) (v : value) (fmt : string) :
  (forall (data : object) (p : Spec.dateHole),
      Spec.wellFormedDateHole p ->
      renderDates h (Spec.dateHoleText p) data
      = formatDate h (Js.getProp data (Spec.dkey p)) (Spec.dfmt p))
  /\ (Js.truthy v = false -> formatDate h v fmt = EmptyString)
  /\ (Js.truthy v = true -> newDate h v = None ->
      formatDate h v fmt = Js.toString v)
  /\ (Js.truthy v = true ->
      forall t, newDate h v = Some t ->
        exists y m d name,
          Time.civil (Time.day (localTime h t)) = (y, m, d)
          /\ 1 <= m <= 12 /\ 1 <= d <= 31
          /\ nth_error Time.months (Z.to_nat (m - 1)) = Some name
          /\ (fmt = "%B %d, %Y" ->
              formatDate h v fmt
              = name ++ " " ++ Spec.twoDigits d ++ ", " ++ Dec.ofZ y)
          /\ (fmt <> "%B %d, %Y" ->
              formatDate h v fmt
              = Dec.ofZ y ++ "-" ++ Spec.twoDigits m ++ "-" ++ Spec.twoDigits d)
          /\ (1000 <= y <= 9999 -> String.length (Dec.ofZ y) = 4%nat))
  /\ (0 <= localTZA h 1709596800000 < Time.msPerDay ->
      formatDate h (VStr "2024-03-05") "%B %d, %Y" = "March 05, 2024").
Proof.
  split; [|split; [|split; [|split]]].
  - intros data p Hp.
    pose proof (renderDates_piece h data EmptyString p EmptyString eq_refl Hp)
      as H.
    cbn [append] in H. rewrite append_nil_r in H. rewrite H.
    apply append_nil_r.
  - intros Ht. unfold formatDate. rewrite Ht. reflexivity.
  - intros Ht Hn. rewrite formatDate_truthy by assumption.
    unfold Spec.dateFilter. rewrite Hn. reflexivity.
  - intros Ht t Hsome. rewrite formatDate_truthy by assumption.
    unfold Spec.dateFilter. rewrite Hsome.
    pose proof (civil_range (Time.day (localTime h t))) as [Hm Hd].
    destruct (Time.civil (Time.day (localTime h t))) as [[y m] d].
    cbn [fst snd] in *.
    destruct (month_name m Hm) as (name & Hname & _ & Hnth).
    exists y, m, d, name. rewrite Hnth.
    split; [reflexivity|]. split; [assumption|]. split; [assumption|].
    split; [assumption|]. split; [|split].
    + intros ->. reflexivity.
    + intros Hne. apply String.eqb_neq in Hne. rewrite Hne. reflexivity.
    + apply year_four_digits.
  - intros Htz. rewrite formatDate_truthy by reflexivity.
    unfold Spec.dateFilter.
    change (newDate h (VStr "2024-03-05")) with (Some 1709596800000).
    cbv iota beta. unfold localTime.
    rewrite (day_of_local 1709596800000 _ 19787 eq_refl Htz).
    reflexivity.
Qed.

(** Each case on the demo host, whose local time is UTC. *)
Lemma formatDate_spec_witness :
  renderDates (demoHost "bkt") (Spec.dateHoleText yearOfD) nestedPayload
  = "{{name}}"
  /\ formatDate (demoHost "bkt") VNull "%B %d, %Y" = EmptyString
  /\ formatDate (demoHost "bkt") (VStr "next week") "%B %d, %Y" = "next week"
  /\ (exists y m d name,
        Time.civil (Time.day (localTime (demoHost "bkt") 1709164800000))
        = (y, m, d)
        /\ 1 <= m <= 12 /\ 1 <= d <= 31
        /\ nth_error Time.months (Z.to_nat (m - 1)) = Some name
        /\ ("%F" = "%B %d, %Y" ->
            formatDate (demoHost "bkt") (VStr "2024-02-29") "%F"
            = name ++ " " ++ Spec.twoDigits d ++ ", " ++ Dec.ofZ y)
        /\ ("%F" <> "%B %d, %Y" ->
            formatDate (demoHost "bkt") (VStr "2024-02-29") "%F"
            = Dec.ofZ y ++ "-" ++ Spec.twoDigits m ++ "-" ++ Spec.twoDigits d)
        /\ (1000 <= y <= 9999 -> String.length (Dec.ofZ y) = 4%nat))
  /\ formatDate (demoHost "bkt") (VStr "2024-03-05") "%B %d, %Y"
     = "March 05, 2024".
Proof.
  split.
  { refine (proj1 (formatDate_spec (demoHost "bkt") VNull EmptyString)
              nestedPayload yearOfD _).
    repeat split; discriminate. }
  split.
  { exact (proj1 (proj2 (formatDate_spec (demoHost "bkt") VNull _)) eq_refl). }
  split.
  { exact (proj1 (proj2 (proj2 (formatDate_spec (demoHost "bkt")
                                  (VStr "next week") _))) eq_refl eq_refl). }
  split.
  { exact (proj1 (proj2 (proj2 (proj2 (formatDate_spec (demoHost "bkt")
                                         (VStr "2024-02-29") "%F"))))
             eq_refl 1709164800000 eq_refl). }
  apply (proj2 (proj2 (proj2 (proj2 (formatDate_spec (demoHost "bkt") VUndefined
                                       EmptyString))))).
  unfold Time.msPerDay; simpl; lia.
Defined.

(** The specification's example for C3, through both passes. *)
Example render_date :
  renderTemplate (demoHost "bkt")
    ("{{d | date: " ++ dq ++ "%B %d, %Y" ++ dq ++ "}}")
    [("d", VStr "2024-03-05")]
  = "March 05, 2024".
Proof. reflexivity. Qed.

(** C3 as stated fails: null and 0 are read as the date of the epoch, yet
    the filter gives the empty text for them, not a rendered date. *)
Lemma formatDate_falsy_counterexample :
  newDate (demoHost "bkt") VNull = Some 0
  /\ Spec.dateFilter (demoHost "bkt") VNull "%F" = "1970-01-01"
  /\ formatDate (demoHost "bkt") VNull "%F" = EmptyString
  /\ newDate (demoHost "bkt") (VNum 0) = Some 0
  /\ renderTemplate (demoHost "bkt")
       ("{{d | date: " ++ dq ++ "%B %d, %Y" ++ dq ++ "}}") [("d", VNum 0)]
     = EmptyString
  /\ Spec.dateFilter (demoHost "bkt") (VNum 0) "%B %d, %Y" = "January 01, 1970".
Proof. repeat split. Qed.

(** ** C9: the shared browser *)

Lemma preserves_bind {A B : Type} (m : M A) (f : A -> M B) :
  preserves m -> (forall a, preserves (f a)) -> preserves (bind m f).
Proof.
  intros Hm Hf w Hw. unfold bind.
  specialize (Hm w Hw). destruct (m w) as [[e|a] w1]; simpl in *.
  - assumption.
  - apply Hf; assumption.
Qed.

Lemma preserves_ret {A : Type} (a : A) : preserves (ret a).
Proof. intros w Hw; exact Hw. Qed.

Lemma preserves_throw {A : Type} (e : exn) : preserves (@throw A e).
Proof. intros w Hw; exact Hw. Qed.

Lemma preserves_settle {A : Type} (r : result A) : preserves (settle r).
Proof. intros w Hw; exact Hw. Qed.

Lemma preserves_readClock (h : Host) : preserves (readClock h).
Proof. intros w Hw; exact Hw. Qed.

Lemma preserves_drawUUID (h : Host) : preserves (drawUUID h).
Proof. intros w Hw; exact Hw. Qed.

Lemma preserves_putObject (name : string) (buf : pdf) :
  preserves (putObject name buf).
Proof. intros w Hw; exact Hw. Qed.

Lemma getBrowser_oneBrowser (w : World) :
  oneBrowser w ->
  fst (getBrowser w) = 0%nat
  /\ browserPromise (snd (getBrowser w)) = Some 0%nat
  /\ launches (snd (getBrowser w)) = 1%nat.
Proof.
  unfold getBrowser. intros [[Hp Hl]|[Hp Hl]]; rewrite Hp; simpl.
  - rewrite Hl. repeat split.
  - repeat split; assumption.
Qed.

Create HintDb browser.

#[local] Hint Resolve preserves_ret preserves_throw preserves_settle
  preserves_readClock preserves_drawUUID preserves_putObject : browser.

Lemma preserves_htmlToPdfBuffer (h : Host) (html : string) :
  preserves (htmlToPdfBuffer h html).
Proof.
  unfold htmlToPdfBuffer.
  apply preserves_bind.
  - intros w Hw. destruct (getBrowser_oneBrowser w Hw) as (_ & Hp & Hl).
    destruct (getBrowser w) as [p wb]; simpl in *. right; split; assumption.
  - intros p. apply preserves_bind; [|auto with browser].
    unfold awaitBrowser. destruct (launch h p); auto with browser.
Qed.

Lemma preserves_uploadPdfAndSign (h : Host) (buf : pdf) (name : string) :
  preserves (uploadPdfAndSign h buf name).
Proof.
  unfold uploadPdfAndSign.
  destruct (String.eqb (BUCKET_NAME h) EmptyString); [auto with browser|].
  destruct (save h name buf); [auto with browser|].
  repeat (apply preserves_bind; [auto with browser | intros ?]).
  auto with browser.
Qed.

Lemma preserves_stringOf (v : value) : preserves (stringOf v).
Proof. unfold stringOf. destruct (Js.throwsToString v); auto with browser. Qed.

Lemma preserves_generateOnePdf (h : Host) (key : value) (payload : object) :
  preserves (generateOnePdf h key payload).
Proof.
  unfold generateOnePdf.
  apply preserves_bind; [apply preserves_stringOf|].
  intros keyText. cbv zeta.
  destruct (negb _); [auto with browser|].
  apply preserves_bind.
  { unfold readTemplate. destruct (Js.getProp _ _); auto with browser. }
  intros raw. apply preserves_bind.
  { unfold callRenderTemplate. destruct (renderTemplateThrows h raw payload);
      auto with browser. }
  intros html. apply preserves_bind; [apply preserves_htmlToPdfBuffer|].
  intros buf. apply preserves_bind.
  { destruct (Js.truthy _); [auto with browser|].
    apply preserves_bind; auto with browser. }
  intros jobId. apply preserves_bind.
  { destruct (Js.truthy _); [auto with browser|].
    unfold nowStamp. apply preserves_bind.
    - apply preserves_bind; auto with browser.
    - intros stamp. apply preserves_bind; [apply preserves_stringOf|].
      auto with browser. }
  intros prefix. apply preserves_bind.
  { unfold callSafeSlug. destruct (Js.throwsToString _); auto with browser. }
  intros safeName. apply preserves_bind; [apply preserves_stringOf|].
  intros jobText. apply preserves_bind; [apply preserves_stringOf|].
  intros prefixText. apply preserves_bind; [apply preserves_uploadPdfAndSign|].
  auto with browser.
Qed.

Lemma preserves_generateAll (h : Host) (payload : object) (ks : list value) :
  forall acc, preserves (generateAll h ks payload acc).
Proof.
  induction ks as [|k ks IH]; intros acc; simpl; [auto with browser|].
  apply preserves_bind; [apply preserves_generateOnePdf|].
  intros file; apply IH.
Qed.

Lemma serve_oneBrowser (h : Host) (w : World) (c : call) :
  oneBrowser w -> oneBrowser (serve h w c).
Proof.
  intros Hw. destruct c as [req|req]; unfold serve.
  - unfold postPdf. destruct (negb _); [exact Hw|].
    pose proof (preserves_generateOnePdf h
                  (resolveTemplateKey (body req) (query req)) (body req) w Hw)
      as H.
    destruct (generateOnePdf h _ (body req) w) as [[e|file] w']; exact H.
  - unfold postPdfs.
    pose proof (preserves_generateAll h (body req)
                  (keysToGenerate h (body req)) [] w Hw) as H.
    destruct (generateAll h _ (body req) [] w) as [[e|res] w']; exact H.
Qed.

Lemma step_settledDown (h : Host) (s : Process) (t : turn) :
  settledDown h s -> settledDown h (step h s t).
Proof.
  intros Inv. unfold step.
  destruct (exited s) eqn:Hex; [exact Inv|].
  destruct Inv as (Hone & Hout & Hal & Hcl & Hnone & Hac & Hexit).
  destruct t.
  - (* CallGetBrowser *)
    destruct (getBrowser_oneBrowser (world s) Hone) as (Hp0 & Hp & Hl).
    destruct (getBrowser (world s)) as [p w'] eqn:Eg; simpl in *.
    unfold settledDown; simpl. subst p. rewrite Hp.
    close_settled.
    right; split; assumption.
  - (* Signal *)
    unfold shutdown.
    destruct (browserPromise (world s)) as [p|] eqn:Hp.
    + assert (p = 0%nat) as ->.
      { destruct Hone as [[Hn _]|[Hs _]]; congruence. }
      unfold settledDown; simpl. rewrite Hp.
      close_settled.
    + unfold settledDown, exit; simpl. rewrite Hp.
      destruct (Hnone eq_refl) as (Ho & Ha & Hc).
      close_settled.
  - (* LaunchSettled *)
    destruct (awaitingLaunch s) as [|p rest] eqn:Ha.
    + unfold settledDown. rewrite Hex, Ha.
      close_settled.
    + assert (p = 0%nat) as -> by (inversion Hal; subst; reflexivity).
      assert (Hrest : Forall (eq 0%nat) rest) by (inversion Hal; assumption).
      assert (Hsome : browserPromise (world s) <> None).
      { intros Hn. destruct (Hnone Hn) as (_ & Hd & _). discriminate. }
      unfold shutdownResumed.
      destruct (launch h 0) as [msg|] eqn:Hl.
      * unfold settledDown, exit; simpl.
        close_settled.
        -- intros Hn; destruct (Hac Hn) as [_ Hd]; discriminate.
        -- intros _ _ Hd. rewrite Hl in Hd. discriminate.
      * unfold settledDown; simpl.
        close_settled.
        intros _. split; [discriminate | exact Hl].
  - (* CloseSettled *)
    destruct (awaitingClose s) as [|n] eqn:Hn.
    + unfold settledDown. rewrite Hex, Hn.
      close_settled.
    + destruct Hac as [Hne Hl]; [discriminate|].
      assert (Hsome : browserPromise (world s) <> None).
      { intros Hp. destruct (Hnone Hp) as (_ & _ & Hd). discriminate. }
      unfold settledDown, exit; simpl.
      close_settled.
      * intros _. split; assumption.
      * intros _ _ _.
        destruct (closed s) as [|c cs]; [contradiction|].
        inversion Hcl; subst. left; reflexivity.
Qed.

Lemma run_settledDown (h : Host) (turns : list turn) :
  settledDown h (run h turns).
Proof.
  unfold run.
  assert (Hboot : settledDown h boot).
  { unfold settledDown, boot; simpl. close_settled.
    - left; split; reflexivity.
    - intros _; repeat split. }
  revert Hboot. generalize boot.
  induction turns as [|t turns IH]; intros s Hs; simpl; [exact Hs|].
  apply IH. apply step_settledDown; exact Hs.
Qed.

(** C9.  However many requests are served, and in whatever order requests
    reach [getBrowser] and signals arrive, the process launches at most one
    browser; every call of [getBrowser] returns the promise of that one
    launch; and when the process has exited after a termination signal with
    a browser cached whose launch succeeded, [close()] was called on that
    browser. *)
Theorem shared_browser (h : Host) :
  (forall calls : list call,
      (launches (fold_left (serve h) calls initialWorld) <= 1)%nat)
  /\ (forall turns : list turn,
        (launches (world (run h turns)) <= 1)%nat
        /\ Forall (eq 0%nat) (handedOut (run h turns))
        /\ (exited (run h turns) = true ->
            forall p, browserPromise (world (run h turns)) = Some p ->
                      launch h p = None ->
                      In p (closed (run h turns)))).
Proof.
  split.
  - intros calls.
    assert (H : oneBrowser (fold_left (serve h) calls initialWorld)).
    { assert (H0 : oneBrowser initialWorld) by (left; split; reflexivity).
      revert H0. generalize initialWorld.
      induction calls as [|c calls IH]; intros w Hw; simpl; [exact Hw|].
      apply IH. apply serve_oneBrowser; exact Hw. }
    destruct H as [[_ ->]|[_ ->]]; lia.
  - intros turns.
    destruct (run_settledDown h turns)
      as (Hone & Hout & _ & _ & _ & _ & Hexit).
    split; [|split].
    + destruct Hone as [[_ ->]|[_ ->]]; lia.
    + exact Hout.
    + intros Hex p Hp Hl.
      assert (p = 0%nat) as ->.
      { destruct Hone as [[Hn _]|[Hs _]]; congruence. }
      apply Hexit; [assumption | congruence | assumption].
Qed.

(** Two requests, then a signal: the browser of the one launch is closed. *)
Lemma shared_browser_witness :
  In 0%nat
    (closed (run (demoHost "bkt")
               [CallGetBrowser; CallGetBrowser; Signal; LaunchSettled;
                CloseSettled])).
Proof.
  exact (proj2 (proj2 (proj2 (shared_browser (demoHost "bkt"))
                         [CallGetBrowser; CallGetBrowser; Signal;
                          LaunchSettled; CloseSettled]))
           eq_refl 0%nat eq_refl eq_refl).
Defined.

(** Two first requests reaching [getBrowser] one after the other, before the
    launch has settled: one launch, the same promise for both. *)
Example two_first_requests (h : Host) :
  let s := run h [CallGetBrowser; CallGetBrowser] in
  launches (world s) = 1%nat /\ handedOut s = [0%nat; 0%nat].
Proof. split; reflexivity. Qed.

(* ================================================================== *)
(** * Further properties of the code *)
(* ================================================================== *)

(** ** [safeSlug]: what a name segment looks like *)

Lemma cleanFrom_weaken (s : string) :
  cleanFrom true s = true -> cleanFrom false s = true.
Proof.
  destruct s as [|c r]; [reflexivity|]. cbn [cleanFrom].
  destruct (Chars.isLowerAlnum c); [trivial|].
  destruct (Ascii.eqb c "-"); intros H; discriminate H.
Qed.

Lemma cleanFrom_take (n : nat) (s : string) :
  forall b, cleanFrom b s = true -> cleanFrom b (Str.take n s) = true.
Proof.
  revert s; induction n as [|n IH]; intros [|c r] b H; try reflexivity.
  cbn [Str.take cleanFrom] in *.
  destruct (Chars.isLowerAlnum c); [apply IH; exact H|].
  destruct (Ascii.eqb c "-"); [|discriminate H].
  apply andb_prop in H as [-> H]. rewrite (IH r true H). reflexivity.
Qed.

Lemma cleanFrom_word (w rest : string) (b : bool) :
  w <> EmptyString -> Str.all Chars.isLowerAlnum w = true ->
  cleanFrom b (w ++ rest) = cleanFrom false rest.
Proof.
  revert b; induction w as [|c w IH]; intros b Hne Hall; [contradiction|].
  cbn [append cleanFrom Str.all] in *.
  apply andb_prop in Hall as [Hc Hall]. rewrite Hc.
  destruct w as [|d w]; [reflexivity|].
  apply IH; [discriminate | exact Hall].
Qed.

(** The words of a text are non-empty and made of [a-z0-9]. *)
Lemma words_alnum (s : string) :
  Forall (fun w => w <> EmptyString /\ Str.all Chars.isLowerAlnum w = true)
    (Spec.words s).
Proof.
  induction s as [|c r IH]; [constructor|].
  cbn [Spec.words]. destruct (Chars.isLowerAlnum c) eqn:Hc; [|exact IH].
  destruct (Spec.startsWith Chars.isLowerAlnum r).
  - destruct (Spec.words r) as [|w ws].
    + constructor; [|constructor]. split; [discriminate|].
      cbn [Str.all]. rewrite Hc. reflexivity.
    + inversion IH as [|? ? [Hne Hw] Hws]; subst.
      constructor; [|exact Hws]. split; [discriminate|].
      cbn [Str.all]. rewrite Hc. exact Hw.
  - constructor; [|exact IH]. split; [discriminate|].
    cbn [Str.all]. rewrite Hc. reflexivity.
Qed.

Lemma cleanFrom_join (ws : list string) :
  Forall (fun w => w <> EmptyString /\ Str.all Chars.isLowerAlnum w = true) ws ->
  cleanFrom true (Str.join "-" ws) = true
  /\ endsWith "-" (Str.join "-" ws) = false.
Proof.
  induction 1 as [|w ws [Hne Hw] Hws [IH1 IH2]]; [split; reflexivity|].
  assert (Hend : forall x, x <> EmptyString ->
                   Str.all Chars.isLowerAlnum x = true ->
                   forall rest, endsWith "-" (x ++ rest)
                     = match rest with
                       | EmptyString => false
                       | _ => endsWith "-" rest
                       end).
  { clear. induction x as [|c x IHx]; intros Hne Hall rest; [contradiction|].
    cbn [Str.all] in Hall. apply andb_prop in Hall as [Hc Hall].
    destruct x as [|d x].
    - cbn [append]. destruct rest as [|e rest]; cbn [endsWith].
      + apply lowerAlnum_not_dash; assumption.
      + reflexivity.
    - change (endsWith "-" (String c (String d x ++ rest)))
        with (endsWith "-" (String d x ++ rest)).
      apply IHx; [discriminate | exact Hall]. }
  destruct ws as [|w2 ws].
  - cbn [Str.join]. split.
    + rewrite <- (append_nil_r w) at 1. rewrite cleanFrom_word by assumption.
      reflexivity.
    + rewrite <- (append_nil_r w) at 1. rewrite Hend by assumption. reflexivity.
  - change (Str.join "-" (w :: w2 :: ws))
      with (w ++ "-" ++ Str.join "-" (w2 :: ws)).
    split.
    + rewrite cleanFrom_word by assumption.
      change (cleanFrom false ("-" ++ Str.join "-" (w2 :: ws)))
        with (negb false && cleanFrom true (Str.join "-" (w2 :: ws)))%bool.
      rewrite IH1. reflexivity.
    + rewrite Hend by assumption.
      change ("-" ++ Str.join "-" (w2 :: ws))
        with (String "-" (Str.join "-" (w2 :: ws))).
      inversion Hws as [|? ? [Hne2 Hw2] _]; subst.
      destruct (Str.join "-" (w2 :: ws)) as [|e y] eqn:Ej.
      * exfalso. destruct w2; [contradiction|].
        destruct ws; cbn [Str.join append] in Ej; discriminate Ej.
      * exact IH2.
Qed.

Lemma cleanFrom_chars (s : string) :
  forall b, cleanFrom b s = true ->
  forall c, In c (chars s) -> slugChar c = true.
Proof.
  induction s as [|a r IH]; intros b H c Hin; [destruct Hin|].
  cbn [cleanFrom chars] in *. unfold slugChar. destruct Hin as [<-|Hin].
  - destruct (Chars.isLowerAlnum a); [reflexivity|].
    destruct (Ascii.eqb a "-"); [reflexivity | discriminate H].
  - destruct (Chars.isLowerAlnum a); [exact (IH _ H c Hin)|].
    destruct (Ascii.eqb a "-"); [|discriminate H].
    apply andb_prop in H as [_ H]. exact (IH _ H c Hin).
Qed.

Lemma cleanFrom_true_dash (r : string) :
  cleanFrom true (String "-" r) = false.
Proof. reflexivity. Qed.

Lemma cleanFrom_dash (b : bool) (r : string) :
  cleanFrom b (String "-" r) = true -> cleanFrom true r = true.
Proof.
  change (cleanFrom b (String "-" r)) with (negb b && cleanFrom true r)%bool.
  intros H; apply andb_prop in H as [_ H]; exact H.
Qed.

Lemma cleanFrom_no_pair (s : string) :
  forall b, cleanFrom b s = true -> Str.includes "--" s = false.
Proof.
  induction s as [|a r IH]; intros b H; [reflexivity|].
  rewrite includes_cons.
  assert (Hr : Str.includes "--" r = false).
  { cbn [cleanFrom] in H.
    destruct (Chars.isLowerAlnum a); [exact (IH _ H)|].
    destruct (Ascii.eqb a "-"); [|discriminate H].
    apply andb_prop in H as [_ H]. exact (IH _ H). }
  rewrite Hr.
  cbn [Str.stripPrefix].
  destruct (Ascii.eqb_spec "-" a) as [<-|NE]; [|reflexivity].
  destruct r as [|d r]; [reflexivity|].
  destruct (Ascii.eqb_spec "-" d) as [<-|NE]; [|reflexivity].
  exfalso. apply cleanFrom_dash in H. rewrite cleanFrom_true_dash in H.
  discriminate H.
Qed.

Lemma safeSlug_clean (v : value) : cleanFrom true (safeSlug v) = true.
Proof.
  destruct (Js.truthy v) eqn:Ht.
  - rewrite safeSlug_truthy by assumption.
    apply cleanFrom_take. unfold Spec.sanitizedName.
    exact (proj1 (cleanFrom_join _ (words_alnum _))).
  - rewrite safeSlug_falsy by assumption. reflexivity.
Qed.

Lemma slugChars_no_slash (s : string) :
  (forall c, In c (chars s) -> slugChar c = true) ->
  Str.includes "/" s = false.
Proof.
  induction s as [|a r IH]; intros Hall; [reflexivity|].
  rewrite includes_cons.
  rewrite IH by (intros c Hc; apply Hall; right; exact Hc).
  cbn [Str.stripPrefix].
  destruct (Ascii.eqb_spec "/" a) as [<-|NE]; [|reflexivity].
  specialize (Hall "/"%char (or_introl eq_refl)). discriminate Hall.
Qed.

(** X1.  Whatever the client name, the name segment consists of lower-case
    letters, digits and dashes only, does not begin with a dash and has no
    two dashes in a row; so it holds no slash, dot, space or upper-case
    letter. *)
Theorem safeSlug_shape (v : value) :
  (forall c, In c (chars (safeSlug v)) ->
     Chars.isLowerAlnum c = true \/ c = "-"%char)
  /\ Spec.startsWith (Ascii.eqb "-") (safeSlug v) = false
  /\ Str.includes "--" (safeSlug v) = false
  /\ Str.includes "/" (safeSlug v) = false.
Proof.
  pose proof (safeSlug_clean v) as H.
  split; [|split; [|split]].
  - intros c Hin. pose proof (cleanFrom_chars _ _ H c Hin) as Hc.
    unfold slugChar in Hc. apply orb_prop in Hc as [Hc|Hc]; [left; exact Hc|].
    right. apply Ascii.eqb_eq; exact Hc.
  - destruct (safeSlug v) as [|c r]; [reflexivity|].
    cbn [Spec.startsWith].
    destruct (Ascii.eqb_spec "-" c) as [<-|NE]; [|reflexivity].
    rewrite cleanFrom_true_dash in H. discriminate H.
  - exact (cleanFrom_no_pair _ _ H).
  - apply slugChars_no_slash. exact (cleanFrom_chars _ _ H).
Qed.
(** ** [safeSlug]: sanitizing a slug again *)

Lemma slugChar_lower (c : ascii) :
  slugChar c = true -> Chars.lowerChar c = c.
Proof.
  destruct c as [[] [] [] [] [] [] [] []]; vm_compute; intros H;
    first [reflexivity | discriminate H].
Qed.

Lemma clean_lower (s : string) :
  forall b, cleanFrom b s = true -> Str.map Chars.lowerChar s = s.
Proof.
  induction s as [|a r IH]; intros b H; [reflexivity|].
  cbn [Str.map]. rewrite (slugChar_lower a).
  - f_equal. cbn [cleanFrom] in H.
    destruct (Chars.isLowerAlnum a); [exact (IH _ H)|].
    destruct (Ascii.eqb a "-"); [|discriminate H].
    apply andb_prop in H as [_ H]. exact (IH _ H).
  - exact (cleanFrom_chars _ _ H a (or_introl eq_refl)).
Qed.

(** A clean text has no run to collapse. *)
Lemma clean_collapse (s : string) :
  (cleanFrom true s = true ->
   collapseRuns true s = s /\ collapseRuns false s = s)
  /\ (cleanFrom false s = true -> collapseRuns false s = s).
Proof.
  induction s as [|a r [IHt IHf]]; [repeat split|].
  cbn [cleanFrom collapseRuns].
  destruct (Chars.isLowerAlnum a) eqn:Ha.
  - split; [intros H; split|intros H]; rewrite (IHf H); reflexivity.
  - destruct (Ascii.eqb_spec a "-") as [->|NE].
    + split; [intros H; discriminate H|].
      cbn [negb andb]. intros H. rewrite (proj1 (IHt H)). reflexivity.
    + split; intros H; discriminate H.
Qed.

Lemma dropFinalDash_id (s : string) :
  endsWith "-" s = false -> dropFinalDash s = s.
Proof.
  induction s as [|a r IH]; [reflexivity|].
  destruct r as [|d r].
  - cbn [endsWith dropFinalDash]. intros ->. reflexivity.
  - intros H.
    change (dropFinalDash (String a (String d r)))
      with (String a (dropFinalDash (String d r))).
    rewrite IH; [reflexivity | exact H].
Qed.

Lemma safeSlug_length (v : value) : (String.length (safeSlug v) <= 80)%nat.
Proof.
  unfold safeSlug. destruct (Js.truthy v); cbn [negb]; cbv iota.
  - apply length_take.
  - cbn; lia.
Qed.

(** X2.  A name segment that is not empty and does not end with a dash is
    left as it is when it is sanitized again.  (A segment can end with a
    dash only where the cut at 80 characters fell behind one, and it is
    empty only for a name without letters and digits.) *)
Theorem safeSlug_again (v : value) :
  safeSlug v <> EmptyString ->
  endsWith "-" (safeSlug v) = false ->
  safeSlug (VStr (safeSlug v)) = safeSlug v.
Proof.
  intros Hne Hend.
  pose proof (safeSlug_clean v) as Hc.
  pose proof (safeSlug_length v) as Hlen.
  set (s := safeSlug v) in *.
  unfold safeSlug at 1.
  assert (Ht : Js.truthy (VStr s) = true).
  { cbn [Js.truthy]. destruct s; [contradiction | reflexivity]. }
  rewrite Ht. cbn [negb]; cbv iota. cbn [Js.toString].
  rewrite (clean_lower s true Hc).
  rewrite (proj2 (proj1 (clean_collapse s) Hc)).
  assert (Hstrip : stripEdgeDashes s = s).
  { unfold stripEdgeDashes. destruct s as [|a r]; [reflexivity|].
    destruct (Ascii.eqb_spec a "-") as [->|NE].
    - rewrite cleanFrom_true_dash in Hc. discriminate Hc.
    - apply dropFinalDash_id; exact Hend. }
  rewrite Hstrip. apply take_all; exact Hlen.
Qed.

(** The segment of the specification's example is stable. *)
Lemma safeSlug_again_witness :
  safeSlug (VStr (safeSlug (VStr "Jane Doe"))) = safeSlug (VStr "Jane Doe").
Proof.
  apply (safeSlug_again (VStr "Jane Doe")); [discriminate | reflexivity].
Defined.

(** Where the cut falls behind a dash the segment ends with it, and
    sanitizing it again removes the dash. *)
Example safeSlug_cut_behind_dash :
  let name :=
    "aaaaaaaaaaaaaaaaaaaaaaaaaaaaaaaaaaaaaaaaaaaaaaaaaaaaaaaaaaaaaaaaaaaaaaaaaaaaaaa b" in
  String.length (safeSlug (VStr name)) = 80%nat
  /\ endsWith "-" (safeSlug (VStr name)) = true
  /\ String.length (safeSlug (VStr (safeSlug (VStr name)))) = 79%nat.
Proof. repeat split. Qed.
(** ** [nowStamp]: the shape of the stamp *)

Lemma mod_twoDigits (n k : Z) :
  0 < k <= 100 -> Dec.pad2 (n mod k) = Spec.twoDigits (n mod k).
Proof.
  intros Hk. apply pad2_twoDigits.
  pose proof (Z.mod_pos_bound n k). lia.
Qed.

Lemma length_twoDigits (n : Z) : String.length (Spec.twoDigits n) = 2%nat.
Proof. reflexivity. Qed.

(** X3.  The stamp of a time value is the year in decimal, then month, day,
    an underscore, hour, minute and second of the UTC time, each of the five
    in two digits; for a year from 1000 to 9999 it has 15 characters. *)
Theorem stamp_format (d : Z) :
  exists y mo da,
    Time.civil (Time.day d) = (y, mo, da)
    /\ 1 <= mo <= 12 /\ 1 <= da <= 31
    /\ stamp d
       = Dec.ofZ y ++ Spec.twoDigits mo ++ Spec.twoDigits da ++ "_"
         ++ Spec.twoDigits ((d / 3600000) mod 24)
         ++ Spec.twoDigits ((d / 60000) mod 60)
         ++ Spec.twoDigits ((d / 1000) mod 60)
    /\ (1000 <= y <= 9999 -> String.length (stamp d) = 15%nat).
Proof.
  unfold stamp, Time.yearFromTime, Time.monthFromTime, Time.dateFromTime,
    Time.hourFromTime, Time.minFromTime, Time.secFromTime.
  pose proof (civil_range (Time.day d)) as [Hm Hd].
  destruct (Time.civil (Time.day d)) as [[y mo] da]. cbn [fst snd] in *.
  exists y, mo, da. split; [reflexivity|]. split; [exact Hm|]. split; [exact Hd|].
  replace (mo - 1 + 1) with mo by lia.
  rewrite (pad2_twoDigits mo) by lia. rewrite (pad2_twoDigits da) by lia.
  rewrite !mod_twoDigits by lia.
  split; [reflexivity|].
  intros Hy. rewrite !length_append, !length_twoDigits.
  rewrite (year_four_digits y Hy). reflexivity.
Qed.

(** The stamp of 5 March 2024, 01:02:03 UTC. *)
Lemma stamp_format_witness :
  stamp 1709600523000 = "20240305_010203"
  /\ String.length (stamp 1709600523000) = 15%nat.
Proof.
  destruct (stamp_format 1709600523000) as (y & mo & da & Hc & _ & _ & Hs & Hl).
  vm_compute in Hc. injection Hc as <- <- <-.
  split; [exact Hs | apply Hl; lia].
Defined.
(** ** [renderTemplate]: templates without a date filter *)

(** Plain text that does not end with a brace passes through a scan
    unchanged, whatever follows it. *)
Lemma replaceAll_plain_closed {A : Type} (re : string -> option (found A))
    (fn : A -> string) (t rest : string) :
  opensLikePlaceholder re ->
  Spec.plain t -> endsWith "{" t = false ->
  replaceAll re fn 0 (t ++ rest) = t ++ replaceAll re fn 0 rest.
Proof.
  intros Hre Ht Hend. induction t as [|c t IH]; [reflexivity|].
  cbn [append replaceAll].
  assert (Hend' : endsWith "{" t = false).
  { destruct t as [|d t]; [reflexivity | exact Hend]. }
  destruct (re (String c (t ++ rest))) as [m|] eqn:E.
  - exfalso. apply Hre in E as (c2 & r & Hs & Hc2).
    injection Hs as -> Hs.
    destruct t as [|d t].
    + vm_compute in Hend. discriminate Hend.
    + cbn [append] in Hs. injection Hs as -> _.
      unfold Spec.plain in Ht. rewrite includes_cons in Ht.
      change (Str.stripPrefix "{{" (String "{" (String "{" t))) with (Some t) in Ht.
      discriminate Ht.
  - rewrite (IH (plain_tail _ _ Ht) Hend'). reflexivity.
Qed.

Lemma replaceAll_none {A : Type} (re : string -> option (found A))
    (fn : A -> string) (c : ascii) (r : string) :
  re (String c r) = None ->
  replaceAll re fn 0 (String c r) = String c (replaceAll re fn 0 r).
Proof. intros H. cbn [replaceAll]. rewrite H. reflexivity. Qed.

Lemma all_app (p : ascii -> bool) (a b : string) :
  Str.all p (a ++ b) = (Str.all p a && Str.all p b)%bool.
Proof.
  induction a as [|c a IH]; [reflexivity|].
  cbn [append Str.all]. rewrite IH, andb_assoc. reflexivity.
Qed.

Lemma all_impl (p q : ascii -> bool) (s : string) :
  (forall c, p c = true -> q c = true) ->
  Str.all p s = true -> Str.all q s = true.
Proof.
  intros Hpq. induction s as [|c s IH]; [reflexivity|].
  cbn [Str.all]. intros H. apply andb_prop in H as [Hc Hs].
  rewrite (Hpq c Hc), (IH Hs). reflexivity.
Qed.

Lemma space_not_brace (c : ascii) :
  Chars.isSpace c = true -> negb (Ascii.eqb c "{") = true.
Proof.
  destruct (Ascii.eqb_spec c "{") as [->|]; [|reflexivity].
  vm_compute; intros H; discriminate H.
Qed.

Lemma ident_not_brace (c : ascii) :
  Chars.isIdent c = true -> negb (Ascii.eqb c "{") = true.
Proof.
  destruct (Ascii.eqb_spec c "{") as [->|]; [|reflexivity].
  vm_compute; intros H; discriminate H.
Qed.

Lemma noBrace_plain (s : string) :
  noBrace s = true -> forall c, Spec.plain (String c s).
Proof.
  unfold noBrace, Spec.plain.
  induction s as [|a r IH]; intros H c.
  - rewrite includes_cons. cbn [Str.stripPrefix].
    destruct (Ascii.eqb "{" c); reflexivity.
  - cbn [Str.all] in H. apply andb_prop in H as [Ha Hr].
    rewrite includes_cons. rewrite (IH Hr a).
    cbn [Str.stripPrefix].
    destruct (Ascii.eqb "{" c); [|reflexivity].
    rewrite Ascii.eqb_sym. apply negb_true_iff in Ha. rewrite Ha. reflexivity.
Qed.

Lemma noBrace_endsWith (s : string) (c : ascii) :
  s <> EmptyString -> noBrace s = true -> endsWith "{" (String c s) = false.
Proof.
  unfold noBrace. revert c.
  induction s as [|a r IH]; intros c Hne H; [contradiction|].
  cbn [Str.all] in H. apply andb_prop in H as [Ha Hr].
  change (endsWith "{" (String c (String a r))) with (endsWith "{" (String a r)).
  destruct r as [|d r].
  - cbn [endsWith]. apply negb_true_iff; exact Ha.
  - apply IH; [discriminate | exact Hr].
Qed.

(** The inside of a well-formed placeholder has no opening brace. *)
Lemma hole_inside_noBrace (p : Spec.hole) :
  Spec.wellFormedHole p ->
  noBrace (Spec.ws1 p ++ Spec.key p ++ Spec.ws2 p ++ "}}") = true.
Proof.
  intros (H1 & [_ Hk] & H2). unfold noBrace.
  rewrite !all_app.
  rewrite (all_impl _ _ _ space_not_brace H1).
  rewrite (all_impl _ _ _ ident_not_brace Hk).
  rewrite (all_impl _ _ _ space_not_brace H2).
  reflexivity.
Qed.

(** A bare placeholder is no date-filter placeholder. *)
Lemma matchDate_hole_none (p : Spec.hole) (rest : string) :
  Spec.wellFormedHole p -> matchDate (Spec.holeText p ++ rest) = None.
Proof.
  destruct p as [g1 k g2]. intros (H1 & Hk & H2).
  cbn [Spec.ws1 Spec.key Spec.ws2] in *.
  unfold Spec.holeText, matchDate. cbn [Spec.ws1 Spec.key Spec.ws2].
  change (("{{" ++ g1 ++ k ++ g2 ++ "}}") ++ rest)
    with (String "{" (String "{" ((g1 ++ k ++ g2 ++ "}}") ++ rest))).
  rewrite stripPrefix_open, !append_assoc.
  rewrite (span_blank g1 _ H1 (key_starts k _ Hk)).
  rewrite (span_app Chars.isIdent k _ (proj2 Hk)
             (blank_then_ident g2 ("}}" ++ rest) H2 eq_refl)).
  destruct (String.eqb k EmptyString); [reflexivity|].
  rewrite (span_blank g2 ("}}" ++ rest) H2 eq_refl).
  reflexivity.
Qed.

(** The first pass leaves a bare placeholder where it is. *)
Lemma renderDates_hole (h : Host) (data : object) (p : Spec.hole)
    (rest : string) :
  Spec.wellFormedHole p ->
  renderDates h (Spec.holeText p ++ rest) data
  = Spec.holeText p ++ renderDates h rest data.
Proof.
  intros Hp. unfold renderDates.
  pose proof (matchDate_hole_none p rest Hp) as Hnone.
  pose proof (hole_inside_noBrace p Hp) as Hin.
  unfold Spec.holeText in *.
  set (inside := Spec.ws1 p ++ Spec.key p ++ Spec.ws2 p ++ "}}") in *.
  change (("{{" ++ inside) ++ rest)
    with (String "{" (String "{" inside ++ rest)) in *.
  rewrite (replaceAll_none _ _ _ _ Hnone).
  change ("{{" ++ inside) with (String "{" (String "{" inside)).
  cbn [append]. f_equal.
  change (String "{" (inside ++ rest)) with (String "{" inside ++ rest).
  apply (replaceAll_plain_closed matchDate _ (String "{" inside) rest).
  - exact matchDate_opens.
  - apply noBrace_plain; exact Hin.
  - apply noBrace_endsWith; [|exact Hin].
    subst inside. destruct (Spec.ws1 p); [|discriminate].
    destruct (Spec.key p); [|discriminate].
    destruct (Spec.ws2 p); discriminate.
Qed.

Lemma renderDates_plain (h : Host) (data : object) (t : string) :
  Spec.plain t -> renderDates h t data = t.
Proof.
  intros Ht. unfold renderDates.
  rewrite <- (append_nil_r t) at 1.
  rewrite (replaceAll_plain matchDate _ t EmptyString matchDate_opens Ht).
  - cbn [replaceAll]. apply append_nil_r.
  - left; reflexivity.
Qed.

Lemma renderDates_bare_template (h : Host) (data : object)
    (pieces : list (string * Spec.hole)) (last : string) :
  Forall (fun tp => Spec.plain (fst tp) /\ Spec.wellFormedHole (snd tp)) pieces ->
  Spec.plain last ->
  renderDates h (Spec.templateText pieces last) data
  = Spec.templateText pieces last.
Proof.
  intros Hall Hlast. induction Hall as [|[t p] pieces [Ht Hp] _ IH].
  - apply renderDates_plain; exact Hlast.
  - cbn [Spec.templateText fst snd] in *.
    unfold renderDates at 1.
    rewrite (replaceAll_plain matchDate _ t _ matchDate_opens Ht).
    + fold (renderDates h (Spec.holeText p ++ Spec.templateText pieces last) data).
      rewrite renderDates_hole by exact Hp. rewrite IH. reflexivity.
    + right. unfold Spec.holeText.
      rewrite !append_assoc, stripPrefix_app. discriminate.
Qed.

Lemma renderBare_bare_template (data : object)
    (pieces : list (string * Spec.hole)) (last : string) :
  Forall (fun tp => Spec.plain (fst tp) /\ Spec.wellFormedHole (snd tp)) pieces ->
  Spec.plain last ->
  renderBare (Spec.templateText pieces last) data
  = Spec.substituted data pieces last.
Proof.
  intros Hall Hlast. induction Hall as [|[t p] pieces [Ht Hp] _ IH].
  - apply renderBare_plain; exact Hlast.
  - cbn [Spec.templateText Spec.substituted fst snd] in *.
    rewrite renderBare_piece by assumption. rewrite IH. reflexivity.
Qed.

(** X4.  On a template made of plain text and bare placeholders the two
    passes together do what the second does alone: the date pass changes
    nothing, every placeholder gives way to its value, and the text between
    them stays; a text without two opening braces in a row is returned as
    it is, whatever the payload. *)
Theorem renderTemplate_bare_template (h : Host) (data : object)
    (pieces : list (string * Spec.hole)) (last : string) :
  Forall (fun tp => Spec.plain (fst tp) /\ Spec.wellFormedHole (snd tp)) pieces ->
  Spec.plain last ->
  renderTemplate h (Spec.templateText pieces last) data
  = Spec.substituted data pieces last
  /\ renderTemplate h last data = last.
Proof.
  intros Hall Hlast. unfold renderTemplate. split.
  - rewrite renderDates_bare_template by assumption.
    apply renderBare_bare_template; assumption.
  - rewrite renderDates_plain by assumption.
    apply renderBare_plain; assumption.
Qed.

(** A small page with a style rule and two placeholders. *)
Lemma renderTemplate_bare_template_witness :
  renderTemplate (demoHost "bkt")
    "<style>h1 { color: red }</style><h1>{{ client_name }}</h1><p>{{kcal}} kcal</p>"
    [("client_name", VStr "Jane Doe"); ("kcal", VNum 2100)]
  = "<style>h1 { color: red }</style><h1>Jane Doe</h1><p>2100 kcal</p>".
Proof.
  refine (proj1 (renderTemplate_bare_template (demoHost "bkt")
                   [("client_name", VStr "Jane Doe"); ("kcal", VNum 2100)]
                   [ ("<style>h1 { color: red }</style><h1>",
                      Spec.mkHole " " "client_name" " ");
                     ("</h1><p>", Spec.mkHole EmptyString "kcal" EmptyString) ]
                   " kcal</p>" _ _)).
  - repeat constructor; simpl; discriminate.
  - reflexivity.
Defined.
(** ** [getBrowser] and [htmlToPdfBuffer]: a launch that failed *)

Lemma htmlToPdfBuffer_launch_failed (h : Host) (html msg : string) (w : World) :
  launch h (fst (getBrowser w)) = Some msg ->
  htmlToPdfBuffer h html w = (inl (ErrHost Browser msg), snd (getBrowser w)).
Proof.
  intros Hl. unfold htmlToPdfBuffer, bind, awaitBrowser.
  destruct (getBrowser w) as [p wb]; cbn [fst snd] in *.
  rewrite Hl. reflexivity.
Qed.

Lemma generateOnePdf_needs_browser (h : Host) (key : value) (payload : object)
    (w w' : World) (file : object) (msg : string) :
  launch h (fst (getBrowser w)) = Some msg ->
  generateOnePdf h key payload w <> (inr file, w').
Proof.
  intros Hl H. apply generateOnePdf_stages in H
    as (raw & buf & _ & _ & Hlaunch & _).
  congruence.
Qed.

Lemma served_oneBrowser (h : Host) (calls : list call) :
  oneBrowser (fold_left (serve h) calls initialWorld).
Proof.
  assert (H0 : oneBrowser initialWorld) by (left; split; reflexivity).
  revert H0. generalize initialWorld.
  induction calls as [|c calls IH]; intros w Hw; cbn [fold_left]; [exact Hw|].
  apply IH. apply serve_oneBrowser; exact Hw.
Qed.

(** X5.  The server does not retry a launch.  If the first launch of the
    browser fails, then after any requests whatever neither POST route ever
    answers 200, and a request that gets as far as the browser (a template
    key that converts and is known, the template file read, no conversion
    thrown in [renderTemplate]) is answered with 500 and the message of
    that first failure. *)
Theorem launch_failure_is_permanent (h : Host) (msg : string)
    (calls : list call) (req : request) :
  launch h 0 = Some msg ->
  let w := fold_left (serve h) calls initialWorld in
  status (fst (postPdf h req w)) <> 200
  /\ status (fst (postPdfs h req w)) <> 200
  /\ (forall raw,
        let key := resolveTemplateKey (body req) (query req) in
        Js.truthy key = true ->
        Js.throwsToString key = false ->
        In (Js.toString key) templateKeys ->
        readFile h (templatePath h (Js.toString key)) = inr raw ->
        renderTemplateThrows h raw (body req) = false ->
        fst (postPdf h req w) = failure 500 msg).
Proof.
  intros Hl w.
  pose proof (served_oneBrowser h calls) as Hone. fold w in Hone.
  destruct (getBrowser_oneBrowser w Hone) as (Hp0 & _ & _).
  assert (Hlw : launch h (fst (getBrowser w)) = Some msg) by (rewrite Hp0; exact Hl).
  split; [|split].
  - unfold postPdf. destruct (negb _); [discriminate|].
    destruct (generateOnePdf h _ (body req) w) as [[e|file] w'] eqn:G;
      [discriminate|].
    exfalso. exact (generateOnePdf_needs_browser _ _ _ _ _ _ _ Hlw G).
  - unfold postPdfs.
    pose proof (keysToGenerate_nonempty h (body req)) as Hne.
    destruct (keysToGenerate h (body req)) as [|k ks]; [contradiction|].
    cbn [generateAll]. unfold bind.
    destruct (generateOnePdf h k (body req) w) as [[e|file] w'] eqn:G;
      [discriminate|].
    exfalso. exact (generateOnePdf_needs_browser _ _ _ _ _ _ _ Hlw G).
  - intros raw key Ht Hkey Hin Hread Hrender.
    unfold postPdf. fold key. rewrite Ht. cbn [negb]; cbv iota.
    unfold generateOnePdf.
    rewrite (bind_step _ _ _ _ _ (stringOf_run key w Hkey)). cbv beta zeta.
    rewrite (TEMPLATE_FILES_known h _ Hin).
    assert (Htp : Js.truthy (VStr (templatePath h (Js.toString key))) = true).
    { unfold templatePath. destruct (dirname h); reflexivity. }
    rewrite Htp. cbn [negb]; cbv iota.
    rewrite (bind_step _ _ w w raw)
      by (unfold readTemplate, settle; rewrite Hread; reflexivity).
    rewrite (bind_step _ _ w w (renderTemplate h raw (body req)))
      by (unfold callRenderTemplate; rewrite Hrender; reflexivity).
    rewrite (bind_inl _ _ _ _ _ (htmlToPdfBuffer_launch_failed h _ msg w Hlw)).
    reflexivity.
Qed.

(** After two failed requests the third fails alike, with one launch made. *)
Lemma launch_failure_is_permanent_witness :
  fst (postPdf noBrowserHost (mkRequest janeRequest [])
         (fold_left (serve noBrowserHost)
            [Pdf (mkRequest janeRequest []); Pdfs allKeysRequest] initialWorld))
  = failure 500 "browserType.launch: Failed to launch chromium".
Proof.
  exact (proj2 (proj2 (launch_failure_is_permanent noBrowserHost
                         "browserType.launch: Failed to launch chromium"
                         [Pdf (mkRequest janeRequest []); Pdfs allKeysRequest]
                         (mkRequest janeRequest []) eq_refl))
           "<h1>{{client_name}}</h1>/app/templates/meal_first.html"
           eq_refl eq_refl (or_introl eq_refl) eq_refl eq_refl).
Defined.

(** ** [uploadPdfAndSign]: a signature that failed *)

Lemma uploadPdfAndSign_unsigned (h : Host) (buf : pdf) (name msg : string)
    (w : World) :
  BUCKET_NAME h <> EmptyString ->
  save h name buf = None ->
  getSignedUrl h name (clock h (clockReads w) + PDF_URL_TTL_MINUTES h * 60 * 1000)
  = inl msg ->
  exists w',
    uploadPdfAndSign h buf name w = (inl (ErrHost Storage msg), w')
    /\ bucket w' = (bucket w ++ [(name, buf)])%list.
Proof.
  intros NE Hsave Hsign. unfold uploadPdfAndSign.
  destruct (String.eqb_spec (BUCKET_NAME h) EmptyString) as [E|_];
    [contradiction|].
  rewrite Hsave.
  unfold bind, putObject, readClock, settle, ret; cbn [clockReads].
  rewrite Hsign. cbn [fromHost].
  eexists; split; reflexivity.
Qed.

(** A render stopped by a conversion: the key and the template are in
    order, and a value of the payload does not convert.  It throws the
    [TypeError], and nothing was written. *)
Lemma generateOnePdf_conversion_fails (h : Host) (key : value)
    (payload : object) (w : World) (raw : string) (buf : pdf) :
  Js.throwsToString key = false ->
  In (Js.toString key) templateKeys ->
  readFile h (templatePath h (Js.toString key)) = inr raw ->
  converts h raw payload = false ->
  launch h (fst (getBrowser w)) = None ->
  printPdf h (renderTemplate h raw payload) = inr buf ->
  exists w',
    generateOnePdf h key payload w = (inl ErrNotPrimitive, w')
    /\ bucket w' = bucket w.
Proof.
  intros Hkey Hin Hread Hconv Hlaunch Hprint.
  unfold generateOnePdf.
  rewrite (bind_step _ _ _ _ _ (stringOf_run key w Hkey)). cbv beta zeta.
  rewrite (TEMPLATE_FILES_known h _ Hin).
  assert (Htp : Js.truthy (VStr (templatePath h (Js.toString key))) = true).
  { unfold templatePath. destruct (dirname h); reflexivity. }
  rewrite Htp. cbn [negb]; cbv iota.
  rewrite (bind_step _ _ w w raw)
    by (unfold readTemplate, settle; rewrite Hread; reflexivity).
  unfold converts in Hconv.
  destruct (renderTemplateThrows h raw payload) eqn:Hrt.
  { exists w. split; [|reflexivity].
    apply bind_inl. unfold callRenderTemplate. rewrite Hrt. reflexivity. }
  rewrite (bind_step _ _ w w (renderTemplate h raw payload))
    by (unfold callRenderTemplate; rewrite Hrt; reflexivity).
  rewrite (bind_step _ _ w (snd (getBrowser w)) buf)
    by (apply htmlToPdfBuffer_run; assumption).
  destruct (getBrowser_frame w) as (Hb & _ & _).
  set (wb := snd (getBrowser w)) in *. clearbody wb.
  cbn [orb negb] in Hconv.
  unfold callSafeSlug, stringOf.
  destruct (Js.throwsToString (Js.getProp payload "job_id")) eqn:Hj;
    [pose proof (throwsToString_truthy _ Hj) as Htj; rewrite Htj|];
    (destruct (Js.throwsToString (Js.getProp payload "prefix")) eqn:Hp;
     [pose proof (throwsToString_truthy _ Hp) as Htp'; rewrite Htp'|]);
    destruct (Js.throwsToString (Js.getProp payload "client_name")) eqn:Hc;
    try discriminate Hconv;
    try destruct (Js.truthy (Js.getProp payload "job_id"));
    try destruct (Js.truthy (Js.getProp payload "prefix"));
    cbv [bind ret throw drawUUID nowStamp readClock];
    cbn [Js.throwsToString]; rewrite ?Hj, ?Hp;
    eexists; (split; [reflexivity | cbn [bucket]; exact Hb]).
Qed.

(** X6.  The upload is not undone.  When the PDF was stored and the signing
    of its URL is rejected, the request is answered with 500 and the
    rejection's message, and the stored object stays in the bucket under
    the object key of the render.  That is the case of a request whose key
    and payload convert; a request with a value that does not convert never
    reaches the upload: it is answered with 500 and the message of the
    [TypeError], and nothing is stored. *)
Theorem unsigned_upload_stays (h : Host) (req : request) (w : World)
    (raw : string) (buf : pdf) (msg : string) :
  let key := resolveTemplateKey (body req) (query req) in
  let name := objectNameIn h key (body req) w in
  Js.truthy key = true ->
  In (Js.toString key) templateKeys ->
  readFile h (templatePath h (Js.toString key)) = inr raw ->
  launch h (fst (getBrowser w)) = None ->
  printPdf h (renderTemplate h raw (body req)) = inr buf ->
  BUCKET_NAME h <> EmptyString ->
  save h name buf = None ->
  getSignedUrl h name
    (uploadTime h (body req) w + PDF_URL_TTL_MINUTES h * 60 * 1000) = inl msg ->
  (Js.throwsToString key = false -> converts h raw (body req) = true ->
   fst (postPdf h req w) = failure 500 msg
   /\ bucket (snd (postPdf h req w)) = (bucket w ++ [(name, buf)])%list)
  /\ (Js.throwsToString key = true \/ converts h raw (body req) = false ->
      fst (postPdf h req w)
      = failure 500 "Cannot convert object to primitive value"
      /\ bucket (snd (postPdf h req w)) = bucket w).
Proof.
  intros key name Ht Hin Hread Hlaunch Hprint NE Hsave Hsign.
  unfold postPdf. fold key. rewrite Ht. cbn [negb]; cbv iota.
  split.
  - intros Hkey Hconv.
    rewrite (generateOnePdf_forward h key (body req) w _ raw buf Hkey
               (TEMPLATE_FILES_known h _ Hin) Hread Hconv Hlaunch Hprint).
    fold name.
    destruct (uploadPdfAndSign_unsigned h buf name msg
                (beforeUpload h (body req) w) NE Hsave Hsign)
      as (w' & Hup & Hb).
    rewrite (bind_inl _ _ _ _ _ Hup). cbn [fst snd errorMessage].
    split; [reflexivity|].
    rewrite Hb. rewrite (proj1 (beforeUpload_frame h (body req) w)).
    reflexivity.
  - intros Hthrown.
    destruct (Js.throwsToString key) eqn:Hkey.
    + unfold generateOnePdf.
      rewrite (bind_inl _ _ _ _ _ (stringOf_throws key w Hkey)).
      split; reflexivity.
    + destruct Hthrown as [Hk|Hconv]; [discriminate Hk|].
      destruct (generateOnePdf_conversion_fails h key (body req) w raw buf
                  Hkey Hin Hread Hconv Hlaunch Hprint) as (w' & -> & Hb).
      split; [reflexivity | exact Hb].
Qed.

(** The specification's example request on a host that signs nothing, and
    the same request with a job id that does not convert. *)
Lemma unsigned_upload_stays_witness :
  (fst (postPdf unsignedHost (mkRequest janeRequest []) initialWorld)
   = failure 500 "SigningError: Permission iam.serviceAccounts.signBlob denied"
   /\ bucket (snd (postPdf unsignedHost (mkRequest janeRequest []) initialWorld))
      = [ ("pdfs/20240305_010203_job-0/meal_first_jane-doe_job-0.pdf",
           "%PDF <h1>Jane Doe</h1>/app/templates/meal_first.html") ])
  /\ (fst (postPdf unsignedHost (mkRequest oddJobRequest []) initialWorld)
      = failure 500 "Cannot convert object to primitive value"
      /\ bucket (snd (postPdf unsignedHost (mkRequest oddJobRequest [])
                        initialWorld)) = []).
Proof.
  split.
  - refine (proj1 (unsigned_upload_stays unsignedHost (mkRequest janeRequest [])
              initialWorld
              "<h1>{{client_name}}</h1>/app/templates/meal_first.html"
              "%PDF <h1>Jane Doe</h1>/app/templates/meal_first.html"
              "SigningError: Permission iam.serviceAccounts.signBlob denied"
              eq_refl (or_introl eq_refl) eq_refl eq_refl eq_refl _ eq_refl
              eq_refl) eq_refl eq_refl).
    discriminate.
  - refine (proj2 (unsigned_upload_stays unsignedHost
              (mkRequest oddJobRequest []) initialWorld
              "<h1>{{client_name}}</h1>/app/templates/meal_first.html"
              "%PDF <h1>Jane Doe</h1>/app/templates/meal_first.html"
              "SigningError: Permission iam.serviceAccounts.signBlob denied"
              eq_refl (or_introl eq_refl) eq_refl eq_refl eq_refl _ eq_refl
              eq_refl) (or_intror eq_refl)).
    discriminate.
Defined.
(** ** [GET /templates] and the keys the POST routes accept *)

Lemma generateAll_keys_known (h : Host) (payload : object) (ks : list value) :
  forall (acc results : object) (w w' : World),
    generateAll h ks payload acc w = (inr results, w') ->
    forall k, In k (Js.keys results) ->
      In k (Js.keys acc) \/ In k templateKeys.
Proof.
  induction ks as [|key ks IH]; intros acc results w w' H k Hk.
  - cbn in H. injection H as <- <-. left; exact Hk.
  - cbn [generateAll] in H.
    apply bind_inr in H as (file & w1 & Hone & Hrest).
    apply generateOnePdf_stages in Hone as (_ & _ & Hin & _).
    destruct (IH _ _ _ _ Hrest k Hk) as [Hacc|Hknown]; [|right; exact Hknown].
    rewrite keys_setProp in Hacc. apply In_addKey in Hacc as [Hacc| ->].
    + left; exact Hacc.
    + right; exact Hin.
Qed.

(** X7.  [GET /templates] advertises what the POST routes accept: its
    [template_keys] are the six keys of the template map, each once, a key
    is listed exactly when the map holds a file path for it, and a 200
    answer of either POST route is only ever given for listed keys.  The
    property names every object inherits are not listed. *)
Theorem templates_route_lists_accepted_keys (h : Host) :
  exists listed : list string,
    getTemplates h
    = mkResponse 200 [ ("ok", VBool true);
                       ("template_keys", VArr (List.map VStr listed)) ]
    /\ NoDup listed
    /\ List.length listed = 6%nat
    /\ (forall k, In k listed
                  <-> exists path, Js.getProp (TEMPLATE_FILES h) k = VStr path)
    /\ (forall k, In k listed -> Js.inProto k = false)
    /\ (forall req w,
          status (fst (postPdf h req w)) = 200 ->
          In (Js.toString (resolveTemplateKey (body req) (query req))) listed)
    /\ (forall req w files,
          status (fst (postPdfs h req w)) = 200 ->
          Js.getProp (json (fst (postPdfs h req w))) "files" = VObj files ->
          forall k, In k (Js.keys files) -> In k listed).
Proof.
  exists templateKeys. split; [reflexivity|].
  split.
  { repeat constructor; cbn; intuition discriminate. }
  split; [reflexivity|].
  split.
  { intros k; split.
    - intros Hin. exists (templatePath h k). apply TEMPLATE_FILES_known; exact Hin.
    - intros (path & Hp). exact (TEMPLATE_FILES_path h k path Hp). }
  split.
  { intros k Hin. cbn in Hin.
    repeat (destruct Hin as [<-|Hin]; [reflexivity|]). contradiction. }
  split.
  - intros req w. unfold postPdf. destruct (negb _); [discriminate|].
    destruct (generateOnePdf h _ (body req) w) as [[e|file] w'] eqn:G;
      [discriminate|].
    intros _. apply generateOnePdf_stages in G as (_ & _ & Hin & _). exact Hin.
  - intros req w files. unfold postPdfs.
    destruct (generateAll h _ (body req) [] w) as [[e|results] w'] eqn:G;
      [discriminate|].
    intros _ Hfiles. cbn in Hfiles. injection Hfiles as <-.
    intros k Hk.
    destruct (generateAll_keys_known h _ _ _ _ _ _ G k Hk) as [[]|Hin].
    exact Hin.
Qed.

(** The example request is answered with 200, so its key is listed. *)
Lemma templates_route_lists_accepted_keys_witness :
  exists listed : list string,
    getTemplates (demoHost "bkt")
    = mkResponse 200 [ ("ok", VBool true);
                       ("template_keys", VArr (List.map VStr listed)) ]
    /\ In "meal_first" listed.
Proof.
  destruct (templates_route_lists_accepted_keys (demoHost "bkt"))
    as (listed & Hr & _ & _ & _ & _ & Hpdf & _).
  exists listed. split; [exact Hr|].
  apply (Hpdf (mkRequest janeRequest []) initialWorld).
  vm_compute; reflexivity.
Defined.

(** ** What a failed render leaves behind *)

(** X8.  A render that throws has written nothing to the bucket, except
    when the failure is the signing of the URL, which comes after the
    write.  An unknown template key and a failed file read leave the
    process as it was: no browser is asked for, no identifier drawn, the
    clock not read.  A failed launch or print has asked for the browser and
    nothing more.  A missing bucket name is only found after the PDF was
    printed and the object key made.  A conversion that throws is that of
    the key, with the process left as it was, or that of a value of the
    payload, behind the reading of the template. *)
Theorem failed_render_footprint (h : Host) (key : value) (payload : object)
    (w w' : World) (e : exn) :
  generateOnePdf h key payload w = (inl e, w') ->
  match e with
  | ErrUnknownTemplate k allowed =>
      w' = w /\ k = Js.toString key /\ allowed = templateKeys
  | ErrHost FileSystem _ => w' = w
  | ErrHost Browser _ => w' = snd (getBrowser w)
  | ErrMissingBucket =>
      w' = beforeUpload h payload w /\ BUCKET_NAME h = EmptyString
  | ErrNotPrimitive =>
      bucket w' = bucket w
      /\ ((Js.throwsToString key = true /\ w' = w)
          \/ exists raw,
               readFile h (templatePath h (Js.toString key)) = inr raw
               /\ converts h raw payload = false)
  | ErrHost Storage msg =>
      BUCKET_NAME h <> EmptyString
      /\ exists raw buf,
           readFile h (templatePath h (Js.toString key)) = inr raw
           /\ printPdf h (renderTemplate h raw payload) = inr buf
           /\ ((save h (objectNameIn h key payload w) buf = Some msg
                /\ w' = beforeUpload h payload w)
               \/ (save h (objectNameIn h key payload w) buf = None
                   /\ bucket w'
                      = (bucket w ++ [(objectNameIn h key payload w, buf)])%list))
  end.
Proof.
  intros Hgen. pose proof Hgen as H.
  unfold generateOnePdf in H.
  apply bind_inl_inv in H as [H|(keyText & w0 & Hkey & H)].
  { unfold stringOf in H. destruct (Js.throwsToString key) eqn:Hk;
      [|unfold ret in H; absurd_outcome H].
    unfold throw in H. injection H as <- <-.
    split; [reflexivity|]. left; split; reflexivity. }
  apply stringOf_ok in Hkey as (Hkt & -> & ->).
  cbv beta zeta in H.
  destruct (Js.truthy (Js.getProp (TEMPLATE_FILES h) (Js.toString key))) eqn:Ht;
    cbn [negb] in H; cbv iota in H.
  2:{ unfold throw in H. injection H as <- <-. repeat split. }
  apply bind_inl_inv in H as [H|(raw & w1 & Hread & H)].
  { unfold readTemplate in H.
    destruct (Js.getProp (TEMPLATE_FILES h) (Js.toString key));
      try (unfold throw in H; injection H as <- <-; reflexivity).
    unfold settle in H. injection H as He <-.
    destruct (readFile h s); cbn in He; [|discriminate].
    injection He as <-. reflexivity. }
  apply readTemplate_ok in Hread as (path & Hpath & Hread & ->).
  pose proof (TEMPLATE_FILES_path h _ _ Hpath) as Hin.
  rewrite (TEMPLATE_FILES_known h _ Hin) in Hpath.
  injection Hpath as <-.
  apply bind_inl_inv in H as [H|(html & w1 & Hrender & H)].
  { unfold callRenderTemplate in H.
    destruct (renderTemplateThrows h raw payload) eqn:Hrt;
      [|unfold ret in H; absurd_outcome H].
    unfold throw in H. injection H as <- <-.
    split; [reflexivity|]. right. exists raw. split; [exact Hread|].
    unfold converts. rewrite Hrt. reflexivity. }
  apply callRenderTemplate_ok in Hrender as (Hrt & -> & ->).
  apply bind_inl_inv in H as [H|(buf & w2 & Hbuf & _)].
  { unfold htmlToPdfBuffer, bind, awaitBrowser in H.
    destruct (getBrowser w) as [p wb]; cbn [fst snd] in *.
    destruct (launch h p).
    - unfold throw in H. injection H as <- <-. reflexivity.
    - unfold ret, settle in H. injection H as He <-.
      destruct (printPdf h _); cbn in He; [|discriminate].
      injection He as <-. reflexivity. }
  apply htmlToPdfBuffer_ok in Hbuf as (Hprint & -> & Hlaunch).
  destruct (converts h raw payload) eqn:Hconv.
  2:{ destruct (generateOnePdf_conversion_fails h key payload w raw buf
                  Hkt Hin Hread Hconv Hlaunch Hprint) as (w1 & Hfail & Hb).
      rewrite Hfail in Hgen. injection Hgen as <- <-.
      split; [exact Hb|]. right. exists raw. split; [exact Hread|exact Hconv]. }
  rewrite (generateOnePdf_forward h key payload w _ raw buf Hkt
             (TEMPLATE_FILES_known h _ Hin) Hread Hconv Hlaunch Hprint) in Hgen.
  apply bind_inl_inv in Hgen as [Hup|(up & w3 & _ & Hret)];
    [|unfold ret in Hret; absurd_outcome Hret].
  pose proof (beforeUpload_frame h payload w) as (Hbk & _ & _).
  unfold uploadPdfAndSign in Hup.
  destruct (String.eqb_spec (BUCKET_NAME h) EmptyString) as [E|NE].
  { unfold throw in Hup. injection Hup as <- <-. split; [reflexivity|exact E]. }
  destruct (save h (objectNameIn h key payload w) buf) as [msg|] eqn:Hsave.
  { unfold throw in Hup. injection Hup as <- <-.
    split; [exact NE|]. exists raw, buf.
    split; [exact Hread|]. split; [exact Hprint|].
    left; split; [exact Hsave|reflexivity]. }
  unfold bind, putObject, readClock, settle, ret in Hup; cbn [clockReads] in Hup.
  destruct (getSignedUrl h _ _) as [msg|url]; cbn [fromHost] in Hup;
    [|discriminate Hup].
  injection Hup as <- <-.
  split; [exact NE|]. exists raw, buf.
  split; [exact Hread|]. split; [exact Hprint|].
  right; split; [exact Hsave|]. cbn [bucket]. rewrite Hbk. reflexivity.
Qed.

(** A request for a template that is not on disk changes nothing. *)
Lemma failed_render_footprint_witness :
  snd (generateOnePdf noTemplatesHost (VStr "meal_first") janeRequest
         initialWorld) = initialWorld.
Proof.
  exact (failed_render_footprint noTemplatesHost (VStr "meal_first")
           janeRequest initialWorld _
           (ErrHost FileSystem
              "ENOENT: no such file or directory, open /app/templates/meal_first.html")
           eq_refl).
Defined.
(** ** The batch loop *)

Lemma generateAll_app (h : Host) (payload : object) (ks1 ks2 : list value) :
  forall (acc : object) (w : World),
    generateAll h (ks1 ++ ks2) payload acc w
    = bind (generateAll h ks1 payload acc)
        (fun results => generateAll h ks2 payload results) w.
Proof.
  induction ks1 as [|k ks1 IH]; intros acc w; [reflexivity|].
  cbn [generateAll app]. unfold bind at 1 2 3.
  destruct (generateOnePdf h k payload w) as [[e|file] w1]; [reflexivity|].
  rewrite IH. reflexivity.
Qed.

Lemma appends_bind {A B : Type} (m : M A) (f : A -> M B) :
  appends m -> (forall a, appends (f a)) -> appends (bind m f).
Proof.
  intros Hm Hf w. unfold bind.
  destruct (Hm w) as (more & Hmore). destruct (m w) as [[e|a] w1]; cbn in *.
  - exists more; exact Hmore.
  - destruct (Hf a w1) as (more' & Hmore').
    exists (more ++ more')%list. rewrite Hmore', Hmore, app_assoc. reflexivity.
Qed.

Lemma appends_still {A : Type} (m : M A) :
  (forall w, bucket (snd (m w)) = bucket w) -> appends m.
Proof. intros H w. exists []. rewrite app_nil_r. apply H. Qed.

Lemma appends_ret {A : Type} (a : A) : appends (ret a).
Proof. apply appends_still; reflexivity. Qed.

Lemma appends_throw {A : Type} (e : exn) : appends (@throw A e).
Proof. apply appends_still; reflexivity. Qed.

Lemma appends_settle {A : Type} (r : result A) : appends (settle r).
Proof. apply appends_still; reflexivity. Qed.

Lemma appends_readClock (h : Host) : appends (readClock h).
Proof. apply appends_still; reflexivity. Qed.

Lemma appends_drawUUID (h : Host) : appends (drawUUID h).
Proof. apply appends_still; reflexivity. Qed.

Lemma appends_stringOf (v : value) : appends (stringOf v).
Proof.
  unfold stringOf. destruct (Js.throwsToString v);
    [apply appends_throw | apply appends_ret].
Qed.

Lemma appends_putObject (name : string) (buf : pdf) :
  appends (putObject name buf).
Proof. intros w. exists [(name, buf)]. reflexivity. Qed.

#[local] Hint Resolve appends_ret appends_throw appends_settle
  appends_readClock appends_drawUUID appends_stringOf appends_putObject
  : browser.

Lemma appends_htmlToPdfBuffer (h : Host) (html : string) :
  appends (htmlToPdfBuffer h html).
Proof.
  unfold htmlToPdfBuffer.
  apply appends_bind.
  - apply appends_still. intros w.
    pose proof (getBrowser_frame w) as (Hb & _).
    destruct (getBrowser w) as [p wb]; exact Hb.
  - intros p. apply appends_bind; [|auto with browser].
    unfold awaitBrowser. destruct (launch h p); auto with browser.
Qed.

Lemma appends_uploadPdfAndSign (h : Host) (buf : pdf) (name : string) :
  appends (uploadPdfAndSign h buf name).
Proof.
  unfold uploadPdfAndSign.
  destruct (String.eqb (BUCKET_NAME h) EmptyString); [auto with browser|].
  destruct (save h name buf); [auto with browser|].
  repeat (apply appends_bind; [auto with browser | intros ?]).
  auto with browser.
Qed.

Lemma appends_generateOnePdf (h : Host) (key : value) (payload : object) :
  appends (generateOnePdf h key payload).
Proof.
  unfold generateOnePdf.
  apply appends_bind; [apply appends_stringOf|].
  intros keyText. cbv zeta.
  destruct (negb _); [auto with browser|].
  apply appends_bind.
  { unfold readTemplate. destruct (Js.getProp _ _); auto with browser. }
  intros raw. apply appends_bind.
  { unfold callRenderTemplate. destruct (renderTemplateThrows h raw payload);
      auto with browser. }
  intros html. apply appends_bind; [apply appends_htmlToPdfBuffer|].
  intros buf. apply appends_bind.
  { destruct (Js.truthy _); [auto with browser|].
    apply appends_bind; auto with browser. }
  intros jobId. apply appends_bind.
  { destruct (Js.truthy _); [auto with browser|].
    unfold nowStamp. apply appends_bind.
    - apply appends_bind; auto with browser.
    - intros stamp. apply appends_bind; [apply appends_stringOf|].
      auto with browser. }
  intros prefix. apply appends_bind.
  { unfold callSafeSlug. destruct (Js.throwsToString _); auto with browser. }
  intros safeName. apply appends_bind; [apply appends_stringOf|].
  intros jobText. apply appends_bind; [apply appends_stringOf|].
  intros prefixText. apply appends_bind; [apply appends_uploadPdfAndSign|].
  auto with browser.
Qed.

(** The render of one key in a batch: what it adds to the counters. *)
Lemma generateOnePdf_counters (h : Host) (key : value) (payload : object)
    (w w' : World) (file : object) :
  generateOnePdf h key payload w = (inr file, w') ->
  uuidsDrawn w'
  = (if Js.truthy (Js.getProp payload "job_id") then uuidsDrawn w
     else S (uuidsDrawn w))
  /\ Js.getProp file "job_id" = jobIdIn h payload w.
Proof.
  intros G. split.
  - pose proof G as G'.
    apply generateOnePdf_stages in G' as (raw & buf & _ & _ & _ & _ & Hfwd).
    rewrite Hfwd in G. apply bind_inr in G as (up & w1 & Hup & Hret).
    unfold ret in Hret. injection Hret as _ <-.
    apply uploadPdfAndSign_ok in Hup as (_ & url & _ & _ & _ & Hu).
    rewrite Hu. unfold beforeUpload.
    destruct (getBrowser_frame w) as (_ & _ & Hg).
    destruct (Js.truthy (Js.getProp payload "job_id"));
      destruct (Js.truthy (Js.getProp payload "prefix")); cbn; rewrite ?Hg;
      reflexivity.
  - apply generateOnePdf_ok in G
      as (path & raw & buf & url & _ & _ & _ & _ & -> & _).
    reflexivity.
Qed.

Lemma generateAll_job_ids (h : Host) (payload : object) (ks : list value) :
  forall (acc results : object) (w w' : World),
    generateAll h ks payload acc w = (inr results, w') ->
    uuidsDrawn w'
    = (if Js.truthy (Js.getProp payload "job_id") then uuidsDrawn w
       else (uuidsDrawn w + List.length ks)%nat)
    /\ forall k v, In (k, v) results ->
         In (k, v) acc
         \/ exists i key entry,
              nth_error ks i = Some key /\ Js.toString key = k
              /\ v = VObj entry
              /\ Js.getProp entry "job_id"
                 = (if Js.truthy (Js.getProp payload "job_id")
                    then Js.getProp payload "job_id"
                    else VStr (randomUUID h (uuidsDrawn w + i)%nat)).
Proof.
  induction ks as [|key ks IH]; intros acc results w w' H.
  - cbn in H. injection H as <- <-. split.
    + destruct (Js.truthy _); [reflexivity|]. cbn. lia.
    + intros k v Hin; left; exact Hin.
  - cbn [generateAll] in H.
    apply bind_inr in H as (file & w1 & Hone & Hrest).
    apply generateOnePdf_counters in Hone as (Hu1 & Hjob).
    destruct (IH _ _ _ _ Hrest) as (Hu & Hentries).
    split.
    + rewrite Hu, Hu1. destruct (Js.truthy _); [reflexivity|]. cbn. lia.
    + intros k v Hin.
      destruct (Hentries k v Hin)
        as [Hacc|(i & key' & entry & Hnth & Hk & Hv & Hid)].
      * apply In_setProp in Hacc as [(-> & ->)|Hacc]; [|left; exact Hacc].
        right. exists 0%nat, key, file.
        repeat split. rewrite Hjob. unfold jobIdIn.
        destruct (Js.truthy _); [reflexivity|].
        rewrite Nat.add_0_r. reflexivity.
      * right. exists (S i), key', entry.
        repeat split; try assumption.
        rewrite Hid, Hu1. destruct (Js.truthy _); [reflexivity|].
        replace (S (uuidsDrawn w) + i)%nat with (uuidsDrawn w + S i)%nat by lia.
        reflexivity.
Qed.

(** X9.  The batch stops at the first key that fails.  The answer is a
    500 with that key's error and carries no files; the objects of the keys
    before it were written, one per key in order, and stay in the bucket;
    the keys after it are not rendered. *)
Theorem batch_stops_at_first_failure (h : Host) (req : request)
    (done rest : list value) (k : value)
    (w w1 w2 : World) (results : object) (e : exn) :
  keysToGenerate h (body req) = (done ++ k :: rest)%list ->
  generateAll h done (body req) [] w = (inr results, w1) ->
  generateOnePdf h k (body req) w1 = (inl e, w2) ->
  postPdfs h req w = (failure 500 (errorMessage e), w2)
  /\ exists writes more,
       bucket w1 = (bucket w ++ writes)%list
       /\ Forall2 writtenFor (List.map Js.toString done) writes
       /\ bucket w2 = (bucket w ++ writes ++ more)%list.
Proof.
  intros Hkeys Hdone Hk. split.
  - unfold postPdfs. cbv zeta. rewrite Hkeys, generateAll_app.
    rewrite (bind_step _ _ _ _ _ Hdone). cbn [generateAll].
    rewrite (bind_inl _ _ _ _ _ Hk). reflexivity.
  - destruct (generateAll_ok h (body req) done [] w w1 results Hdone)
      as (_ & (writes & Hb & Hw) & _).
    destruct (appends_generateOnePdf h k (body req) w1) as (more & Hm).
    rewrite Hk in Hm. cbn [snd] in Hm.
    exists writes, more. split; [exact Hb|]. split; [exact Hw|].
    rewrite Hm, Hb, app_assoc. reflexivity.
Qed.

(** All six templates asked for, the two meal templates on disk: a 500 for
    the third key, and two objects in the bucket. *)
Lemma batch_stops_at_first_failure_witness :
  fst (postPdfs mealsOnlyHost allKeysRequest initialWorld)
  = failure 500
      "ENOENT: no such file or directory, open /app/templates/workout_first.html"
  /\ List.map fst (bucket (snd (postPdfs mealsOnlyHost allKeysRequest initialWorld)))
     = [ "pdfs/20240305_010203_j1/meal_first_jane-doe_j1.pdf";
         "pdfs/20240305_010203_j1/meal_weekly_jane-doe_j1.pdf" ].
Proof.
  edestruct (batch_stops_at_first_failure mealsOnlyHost allKeysRequest
               [VStr "meal_first"; VStr "meal_weekly"]
               [VStr "workout_weekly"; VStr "bundle_first"; VStr "bundle_weekly"]
               (VStr "workout_first") initialWorld) as (Hresp & _);
    [ reflexivity | vm_compute; reflexivity | vm_compute; reflexivity | ].
  rewrite Hresp. split; reflexivity.
Defined.

(** X10.  A batch has no job identifier of its own.  When the request gives
    a [job_id], every file carries it and no identifier is drawn.  When it
    gives none, the answer's top-level [job_id] is null, one identifier is
    drawn for each requested key, and the file of the key at position [i]
    carries the [i]-th of them; so, on a host whose random source gives no
    identifier twice, the files of different keys have different job
    identifiers. *)
Theorem batch_job_ids (h : Host) (req : request) (w w' : World)
    (resp : response) :
  postPdfs h req w = (resp, w') ->
  status resp = 200 ->
  let given := Js.getProp (body req) "job_id" in
  let ks := keysToGenerate h (body req) in
  exists files,
    Js.getProp (json resp) "files" = VObj files
    /\ (Js.truthy given = true ->
        Js.getProp (json resp) "job_id" = given
        /\ uuidsDrawn w' = uuidsDrawn w
        /\ forall k v, In (k, v) files ->
             exists entry, v = VObj entry /\ Js.getProp entry "job_id" = given)
    /\ (Js.truthy given = false ->
        Js.getProp (json resp) "job_id" = VNull
        /\ uuidsDrawn w' = (uuidsDrawn w + List.length ks)%nat
        /\ forall k v, In (k, v) files ->
             exists i key entry,
               nth_error ks i = Some key /\ Js.toString key = k
               /\ v = VObj entry
               /\ Js.getProp entry "job_id"
                  = VStr (randomUUID h (uuidsDrawn w + i)%nat))
    /\ (Js.truthy given = false ->
        (forall i j, randomUUID h i = randomUUID h j -> i = j) ->
        forall k k' entry entry',
          In (k, VObj entry) files -> In (k', VObj entry') files ->
          k <> k' ->
          Js.getProp entry "job_id" <> Js.getProp entry' "job_id").
Proof.
  intros H Hs given ks. unfold postPdfs in H. cbv zeta in H.
  fold ks in H.
  destruct (generateAll h ks (body req) [] w) as [[e|results] w1] eqn:G;
    injection H as <- <-; [discriminate Hs|].
  exists results. split; [reflexivity|].
  destruct (generateAll_job_ids h (body req) ks [] results w w1 G)
    as (Hu & Hentries).
  fold given in Hu, Hentries.
  split; [|split]; intros Ht; rewrite Ht in Hu.
  - split; [cbn; unfold Js.or; fold given; rewrite Ht; reflexivity|].
    split; [exact Hu|].
    intros k v Hin.
    destruct (Hentries k v Hin) as [[]|(i & key & entry & _ & _ & Hv & Hid)].
    exists entry. split; [exact Hv|]. rewrite Hid, Ht. reflexivity.
  - split; [cbn; unfold Js.or; fold given; rewrite Ht; reflexivity|].
    split; [exact Hu|].
    intros k v Hin.
    destruct (Hentries k v Hin) as [[]|(i & key & entry & Hn & Hk & Hv & Hid)].
    exists i, key, entry. rewrite Ht in Hid. repeat split; assumption.
  - intros Hinj k k' entry entry' Hin Hin' Hne Heq.
    destruct (Hentries k _ Hin) as [[]|(i & key & e1 & Hn & Hk & Hv & Hid)].
    destruct (Hentries k' _ Hin')
      as [[]|(i' & key' & e2 & Hn' & Hk' & Hv' & Hid')].
    injection Hv as <-. injection Hv' as <-.
    rewrite Ht in Hid, Hid'. rewrite Hid, Hid' in Heq.
    injection Heq as Heq. apply Hinj in Heq.
    assert (i = i') by lia. subst i'.
    rewrite Hn in Hn'. injection Hn' as <-.
    apply Hne. rewrite <- Hk, <- Hk'. reflexivity.
Qed.

(** The identifiers of the example host are its draw numbers in decimal:
    no two draws give the same. *)
Lemma demoHost_randomUUID_injective (bucketName : string) (i j : nat) :
  randomUUID (demoHost bucketName) i = randomUUID (demoHost bucketName) j ->
  i = j.
Proof.
  cbn [randomUUID demoHost]. intros H.
  cbn [append] in H. injection H as H.
  apply (f_equal (Time.digitsVal 0)) in H.
  rewrite !digitsVal_ofZ in H by lia.
  injection H as H. lia.
Qed.

(** Two keys and no [job_id]: a null [job_id] in the answer, two
    identifiers drawn, and different job identifiers in the two files. *)
Lemma batch_job_ids_witness :
  Js.getProp
    (json (fst (postPdfs (demoHost "bkt")
                  (mkRequest
                     [("template_keys",
                       VArr [VStr "meal_first"; VStr "workout_first"])] [])
                  initialWorld))) "job_id" = VNull
  /\ uuidsDrawn
       (snd (postPdfs (demoHost "bkt")
               (mkRequest
                  [("template_keys",
                    VArr [VStr "meal_first"; VStr "workout_first"])] [])
               initialWorld)) = 2%nat
  /\ exists files,
       Js.getProp
         (json (fst (postPdfs (demoHost "bkt")
                       (mkRequest
                          [("template_keys",
                            VArr [VStr "meal_first"; VStr "workout_first"])] [])
                       initialWorld))) "files" = VObj files
       /\ forall e1 e2,
            In ("meal_first", VObj e1) files ->
            In ("workout_first", VObj e2) files ->
            Js.getProp e1 "job_id" <> Js.getProp e2 "job_id".
Proof.
  destruct (postPdfs (demoHost "bkt")
              (mkRequest
                 [("template_keys",
                   VArr [VStr "meal_first"; VStr "workout_first"])] [])
              initialWorld) as [resp w'] eqn:E.
  assert (Hs : status resp = 200)
    by (vm_compute in E; injection E as <- _; reflexivity).
  destruct (batch_job_ids (demoHost "bkt") _ initialWorld w' resp E Hs)
    as (files & Hf & _ & Hnone & Hdiff).
  destruct (Hnone eq_refl) as (Hnull & Hu & _).
  split; [exact Hnull|]. split; [exact Hu|].
  exists files. split; [exact Hf|].
  intros e1 e2 H1 H2.
  apply (Hdiff eq_refl (demoHost_randomUUID_injective "bkt")
           "meal_first" "workout_first" e1 e2 H1 H2).
  discriminate.
Defined.
(** ** Shutdown *)

Lemma signals_cons (t : turn) (turns : list turn) :
  signals (t :: turns)
  = ((match t with Signal => 1 | _ => 0 end) + signals turns)%nat.
Proof. unfold signals. destruct t; reflexivity. Qed.

(** What the signals received so far account for. *)
Lemma step_accounted (h : Host) (s : Process) (t : turn) (n : nat) :
  (List.length (closed s) + List.length (awaitingLaunch s) <= n)%nat
  /\ (awaitingClose s <= List.length (closed s))%nat
  /\ (exited s = true -> (1 <= n)%nat) ->
  let s' := step h s t in
  let n' := ((match t with Signal => 1 | _ => 0 end) + n)%nat in
  (List.length (closed s') + List.length (awaitingLaunch s') <= n')%nat
  /\ (awaitingClose s' <= List.length (closed s'))%nat
  /\ (exited s' = true -> (1 <= n')%nat).
Proof.
  intros (Hc & Ha & He). unfold step.
  destruct (exited s) eqn:Ex.
  { cbv zeta. rewrite Ex. specialize (He eq_refl).
    destruct t; cbn; repeat split; intros; lia. }
  destruct t; cbv zeta.
  - destruct (getBrowser (world s)) as [p w']. cbn.
    repeat split; intros; first [lia | discriminate].
  - unfold shutdown. destruct (browserPromise (world s)); cbn;
      repeat split; intros; first [lia | discriminate].
  - destruct (awaitingLaunch s) as [|p rest] eqn:El.
    + rewrite Ex, El. cbn in Hc |- *.
      repeat split; intros; first [lia | discriminate].
    + unfold shutdownResumed. cbn in Hc.
      destruct (launch h p); cbn;
        repeat split; intros; first [lia | discriminate].
  - destruct (awaitingClose s) as [|k] eqn:Ec.
    + rewrite Ex, Ec. cbn in Hc |- *.
      repeat split; intros; first [lia | discriminate].
    + cbn. repeat split; intros; first [lia | discriminate].
Qed.

Lemma fold_accounted (h : Host) (turns : list turn) :
  forall (s : Process) (n : nat),
    (List.length (closed s) + List.length (awaitingLaunch s) <= n)%nat
    /\ (awaitingClose s <= List.length (closed s))%nat
    /\ (exited s = true -> (1 <= n)%nat) ->
    let s' := fold_left (step h) turns s in
    (List.length (closed s') + List.length (awaitingLaunch s')
     <= signals turns + n)%nat
    /\ (awaitingClose s' <= List.length (closed s'))%nat
    /\ (exited s' = true -> (1 <= signals turns + n)%nat).
Proof.
  induction turns as [|t turns IH]; intros s n H; [exact H|].
  cbn [fold_left]. rewrite signals_cons.
  pose proof (IH _ _ (step_accounted h s t n H)) as IH'.
  cbv zeta in IH' |- *.
  replace ((match t with Signal => 1 | _ => 0 end) + signals turns + n)%nat
    with (signals turns + ((match t with Signal => 1 | _ => 0 end) + n))%nat
    by lia.
  exact IH'.
Qed.

Lemma fold_idle (h : Host) (turns : list turn) :
  forall s : Process,
    idle s -> ~ In CallGetBrowser turns ->
    let s' := fold_left (step h) turns s in
    idle s'
    /\ (exited s = true \/ (1 <= signals turns)%nat -> exited s' = true).
Proof.
  induction turns as [|t turns IH]; intros s Hs Hno.
  - cbn. split; [exact Hs|]. intros [E|L]; [exact E|]. cbn in L; lia.
  - cbn [fold_left]. rewrite signals_cons.
    assert (Hno' : ~ In CallGetBrowser turns)
      by (intros Hin; apply Hno; right; exact Hin).
    destruct Hs as (Hb & Hl & Hc & Hal & Hac).
    assert (Hstep : idle (step h s t)
                    /\ (exited s = true -> exited (step h s t) = true)
                    /\ (t = Signal -> exited (step h s t) = true)).
    { unfold step. destruct (exited s) eqn:Ex.
      - repeat split; try assumption; intros _; exact Ex.
      - destruct t.
        + exfalso; apply Hno; left; reflexivity.
        + unfold shutdown. rewrite Hb. cbn.
          repeat split; assumption || discriminate.
        + rewrite Hal. repeat split; try assumption; intros; discriminate.
        + rewrite Hac. repeat split; try assumption; intros; discriminate. }
    destruct Hstep as (Hidle & Hex & Hsig).
    destruct (IH _ Hidle Hno') as (Hidle' & Hex').
    cbv zeta. split; [exact Hidle'|].
    intros [E|L]; apply Hex'.
    + left; exact (Hex E).
    + destruct t; try (right; cbn in L; exact L).
      left; apply Hsig; reflexivity.
Qed.

Lemma step_exited (h : Host) (s : Process) (t : turn) :
  exited s = true -> step h s t = s.
Proof. intros E; unfold step; rewrite E; reflexivity. Qed.

Lemma shutdown_completes (h : Host) (s : Process) :
  exited (fold_left (step h) [Signal; LaunchSettled; CloseSettled] s) = true.
Proof.
  cbn [fold_left].
  destruct (exited s) eqn:Ex.
  { rewrite !(step_exited h s) by exact Ex. exact Ex. }
  assert (Hsig : step h s Signal = shutdown s)
    by (unfold step; rewrite Ex; reflexivity).
  rewrite Hsig. unfold shutdown.
  destruct (browserPromise (world s)) as [p|].
  - unfold step, shutdownResumed. cbn.
    destruct (launch h p); reflexivity.
  - rewrite !step_exited by reflexivity. reflexivity.
Qed.

(** X11.  [close()] is called at most once for each termination signal
    received, every close waited for was started, and the process exits
    only after a signal.  A signal that arrives before any request has
    asked for the browser ends the process at once, without launching a
    browser to close.  Whatever came before, a signal followed by the
    settling of the launch and of the close ends the process. *)
Theorem shutdown_accounting (h : Host) (turns : list turn) :
  let s := run h turns in
  (List.length (closed s) + List.length (awaitingLaunch s) <= signals turns)%nat
  /\ (awaitingClose s <= List.length (closed s))%nat
  /\ (exited s = true -> (1 <= signals turns)%nat)
  /\ (~ In CallGetBrowser turns ->
      launches (world s) = 0%nat /\ closed s = []
      /\ ((1 <= signals turns)%nat -> exited s = true))
  /\ exited (run h (turns ++ [Signal; LaunchSettled; CloseSettled])) = true.
Proof.
  cbv zeta. unfold run.
  assert (H0 : (List.length (closed boot) + List.length (awaitingLaunch boot)
                <= 0)%nat
               /\ (awaitingClose boot <= List.length (closed boot))%nat
               /\ (exited boot = true -> (1 <= 0)%nat)).
  { cbn. repeat split; intros; first [lia | discriminate]. }
  pose proof (fold_accounted h turns boot 0%nat H0) as (Hc & Ha & He).
  cbv zeta in Hc, Ha, He. rewrite Nat.add_0_r in Hc, He.
  split; [exact Hc|]. split; [exact Ha|]. split; [exact He|].
  split.
  - intros Hno.
    assert (Hidle : idle boot) by (repeat split).
    destruct (fold_idle h turns boot Hidle Hno) as ((_ & Hl & Hcl & _) & Hex).
    split; [exact Hl|]. split; [exact Hcl|].
    intros L. apply Hex. right; exact L.
  - rewrite fold_left_app. apply shutdown_completes.
Qed.

(** A signal with no browser asked for: the process has exited, and no
    browser was launched. *)
Lemma shutdown_accounting_witness :
  launches (world (run (demoHost "bkt") [Signal; LaunchSettled])) = 0%nat
  /\ exited (run (demoHost "bkt") [Signal; LaunchSettled]) = true.
Proof.
  destruct (shutdown_accounting (demoHost "bkt") [Signal; LaunchSettled])
    as (_ & _ & _ & Hidle & _).
  assert (Hno : ~ In CallGetBrowser [Signal; LaunchSettled])
    by (cbn; intuition discriminate).
  destruct (Hidle Hno) as (Hl & _ & Hex).
  split; [exact Hl|]. apply Hex. cbn. lia.
Defined.

(** Two signals while the launch is pending: [close()] is called twice on
    the one browser. *)
Example two_signals_close_twice (h : Host) :
  launch h 0 = None ->
  closed (run h [CallGetBrowser; Signal; Signal; LaunchSettled; LaunchSettled])
  = [0%nat; 0%nat].
Proof.
  intros Hl. cbn. unfold shutdownResumed. cbn. rewrite Hl. cbn.
  unfold shutdownResumed. rewrite Hl. reflexivity.
Qed.
(** ** The stored object and its signed URL *)

Lemma uploadPdfAndSign_signed (h : Host) (buf : pdf) (name : string)
    (w w1 : World) (up : object) :
  uploadPdfAndSign h buf name w = (inr up, w1) ->
  exists url,
    save h name buf = None
    /\ getSignedUrl h name
         (clock h (clockReads w) + PDF_URL_TTL_MINUTES h * 60 * 1000) = inr url
    /\ up = [ ("gcsPath", VStr ("gs://" ++ BUCKET_NAME h ++ "/" ++ name));
              ("url", VStr url) ]
    /\ bucket w1 = (bucket w ++ [(name, buf)])%list
    /\ clockReads w1 = S (clockReads w).
Proof.
  unfold uploadPdfAndSign.
  destruct (String.eqb (BUCKET_NAME h) EmptyString);
    [intros H; unfold throw in H; absurd_outcome H|].
  destruct (save h name buf);
    [intros H; unfold throw in H; absurd_outcome H|].
  unfold bind, putObject, readClock, settle, ret; cbn [clockReads].
  destruct (getSignedUrl h name _) as [msg|url] eqn:Hsign; cbn [fromHost];
    intros H; [absurd_outcome H|].
  injection H as <- <-. exists url. repeat split.
Qed.

(** X12.  What a successful render stores and returns.  The stored object
    is the PDF printed from the template file of the key, rendered with the
    payload; [gcsPath] names it in the configured bucket; [url] is the URL
    signed for that very object, expiring [PDF_URL_TTL_MINUTES] minutes
    after a reading of the clock made once the object was written.  That
    reading is not the one behind the time stamp of the prefix: it is the
    second reading of the render when the payload gives no prefix, and the
    only one when it does. *)
Theorem stored_object_and_signed_url (h : Host) (key : value)
    (payload : object) (w w' : World) (file : object) :
  generateOnePdf h key payload w = (inr file, w') ->
  let name := objectNameIn h key payload w in
  let reads := if Js.truthy (Js.getProp payload "prefix") then 0%nat else 1%nat in
  exists raw buf url,
    readFile h (templatePath h (Js.toString key)) = inr raw
    /\ printPdf h (renderTemplate h raw payload) = inr buf
    /\ bucket w' = (bucket w ++ [(name, buf)])%list
    /\ getSignedUrl h name
         (clock h (clockReads w + reads)
          + PDF_URL_TTL_MINUTES h * 60 * 1000) = inr url
    /\ Js.getProp file "url" = VStr url
    /\ Js.getProp file "gcsPath"
       = VStr ("gs://" ++ BUCKET_NAME h ++ "/" ++ name)
    /\ Js.getProp file "bucket" = VStr (BUCKET_NAME h)
    /\ clockReads w' = S (clockReads w + reads).
Proof.
  intros G name reads. pose proof G as G'.
  apply generateOnePdf_stages in G' as (raw & buf & _ & Hread & _ & Hprint & Hfwd).
  rewrite Hfwd in G. apply bind_inr in G as (up & w1 & Hup & Hret).
  unfold ret in Hret. injection Hret as <- <-.
  apply uploadPdfAndSign_signed in Hup as (url & _ & Hsign & -> & Hb & Hc).
  assert (Hreads : clockReads (beforeUpload h payload w)
                   = (clockReads w + reads)%nat).
  { unfold beforeUpload, reads.
    destruct (getBrowser_frame w) as (_ & Hg & _).
    destruct (Js.truthy (Js.getProp payload "job_id"));
      destruct (Js.truthy (Js.getProp payload "prefix")); cbn; rewrite Hg; lia. }
  rewrite Hreads in Hsign, Hc.
  rewrite (proj1 (beforeUpload_frame h payload w)) in Hb.
  exists raw, buf, url. repeat split; assumption || reflexivity.
Qed.

(** The example request: the object, and an expiry seven days after the
    second reading of the clock. *)
Lemma stored_object_and_signed_url_witness :
  exists url,
    getSignedUrl (demoHost "bkt")
      "pdfs/20240305_010203_job-0/meal_first_jane-doe_job-0.pdf"
      (1709600523000 + 604800000) = inr url
    /\ Js.getProp
         (match fst (generateOnePdf (demoHost "bkt") (VStr "meal_first")
                       janeRequest initialWorld) with
          | inr file => file
          | inl _ => []
          end) "url" = VStr url.
Proof.
  destruct (generateOnePdf (demoHost "bkt") (VStr "meal_first") janeRequest
              initialWorld) as [[e|file] w'] eqn:G;
    [vm_compute in G; absurd_outcome G|].
  destruct (stored_object_and_signed_url (demoHost "bkt") (VStr "meal_first")
              janeRequest initialWorld w' file G)
    as (raw & buf & url & _ & _ & _ & Hsign & Hurl & _).
  exists url. split; [exact Hsign | exact Hurl].
Defined.

(** ** The two POST routes on one key *)

(** X13.  The single route is the batch of one.  For a body that names the
    same key as [template_key] and as the only item of [template_keys], the
    two routes do the same to the process and answer with the same status;
    on success the [file] of the one is the entry of the key in the
    [files] of the other, and on failure the two answers are the same. *)
Theorem single_route_is_batch_of_one (h : Host) (req : request) (w : World)
    (k : string) :
  Js.getProp (body req) "template_key" = VStr k ->
  k <> EmptyString ->
  Js.getProp (body req) "template_keys" = VArr [VStr k] ->
  snd (postPdf h req w) = snd (postPdfs h req w)
  /\ status (fst (postPdf h req w)) = status (fst (postPdfs h req w))
  /\ (status (fst (postPdf h req w)) = 200 ->
      exists file,
        Js.getProp (json (fst (postPdf h req w))) "file" = VObj file
        /\ Js.getProp (json (fst (postPdfs h req w))) "files"
           = VObj [(k, VObj file)])
  /\ (status (fst (postPdf h req w)) <> 200 ->
      fst (postPdf h req w) = fst (postPdfs h req w)).
Proof.
  intros Hkey Hne Hkeys.
  assert (Hres : resolveTemplateKey (body req) (query req) = VStr k).
  { unfold resolveTemplateKey, Js.or. rewrite Hkey. cbn [Js.truthy].
    destruct (String.eqb_spec k EmptyString) as [E|_]; [contradiction|].
    reflexivity. }
  assert (Ht : Js.truthy (VStr k) = true).
  { cbn [Js.truthy]. destruct (String.eqb_spec k EmptyString) as [E|_];
      [contradiction|reflexivity]. }
  unfold postPdf, postPdfs, keysToGenerate. cbv zeta.
  rewrite Hres, Hkeys, Ht. cbn [negb generateAll]; cbv iota.
  unfold bind.
  destruct (generateOnePdf h (VStr k) (body req) w) as [[e|file] w1].
  - cbn. repeat split. intros H; discriminate H.
  - cbn [ret fst snd status json Js.toString Js.setProp].
    repeat split.
    + intros _. exists file. split; reflexivity.
    + intros H; contradiction H; reflexivity.
Qed.

Lemma single_route_is_batch_of_one_witness :
  snd (postPdf (demoHost "bkt")
         (mkRequest [ ("template_key", VStr "meal_first");
                      ("template_keys", VArr [VStr "meal_first"]) ] [])
         initialWorld)
  = snd (postPdfs (demoHost "bkt")
           (mkRequest [ ("template_key", VStr "meal_first");
                        ("template_keys", VArr [VStr "meal_first"]) ] [])
           initialWorld).
Proof.
  refine (proj1 (single_route_is_batch_of_one (demoHost "bkt")
                   (mkRequest [ ("template_key", VStr "meal_first");
                                ("template_keys", VArr [VStr "meal_first"]) ]
                      [])
                   initialWorld "meal_first" eq_refl _ eq_refl)).
  discriminate.
Defined.
(** ** ISO dates through the date filter *)

Lemma civil_shift (z k : Z) :
  Time.civil (z + 146097 * k)
  = (let '(y, m, d) := Time.civil z in (y + 400 * k, m, d)).
Proof.
  unfold Time.civil. cbv zeta.
  replace (z + 146097 * k + 719468) with (z + 719468 + k * 146097) by lia.
  rewrite Z.div_add, Z.mod_add by lia.
  set (doe := (z + 719468) mod 146097).
  set (era := (z + 719468) / 146097).
  set (yoe := (doe - doe / 1460 + doe / 36524 - doe / 146096) / 365).
  set (doy := doe - (365 * yoe + yoe / 4 - yoe / 100)).
  set (mp := (5 * doy + 2) / 153).
  destruct ((if mp <? 10 then mp + 3 else mp - 9) <=? 2);
    f_equal; f_equal; lia.
Qed.

Lemma daysFromCivil_shift (y m d k : Z) :
  Time.daysFromCivil (y + 400 * k) m d = Time.daysFromCivil y m d + 146097 * k.
Proof.
  unfold Time.daysFromCivil. cbv zeta.
  destruct (m <=? 2).
  - replace (y + 400 * k - 1) with (y - 1 + k * 400) by lia.
    rewrite Z.div_add by lia.
    replace (y - 1 + k * 400 - ((y - 1) / 400 + k) * 400)
      with (y - 1 - (y - 1) / 400 * 400) by lia.
    lia.
  - replace (y + 400 * k) with (y + k * 400) by lia.
    rewrite Z.div_add by lia.
    replace (y + k * 400 - (y / 400 + k) * 400) with (y - y / 400 * 400) by lia.
    lia.
Qed.

Lemma daysInMonth_shift (y m k : Z) :
  Time.daysInMonth (y + 400 * k) m = Time.daysInMonth y m.
Proof.
  unfold Time.daysInMonth, Time.isLeap.
  replace ((y + 400 * k) mod 4) with (y mod 4)
    by (replace (y + 400 * k) with (y + (100 * k) * 4) by lia;
        rewrite Z.mod_add by lia; reflexivity).
  replace ((y + 400 * k) mod 100) with (y mod 100)
    by (replace (y + 400 * k) with (y + (4 * k) * 100) by lia;
        rewrite Z.mod_add by lia; reflexivity).
  replace ((y + 400 * k) mod 400) with (y mod 400)
    by (replace (y + 400 * k) with (y + k * 400) by lia;
        rewrite Z.mod_add by lia; reflexivity).
  reflexivity.
Qed.

Lemma era_checked :
  Spec.forallBelow 400
    (fun y => Spec.forallFrom 12 1 (fun m => monthChecked y m)) = true.
Proof. vm_compute; reflexivity. Qed.

(** [Time.civil] undoes [Time.daysFromCivil] on every date of the calendar. *)
Lemma civil_daysFromCivil (y m d : Z) :
  calendarDate y m d ->
  Time.civil (Time.daysFromCivil y m d) = (y, m, d).
Proof.
  intros (Hm & Hd).
  assert (Hy : y = y mod 400 + 400 * (y / 400))
    by (pose proof (Z.div_mod y 400); lia).
  set (y0 := y mod 400) in *. set (k := y / 400) in *.
  assert (Hy0 : 0 <= y0 < 400) by (apply Z.mod_pos_bound; lia).
  clearbody y0 k. subst y.
  rewrite daysInMonth_shift in Hd.
  rewrite daysFromCivil_shift, civil_shift.
  pose proof (forallBelow_spec _ _ era_checked y0 Hy0) as H.
  cbv beta in H.
  pose proof (forallFrom_spec _ _ _ H m) as H1.
  assert (Hm' : 1 <= m < 1 + Z.of_nat 12) by lia.
  specialize (H1 Hm'). unfold monthChecked in H1.
  pose proof (forallFrom_spec _ _ _ H1 d) as H2. cbv beta in H2.
  assert (Hd31 : Time.daysInMonth y0 m <= 31).
  { unfold Time.daysInMonth.
    destruct (m =? 2); [destruct (Time.isLeap y0); lia|].
    destruct (_ || _)%bool; lia. }
  assert (Hd' : 1 <= d < 1 + Z.of_nat 31) by lia.
  specialize (H2 Hd').
  destruct (Z.leb_spec d (Time.daysInMonth y0 m)) as [_|]; [|lia].
  destruct (Time.civil (Time.daysFromCivil y0 m d)) as [[y' m'] d'].
  apply andb_prop in H2 as [H2 Hd2]. apply andb_prop in H2 as [Hy2 Hm2].
  apply Z.eqb_eq in Hy2, Hm2, Hd2. subst. reflexivity.
Qed.

Lemma fourDigits_checked :
  Spec.forallBelow 10000
    (fun y =>
       ((if y <? 1000 then true else String.eqb (Dec.ofZ y) (fourDigits y))
        && match Time.digitsVal 0 (fourDigits y) with
           | Some v => v =? y
           | None => false
           end)%bool) = true.
Proof. vm_compute; reflexivity. Qed.

Lemma twoDigits_checked :
  Spec.forallBelow 100
    (fun n => match Time.digitsVal 0 (Spec.twoDigits n) with
              | Some v => v =? n
              | None => false
              end) = true.
Proof. vm_compute; reflexivity. Qed.

Lemma digitsVal_fourDigits (y : Z) :
  0 <= y < 10000 -> Time.digitsVal 0 (fourDigits y) = Some y.
Proof.
  intros H. pose proof (forallBelow_spec _ _ fourDigits_checked y H) as Hc.
  cbv beta in Hc. apply andb_prop in Hc as [_ Hc].
  destruct (Time.digitsVal 0 (fourDigits y)); [|discriminate].
  apply Z.eqb_eq in Hc. subst; reflexivity.
Qed.

Lemma ofZ_fourDigits (y : Z) :
  1000 <= y <= 9999 -> Dec.ofZ y = fourDigits y.
Proof.
  intros H.
  assert (H' : 0 <= y < 10000) by lia.
  pose proof (forallBelow_spec _ _ fourDigits_checked y H') as Hc.
  cbv beta in Hc. apply andb_prop in Hc as [Hc _].
  destruct (Z.ltb_spec y 1000); [lia|].
  apply String.eqb_eq; exact Hc.
Qed.

Lemma digitsVal_twoDigits (n : Z) :
  0 <= n < 100 -> Time.digitsVal 0 (Spec.twoDigits n) = Some n.
Proof.
  intros H. pose proof (forallBelow_spec _ _ twoDigits_checked n H) as Hc.
  cbv beta in Hc.
  destruct (Time.digitsVal 0 (Spec.twoDigits n)); [|discriminate].
  apply Z.eqb_eq in Hc. subst; reflexivity.
Qed.

Lemma daysInMonth_range (y m : Z) : 28 <= Time.daysInMonth y m <= 31.
Proof.
  unfold Time.daysInMonth.
  destruct (m =? 2); [destruct (Time.isLeap y); lia|].
  destruct (_ || _)%bool; lia.
Qed.

Lemma parseIsoDate_isoDate (y m d : Z) :
  1000 <= y <= 9999 -> calendarDate y m d ->
  Time.parseIsoDate (isoDate y m d)
  = Some (Time.daysFromCivil y m d * Time.msPerDay).
Proof.
  intros Hy (Hm & Hd).
  pose proof (daysInMonth_range y m) as Hr.
  unfold isoDate. rewrite (ofZ_fourDigits y Hy).
  unfold Time.parseIsoDate.
  change (fourDigits y ++ "-" ++ Spec.twoDigits m ++ "-" ++ Spec.twoDigits d)
    with (String (Dec.digit (y / 1000))
            (String (Dec.digit (y / 100))
               (String (Dec.digit (y / 10))
                  (String (Dec.digit y)
                     (String "-"
                        (String (Dec.digit (m / 10))
                           (String (Dec.digit m)
                              (String "-" (Spec.twoDigits d))))))))).
  cbn [String.length Nat.eqb negb Str.take Str.drop Str.stripPrefix].
  change (Ascii.eqb "-" "-") with true. cbv iota.
  change (String (Dec.digit (y / 1000))
            (String (Dec.digit (y / 100))
               (String (Dec.digit (y / 10)) (String (Dec.digit y) ""))))
    with (fourDigits y).
  change (String (Dec.digit (m / 10)) (String (Dec.digit m) ""))
    with (Spec.twoDigits m).
  rewrite digitsVal_fourDigits, !digitsVal_twoDigits by lia.
  replace ((1 <=? m) && (m <=? 12) && (1 <=? d)
           && (d <=? Time.daysInMonth y m))%bool with true; [reflexivity|].
  symmetry. rewrite !andb_true_iff, !Z.leb_le. lia.
Qed.

Lemma isoDate_truthy (y m d : Z) :
  1000 <= y <= 9999 -> Js.truthy (VStr (isoDate y m d)) = true.
Proof.
  intros Hy. unfold isoDate. rewrite (ofZ_fourDigits y Hy). reflexivity.
Qed.

Lemma formatDate_on_day (h : Host) (y m d : Z) (fmt : string) (n : Z) :
  1000 <= y <= 9999 -> calendarDate y m d ->
  fmt <> "%B %d, %Y" ->
  Time.day (localTime h (Time.daysFromCivil y m d * Time.msPerDay)) = n ->
  formatDate h (VStr (isoDate y m d)) fmt
  = (let '(y', m', d') := Time.civil n in isoDate y' m' d').
Proof.
  intros Hy Hcal Hfmt Hday.
  rewrite (formatDate_truthy h _ fmt (isoDate_truthy y m d Hy)).
  unfold Spec.dateFilter, newDate, dateParse.
  rewrite (parseIsoDate_isoDate y m d Hy Hcal), Hday.
  destruct (Time.civil n) as [[y' m'] d'].
  destruct (String.eqb_spec fmt "%B %d, %Y") as [E|_]; [contradiction|].
  reflexivity.
Qed.

(** X14.  An ISO date comes back from the date filter as it went in, on a
    host whose local time is UTC or ahead of it: for every date of the
    calendar in the years 1000 to 9999, written [YYYY-MM-DD], and every
    format other than [%B %d, %Y], the filter gives the same text.  On a
    host behind UTC it gives the text of the day before. *)
Theorem iso_date_round_trip (h : Host) (y m d : Z) (fmt : string) :
  1000 <= y <= 9999 -> calendarDate y m d ->
  fmt <> "%B %d, %Y" ->
  let t := Time.daysFromCivil y m d * Time.msPerDay in
  (0 <= localTZA h t < Time.msPerDay ->
   formatDate h (VStr (isoDate y m d)) fmt = isoDate y m d)
  /\ (- Time.msPerDay <= localTZA h t < 0 ->
      formatDate h (VStr (isoDate y m d)) fmt
      = (let '(y', m', d') := Time.civil (Time.daysFromCivil y m d - 1) in
         isoDate y' m' d')).
Proof.
  intros Hy Hcal Hfmt t. split; intros Hoff.
  - rewrite (formatDate_on_day h y m d fmt (Time.daysFromCivil y m d)
               Hy Hcal Hfmt).
    + rewrite (civil_daysFromCivil y m d Hcal). reflexivity.
    + unfold localTime. apply day_of_local; [reflexivity | exact Hoff].
  - apply (formatDate_on_day h y m d fmt (Time.daysFromCivil y m d - 1)
             Hy Hcal Hfmt).
    unfold localTime. fold t.
    replace (t + localTZA h t)
      with ((Time.daysFromCivil y m d - 1) * Time.msPerDay
            + (localTZA h t + Time.msPerDay))
      by (unfold t; lia).
    apply day_of_local; [reflexivity | lia].
Qed.

(** The first of March 2024: unchanged on a host at UTC, the 29th of
    February on a host five hours behind. *)
Lemma iso_date_round_trip_witness :
  formatDate (demoHost "bkt") (VStr "2024-03-01") "%Y-%m-%d" = "2024-03-01"
  /\ formatDate westernHost (VStr "2024-03-01") "%Y-%m-%d" = "2024-02-29".
Proof.
  assert (Hy : 1000 <= 2024 <= 9999) by lia.
  assert (Hcal : calendarDate 2024 3 1) by (vm_compute; intuition discriminate).
  assert (Hfmt : "%Y-%m-%d" <> "%B %d, %Y") by discriminate.
  split.
  - apply (proj1 (iso_date_round_trip (demoHost "bkt") 2024 3 1 "%Y-%m-%d"
                    Hy Hcal Hfmt)).
    vm_compute. intuition discriminate.
  - apply (proj2 (iso_date_round_trip westernHost 2024 3 1 "%Y-%m-%d"
                    Hy Hcal Hfmt)).
    vm_compute. intuition discriminate.
Defined.
